(** * REITs prospectus search: a shallow embedding of the retrieval core

    The development follows the Python sources of the repository:
    - [utils/page_utils.py], [utils/chunk_utils.py]: page labels, range
      filtering, window expansion, text merging;
    - [searchers/hybrid_searcher.py]: merge and ranking of vector and
      keyword candidates;
    - [utils/llm_utils.py], [utils/chunk_selector.py]: best-of-N title
      selection with a completion model as a fallible oracle;
    - [prospectus_search_tool.py], [tool_entry.py]: intent-shaped error
      responses of the orchestrator;
    - [demo_deepseek_simulated_calling.py]: the text-protocol conversation
      driver.

    Python [str] values are sequences of Unicode code points, Python [int]
    values are [Z], scores (finite floats, only ever compared) are [Q].
    Library calls that leave the repository (the JSON decoder, the
    completion API, the retrieval tool invoked by the driver) are Section
    variables. *)

From Stdlib Require Import ZArith NArith QArith String Ascii List Lia.
From Stdlib Require Import Sorting.Sorted Sorting.Permutation.
From stdpp Require Import base decidable list gmap sorting.

Local Open Scope Z_scope.
Local Set Warnings "-register-all".

(* ===================================================================== *)
(** * Part I. The embedding                                               *)
(* ===================================================================== *)

(** ** Python strings *)

Module Py.

(** A Python [str]: its code points in order. *)
Definition str := list N.

(** Source text of this file is UTF-8; [utf8] decodes a literal into the
    code points Python sees. [need] counts the continuation bytes still
    expected and [acc] holds the bits read so far. *)
Fixpoint utf8_decode (bs : list N) (need : nat) (acc : N) : str :=
  match bs with
  | [] => []
  | b :: bs' =>
    match need with
    | O =>
      if (b <? 128)%N then b :: utf8_decode bs' 0 0%N
      else if (b <? 224)%N then utf8_decode bs' 1 (b - 192)%N
      else if (b <? 240)%N then utf8_decode bs' 2 (b - 224)%N
      else utf8_decode bs' 3 (b - 240)%N
    | S O => (acc * 64 + (b - 128))%N :: utf8_decode bs' 0 0%N
    | S n => utf8_decode bs' n (acc * 64 + (b - 128))%N
    end
  end.

Definition utf8 (s : string) : str :=
  utf8_decode (List.map N_of_ascii (list_ascii_of_string s)) 0 0%N.

Arguments utf8 s%_string.

Definition empty : str := [].

(** [not s] for a string. *)
Definition falsy (s : str) : bool :=
  match s with [] => true | _ => false end.

(** [str.isspace] on one character; also the class [\s] of [re] and the
    characters removed by [str.strip()]. *)
Definition isspace (c : N) : bool :=
  ((9 <=? c) && (c <=? 13) || (28 <=? c) && (c <=? 32)
   || (c =? 133) || (c =? 160) || (c =? 5760)
   || (8192 <=? c) && (c <=? 8202)
   || (c =? 8232) || (c =? 8233) || (c =? 8239) || (c =? 8287)
   || (c =? 12288))%N.

Fixpoint lstrip (s : str) : str :=
  match s with
  | c :: s' => if isspace c then lstrip s' else s
  | [] => []
  end.

Definition rstrip (s : str) : str := rev (lstrip (rev s)).

(** [s.strip()] *)
Definition strip (s : str) : str := rstrip (lstrip s).

(** [s.split(sep)] for a one-character separator. *)
Fixpoint split (sep : N) (s : str) : list str :=
  match s with
  | [] => [[]]
  | c :: s' =>
    if (c =? sep)%N then [] :: split sep s'
    else match split sep s' with
         | p :: ps => (c :: p) :: ps
         | [] => [[c]]
         end
  end.

(** [s.startswith(prefix)] *)
Fixpoint startswith (s prefix : str) : bool :=
  match prefix, s with
  | [], _ => true
  | p :: ps, c :: cs => (p =? c)%N && startswith cs ps
  | _ :: _, [] => false
  end.

(** [sep.join(parts)] *)
Fixpoint join (sep : str) (parts : list str) : str :=
  match parts with
  | [] => []
  | [p] => p
  | p :: ps => p ++ sep ++ join sep ps
  end.

(** Zero digits of the Unicode decimal-digit (Nd) blocks, each followed by
    the digits one to nine (Unicode 14, as shipped with CPython 3.11):
    the characters [int] converts and [\d] matches. *)
Definition decimal_zeros : list N :=
  [48; 1632; 1776; 1984; 2406; 2534; 2662; 2790; 2918; 3046; 3174; 3302;
   3430; 3558; 3664; 3792; 3872; 4160; 4240; 6112; 6160; 6470; 6608; 6784;
   6800; 6992; 7088; 7232; 7248; 42528; 43216; 43264; 43472; 43504; 43600;
   44016; 65296; 66720; 68912; 69734; 69872; 69942; 70096; 70384; 70736;
   70864; 71248; 71360; 71472; 71904; 72016; 72784; 73040; 73120; 92768;
   92864; 93008; 120782; 120792; 120802; 120812; 120822; 123200; 123632;
   125264; 130032]%N.

Fixpoint decimal_in (zeros : list N) (c : N) : option N :=
  match zeros with
  | [] => None
  | z :: zs =>
    if ((z <=? c) && (c <? z + 10))%N then Some (c - z)%N
    else decimal_in zs c
  end.

Definition decimal (c : N) : option N := decimal_in decimal_zeros c.

Definition isdecimal (c : N) : bool :=
  match decimal c with Some _ => true | None => false end.

Definition UNDERSCORE : N := 95.
Definition PLUS : N := 43.
Definition MINUS : N := 45.

(** The digit part of an integer literal: digits, with single underscores
    between digits only. [prev] tells whether the previous character was a
    digit. *)
Fixpoint int_digits (s : str) (acc : N) (prev : bool) : option N :=
  match s with
  | [] => if prev then Some acc else None
  | c :: s' =>
    if (c =? UNDERSCORE)%N then
      if prev then
        match s' with
        | [] => None
        | _ => int_digits s' acc false
        end
      else None
    else
      match decimal c with
      | Some d => int_digits s' (10 * acc + d)%N true
      | None => None
      end
  end.

(** [int(s)] for a string [s] that carries no white space at either end
    (every call in the sources is [int(x.strip())] or [int] of a [\d+]
    group); [None] stands for [ValueError]. *)
Definition int (s : str) : option Z :=
  match s with
  | [] => None
  | c :: s' =>
    if (c =? PLUS)%N then
      match int_digits s' 0%N false with
      | Some n => Some (Z.of_N n) | None => None end
    else if (c =? MINUS)%N then
      match int_digits s' 0%N false with
      | Some n => Some (- Z.of_N n) | None => None end
    else
      match int_digits s 0%N false with
      | Some n => Some (Z.of_N n) | None => None end
  end.

(** [str(n)] for an integer. *)
Fixpoint of_uint (d : Decimal.uint) : str :=
  match d with
  | Decimal.Nil => []
  | Decimal.D0 d => 48%N :: of_uint d
  | Decimal.D1 d => 49%N :: of_uint d
  | Decimal.D2 d => 50%N :: of_uint d
  | Decimal.D3 d => 51%N :: of_uint d
  | Decimal.D4 d => 52%N :: of_uint d
  | Decimal.D5 d => 53%N :: of_uint d
  | Decimal.D6 d => 54%N :: of_uint d
  | Decimal.D7 d => 55%N :: of_uint d
  | Decimal.D8 d => 56%N :: of_uint d
  | Decimal.D9 d => 57%N :: of_uint d
  end.

Definition of_int (z : Z) : str :=
  match Z.to_int z with
  | Decimal.Pos d => of_uint d
  | Decimal.Neg d => MINUS :: of_uint d
  end.

(** [s.find(sub) != -1], and the text from the first occurrence on. *)
Fixpoint find_from (sub s : str) : option str :=
  if startswith s sub then Some s
  else match s with
       | [] => None
       | _ :: s' => find_from sub s'
       end.

(** The first occurrence of character [c]: the text before it and the
    text after it. *)
Fixpoint break_at (c : N) (s : str) : option (str * str) :=
  match s with
  | [] => None
  | x :: s' =>
    if (x =? c)%N then Some ([], s')
    else match break_at c s' with
         | Some (a, b) => Some (x :: a, b)
         | None => None
         end
  end.

(** [sorted(l, key=...)] and [list.sort(key=...)]: Python's sort is
    stable, so its result is the one of stable insertion. [lt a b] is the
    comparison of the keys, [key a < key b]. *)
Section Sorted.
Context {A : Type} (lt : A -> A -> bool).

Fixpoint insert (x : A) (l : list A) : list A :=
  match l with
  | [] => [x]
  | y :: l' => if lt y x then y :: insert x l' else x :: y :: l'
  end.

Fixpoint sorted (l : list A) : list A :=
  match l with
  | [] => []
  | x :: l' => insert x (sorted l')
  end.

(** [a] may stand before [b] in a sorted list: [b] is not smaller. *)
Definition before (a b : A) : Prop := lt b a = false.
End Sorted.

(** [min(l)] and [max(l)] of a non-empty sequence [x :: l]. *)
Definition min (x : Z) (l : list Z) : Z := fold_left Z.min l x.
Definition max (x : Z) (l : list Z) : Z := fold_left Z.max l x.

End Py.

(** ** Search results ([searchers/base_searcher.py]) *)

(** The dataclass [SearchResult]. A score is a finite float that the code
    only negates and compares, which is exact: it is held as the rational
    it denotes (a NaN score, which no adapter produces, has no place in the
    order and is outside the model). *)
Record SearchResult := mkSearchResult {
  global_id : Py.str;
  chunk_id : Z;
  source_file : Py.str;
  page_num : Py.str;
  text : Py.str;
  score : Q;
  fund_code : Py.str;
  date : Py.str;
  short_name : Py.str;
  from_methods : list Py.str
}.

Definition set_from_methods (r : SearchResult) (ms : list Py.str) : SearchResult :=
  {| global_id := global_id r; chunk_id := chunk_id r;
     source_file := source_file r; page_num := page_num r; text := text r;
     score := score r; fund_code := fund_code r; date := date r;
     short_name := short_name r; from_methods := ms |}.

(** [x is not None] *)
Definition is_not_None {A} (x : option A) : bool :=
  match x with Some _ => true | None => false end.

(** ** Page labels ([utils/page_utils.py]) *)

Module PageUtils.

(** Every part of the label between two ["-"] that [int] accepts; the
    other parts are skipped. *)
Definition extract_page_numbers_from_string (page_num_str : Py.str) : list Z :=
  if Py.falsy page_num_str then []
  else omap (fun part => Py.int (Py.strip part)) (Py.split Py.MINUS page_num_str).

(** The page numbers of every chunk, in order. *)
Definition all_pages_of (chunks : list SearchResult) : list Z :=
  flat_map (fun chunk => extract_page_numbers_from_string (page_num chunk)) chunks.

(** Returns [(min_page, max_page)], or [(None, None)]. *)
Definition calculate_page_range (chunks : list SearchResult)
    : option Z * option Z :=
  match all_pages_of chunks with
  | [] => (None, None)
  | p :: ps => (Some (Py.min p ps), Some (Py.max p ps))
  end.

(** [target_page in chunk_pages] *)
Definition contains_page (target_page : Z) (chunk : SearchResult) : bool :=
  existsb (Z.eqb target_page)
          (extract_page_numbers_from_string (page_num chunk)).

Fixpoint find_first_chunk_containing_page (all_chunks : list SearchResult)
    (target_page : Z) : option SearchResult :=
  match all_chunks with
  | [] => None
  | chunk :: rest =>
    if contains_page target_page chunk then Some chunk
    else find_first_chunk_containing_page rest target_page
  end.

Definition find_last_chunk_containing_page (all_chunks : list SearchResult)
    (target_page : Z) : option SearchResult :=
  fold_left (fun last_chunk chunk =>
               if contains_page target_page chunk then Some chunk
               else last_chunk)
            all_chunks None.

Definition get_page_range_from_chunks (chunks : list SearchResult)
    : option Z * option Z :=
  match all_pages_of chunks with
  | [] => (None, None)
  | p :: ps => (Some (Py.min p ps), Some (Py.max p ps))
  end.

(** The test both page-range functions make on a chunk with parsed pages:
    its span meets [start_page, end_page]. *)
Definition span_meets (start_page end_page : Z) (chunk : SearchResult) : bool :=
  match extract_page_numbers_from_string (page_num chunk) with
  | [] => false
  | p :: ps => (Py.max p ps >=? start_page) && (Py.min p ps <=? end_page)
  end.

(** One turn of the loop of [get_chunk_id_range_from_pages] on the pair
    [(min_chunk_id, max_chunk_id)]. *)
Definition widen (start_page end_page : Z) (range : option Z * option Z)
    (chunk : SearchResult) : option Z * option Z :=
  let '(min_chunk_id, max_chunk_id) := range in
  if span_meets start_page end_page chunk then
    let chunk_id := chunk_id chunk in
    (match min_chunk_id with
     | None => Some chunk_id
     | Some m => if chunk_id <? m then Some chunk_id else Some m
     end,
     match max_chunk_id with
     | None => Some chunk_id
     | Some m => if chunk_id >? m then Some chunk_id else Some m
     end)
  else range.

Definition get_chunk_id_range_from_pages (all_chunks : list SearchResult)
    (start_page end_page : Z) : option Z * option Z :=
  fold_left (widen start_page end_page) all_chunks (None, None).

End PageUtils.

(** ** Chunk filtering, expansion and merging ([utils/chunk_utils.py]) *)

Module ChunkUtils.

(** The body of the first loop: [false] where the source hits [continue]. *)
Definition chunk_id_pass (start_chunk_id end_chunk_id : option Z)
    (chunk : SearchResult) : bool :=
  let chunk_id := chunk_id chunk in
  match start_chunk_id with
  | Some lo => if chunk_id <? lo then false else
      match end_chunk_id with
      | Some hi => if chunk_id >? hi then false else true
      | None => true
      end
  | None =>
      match end_chunk_id with
      | Some hi => if chunk_id >? hi then false else true
      | None => true
      end
  end.

(** The body of the second loop. *)
Definition page_pass (start_page end_page : option Z) (chunk : SearchResult) : bool :=
  let chunk_pages := PageUtils.extract_page_numbers_from_string (page_num chunk) in
  match chunk_pages with
  | [] => true
  | p :: ps =>
    let min_page := Py.min p ps in
    let max_page := Py.max p ps in
    match start_page with
    | Some lo => if max_page <? lo then false else
        match end_page with
        | Some hi => if min_page >? hi then false else true
        | None => true
        end
    | None =>
        match end_page with
        | Some hi => if min_page >? hi then false else true
        | None => true
        end
    end
  end.

Definition apply_range_limitations (chunks : list SearchResult)
    (start_page end_page start_chunk_id end_chunk_id : option Z)
    : list SearchResult :=
  match chunks with
  | [] => chunks
  | _ =>
    let filtered_chunks := chunks in
    let filtered_chunks :=
      if is_not_None start_chunk_id || is_not_None end_chunk_id
      then List.filter (chunk_id_pass start_chunk_id end_chunk_id) filtered_chunks
      else filtered_chunks in
    let filtered_chunks :=
      if is_not_None start_page || is_not_None end_page
      then List.filter (page_pass start_page end_page) filtered_chunks
      else filtered_chunks in
    filtered_chunks
  end.

(** Comparison of two chunks by their sort key [chunk_id]. *)
Definition chunk_id_lt (a b : SearchResult) : bool := chunk_id a <? chunk_id b.

(** [target_chunk_ids] is a set in the source; it is read only through
    [min] and [max], which see neither order nor multiplicity. *)
Definition expand_chunks (target_chunks all_chunks : list SearchResult)
    (expand_before expand_after : Z) : list SearchResult :=
  match List.map chunk_id target_chunks with
  | [] => target_chunks
  | i :: ids =>
    if (expand_before =? 0) && (expand_after =? 0) then target_chunks
    else
      let min_chunk_id := Py.min i ids in
      let max_chunk_id := Py.max i ids in
      let expand_start_id := min_chunk_id - expand_before in
      let expand_end_id := max_chunk_id + expand_after in
      let expanded_chunks :=
        List.filter
          (fun chunk => (expand_start_id <=? chunk_id chunk)
                        && (chunk_id chunk <=? expand_end_id))
          all_chunks in
      Py.sorted chunk_id_lt expanded_chunks
  end.

Definition merge_chunks_text (chunks : list SearchResult) : Py.str :=
  match chunks with
  | [] => Py.empty
  | _ =>
    let sorted_chunks := Py.sorted chunk_id_lt chunks in
    let texts := List.map text sorted_chunks in
    Py.join Py.empty texts
  end.

(** Returns [(min_chunk_id, max_chunk_id)], or [(None, None)]. *)
Definition get_chunk_id_range_from_chunks (chunks : list SearchResult)
    : option Z * option Z :=
  match List.map chunk_id chunks with
  | [] => (None, None)
  | i :: ids => (Some (Py.min i ids), Some (Py.max i ids))
  end.

Definition filter_chunks_by_page_range (chunks : list SearchResult)
    (start_page end_page : Z) : list SearchResult :=
  List.filter (PageUtils.span_meets start_page end_page) chunks.

Definition filter_chunks_by_chunk_id_range (chunks : list SearchResult)
    (start_chunk_id end_chunk_id : Z) : list SearchResult :=
  List.filter (fun chunk => (start_chunk_id <=? chunk_id chunk)
                            && (chunk_id chunk <=? end_chunk_id))
              chunks.

End ChunkUtils.


(** ** Merge and ranking ([searchers/hybrid_searcher.py]) *)

Module HybridSearcher.

Definition VECTOR : Py.str := Eval vm_compute in Py.utf8 "vector".
Definition KEYWORD : Py.str := Eval vm_compute in Py.utf8 "keyword".

(** The loop state: [all_results] and [seen_ids]. The counters and the
    lists [vector_only], [keyword_only], [both_methods] of the source are
    only printed and are left out. *)
Definition merge_state : Type := list SearchResult * gset Py.str.

(** One turn of the first loop. *)
Definition add_vector (st : merge_state) (result : SearchResult) : merge_state :=
  let '(all_results, seen_ids) := st in
  if decide (global_id result ∈ seen_ids) then st
  else (all_results ++ [set_from_methods result [VECTOR]],
        seen_ids ∪ {[global_id result]}).

(** The inner loop of the second loop: the first entry with this id gets
    the tag, then [break]. *)
Fixpoint mark_keyword (gid : Py.str) (all_results : list SearchResult)
    : list SearchResult :=
  match all_results with
  | [] => []
  | existing :: rest =>
    if decide (global_id existing = gid) then
      (if decide (KEYWORD ∈ from_methods existing) then existing
       else set_from_methods existing (from_methods existing ++ [KEYWORD]))
      :: rest
    else existing :: mark_keyword gid rest
  end.

(** One turn of the second loop. *)
Definition add_keyword (st : merge_state) (result : SearchResult) : merge_state :=
  let '(all_results, seen_ids) := st in
  if decide (global_id result ∈ seen_ids)
  then (mark_keyword (global_id result) all_results, seen_ids)
  else (all_results ++ [set_from_methods result [KEYWORD]],
        seen_ids ∪ {[global_id result]}).

(** The sort key [(0 if "vector" in x.from_methods else 1, -x.score)]. *)
Definition sort_key (x : SearchResult) : Z * Q :=
  (if decide (VECTOR ∈ from_methods x) then 0 else 1, (- score x)%Q).

(** [<] on the key tuples: the first components decide unless they are
    equal. *)
Definition key_lt (a b : Z * Q) : bool :=
  if negb (fst a =? fst b) then fst a <? fst b
  else match (snd a ?= snd b)%Q with Lt => true | _ => false end.

Definition result_lt (a b : SearchResult) : bool := key_lt (sort_key a) (sort_key b).

Definition _merge_and_deduplicate (vector_results keyword_results : list SearchResult)
    : list SearchResult :=
  let st := fold_left add_vector vector_results ([], ∅) in
  let st := fold_left add_keyword keyword_results st in
  Py.sorted result_lt (fst st).

End HybridSearcher.

(** ** JSON values, as [json.loads] returns them *)

Module Json.

Inductive value :=
| Null
| Bool (b : bool)
| Int (n : Z)
| Float (q : Q)
| Str (s : Py.str)
| List (l : list value)
| Dict (d : list (Py.str * value)).

(** Outcome of [json.loads]: the value, or the text of the exception. *)
Inductive decoded :=
| Decoded (v : value)
| JSONDecodeError (msg : Py.str).

(** Truth value of a decoded value. *)
Definition truthy (v : value) : bool :=
  match v with
  | Null => false
  | Bool b => b
  | Int n => negb (n =? 0)
  | Float q => negb (Qeq_bool q 0)
  | Str s => negb (Py.falsy s)
  | List l => match l with [] => false | _ => true end
  | Dict d => match d with [] => false | _ => true end
  end.

(** [d.get(key)] on a dict; [None] when the key is absent. *)
Fixpoint get (d : list (Py.str * value)) (key : Py.str) : option value :=
  match d with
  | [] => None
  | (k, v) :: d' => if decide (k = key) then Some v else get d' key
  end.

End Json.

(** ** Reply parsing ([utils/llm_utils.py]) *)

Module LLMUtils.

Definition BACKTICK : N := 96.
Definition NEWLINE : N := 10.
Definition LBRACE : N := 123.
Definition RBRACE : N := 125.
Definition FENCE : Py.str := [BACKTICK; BACKTICK; BACKTICK].
Definition JSON_WORD : Py.str := Eval vm_compute in Py.utf8 "json".

(** [re.sub(r'^```(?:json)?', '', text)] *)
Definition strip_leading_fence (text : Py.str) : Py.str :=
  if Py.startswith text FENCE then
    let rest := drop 3 text in
    if Py.startswith rest JSON_WORD then drop 4 rest else rest
  else text.

(** [re.sub(r'```$', '', text)]: [$] is the end of the text or the place
    before a newline that ends it. *)
Definition strip_trailing_fence (text : Py.str) : Py.str :=
  let r := rev text in
  if Py.startswith r FENCE then rev (drop 3 r)
  else if Py.startswith r (NEWLINE :: FENCE) then rev (NEWLINE :: drop 4 r)
  else text.

(** [re.search(r'\{[^}]*\}', text)]: from the first opening brace to the
    first closing brace after it. *)
Definition search_braces (text : Py.str) : option Py.str :=
  match Py.break_at LBRACE text with
  | Some (_, after) =>
    match Py.break_at RBRACE after with
    | Some (body, _) => Some (LBRACE :: body ++ [RBRACE])
    | None => None
    end
  | None => None
  end.

Section Decoder.
Variable json_loads : Py.str -> Json.decoded.

Definition parse_llm_json_response (raw_response : Py.str) : Json.value :=
  let text := Py.strip raw_response in
  let text := strip_leading_fence text in
  let text := Py.strip (strip_trailing_fence text) in
  match json_loads text with
  | Json.Decoded v => v
  | Json.JSONDecodeError _ =>
    match search_braces text with
    | Some group =>
      match json_loads group with
      | Json.Decoded v => v
      | Json.JSONDecodeError _ => Json.Dict []
      end
    | None => Json.Dict []
    end
  end.
End Decoder.

End LLMUtils.

(** ** Best-of-N title selection ([utils/chunk_selector.py]) *)

Module ChunkSelector.

Definition TITLE : Py.str := Eval vm_compute in Py.utf8 "title".
Definition BEST_CHOICE : Py.str := Eval vm_compute in Py.utf8 "最佳选择".
Definition NO_MATCH : Py.str := Eval vm_compute in Py.utf8 "未检索到目标标题所在文本块".
Definition NO_CANDIDATES : Py.str := Eval vm_compute in Py.utf8 "未提供候选语块".
Definition OPTION : Py.str := Eval vm_compute in Py.utf8 "选项".
Definition NL : Py.str := [10%N].
Definition quoted (s : Py.str) : Py.str := [34%N] ++ s ++ [34%N].

(** An entry of [expanded_candidates]. *)
Record expanded_candidate := mkExpanded {
  index : Z;
  cand_chunk_id : Z;
  original_text : Py.str;
  expanded_text : Py.str;
  cand_page_num : Py.str
}.

(** [enumerate(l)] from [i] on. *)
Fixpoint enumerate {A} (i : Z) (l : list A) : list (Z * A) :=
  match l with
  | [] => []
  | x :: l' => (i, x) :: enumerate (i + 1) l'
  end.

(** [{chunk.chunk_id: chunk for chunk in all_chunks}]: a later chunk
    replaces an earlier one with the same id. *)
Definition chunk_map_of (all_chunks : list SearchResult) : gmap Z SearchResult :=
  fold_left (fun m chunk => <[chunk_id chunk := chunk]> m) all_chunks ∅.

Definition _expand_candidates (candidate_results all_chunks : list SearchResult)
    (expand_context : bool) : list expanded_candidate :=
  if negb expand_context then
    List.map (fun '(i, result) =>
                mkExpanded i (chunk_id result) (text result) (text result)
                           (page_num result))
             (enumerate 0 candidate_results)
  else
    let chunk_map := chunk_map_of all_chunks in
    List.map (fun '(i, candidate) =>
      let chunk_id := chunk_id candidate in
      let prev_chunk := chunk_map !! (chunk_id - 1) in
      let next_chunk := chunk_map !! (chunk_id + 1) in
      let expanded_parts :=
        (match prev_chunk with
         | Some c => [Py.utf8 "[前文]" ++ text c] | None => [] end)
        ++ [Py.utf8 "[目标]" ++ text candidate]
        ++ (match next_chunk with
            | Some c => [Py.utf8 "[后文]" ++ text c] | None => [] end) in
      mkExpanded i chunk_id (text candidate) (Py.join NL expanded_parts)
                 (page_num candidate))
      (enumerate 0 candidate_results).

Definition candidate_info (candidate : expanded_candidate) : Py.str :=
  let display_text :=
    if (1000 <? Z.of_nat (length (expanded_text candidate)))
    then take 1000 (expanded_text candidate) ++ Py.utf8 "..."
    else expanded_text candidate in
  Py.utf8 "选项" ++ Py.of_int (index candidate + 1)
  ++ Py.utf8 " (chunk_id=" ++ Py.of_int (cand_chunk_id candidate)
  ++ Py.utf8 ", page_num=" ++ cand_page_num candidate ++ Py.utf8 "):" ++ NL
  ++ display_text.

Definition _build_selection_prompt (search_info : Py.str)
    (expanded_candidates : list expanded_candidate) (intent : Py.str) : Py.str :=
  let candidates_text :=
    Py.join (NL ++ NL) (List.map candidate_info expanded_candidates) in
  Py.join NL [
    Py.utf8 "请从以下候选章节标题语块中选择最符合检索需求的文本块。";
    Py.empty;
    Py.utf8 "检索需求：" ++ search_info;
    Py.utf8 "系统识别的检索意图：" ++ intent;
    Py.utf8 "请你在如下文本块中找出为目标标题所在正文的文本块，请遵循：";
    Py.utf8 "- 请选择包含完整章节标题的语块，且后续内容明显是该章节的正文内容；";
    Py.utf8 "- 若某文本块虽然包含目标标题的字样，但是仅是对其的引用，则不考虑；";
    Py.utf8 "- 如未出现满足条件的语块，请将最终回答中的“最佳选择”填写为“未检索到目标标题所在文本块”，并在理由中说明未命中的原因。";
    Py.empty;
    Py.utf8 "候选文本块：";
    candidates_text;
    Py.empty;
    Py.utf8 "请仔细分析每个选项，仅输出以下JSON：";
    Py.utf8 "{";
    Py.utf8 "    " ++ quoted BEST_CHOICE ++ Py.utf8 ": "
      ++ quoted (Py.utf8 "选项X") ++ Py.utf8 ",";
    Py.utf8 "    " ++ quoted (Py.utf8 "选择理由") ++ Py.utf8 ": "
      ++ quoted (Py.utf8 "详细说明为什么选择这个选项") ++ Py.utf8 ",";
    Py.utf8 "    " ++ quoted (Py.utf8 "置信度") ++ Py.utf8 ": "
      ++ quoted (Py.utf8 "高/中/低");
    Py.utf8 "}";
    Py.empty;
    Py.utf8 "其中X为选项编号（1、2、3等）。不能输出除JSON之外的任何文字；若未命中标题，也请输出上述JSON，并将“最佳选择”设为“未检索到目标标题所在文本块”。"
  ].

(** The longest run of decimal digits that starts the text. *)
Fixpoint leading_digits (s : Py.str) : Py.str :=
  match s with
  | c :: s' => if Py.isdecimal c then c :: leading_digits s' else []
  | [] => []
  end.

(** [re.search(r'选项(\d+)', selection)]: group 1 of the leftmost match. *)
Fixpoint search_option (selection : Py.str) : option Py.str :=
  match selection with
  | [] => None
  | _ :: rest =>
    if Py.startswith selection OPTION then
      match leading_digits (drop 2 selection) with
      | [] => search_option rest
      | digits => Some digits
      end
    else search_option rest
  end.

Section Oracles.
(** [json.loads] *)
Variable json_loads : Py.str -> Json.decoded.
(** [self.llm_client.chat.completions.create(...)] on a one-message
    conversation with [temperature=0.0], read through
    [.choices[0].message.content]: the content, or [None] when the call
    or the access raises. *)
Variable chat_completion : Py.str -> option Py.str.

(** The selector object: its note, and the prompts sent to the model so
    far (oldest first). *)
Record selector := mkSelector {
  _last_selection_note : option Py.str;
  llm_requests : list Py.str
}.

Definition M (A : Type) : Type := selector -> A * selector.
Definition ret {A} (x : A) : M A := fun self => (x, self).
Definition bind {A B} (m : M A) (k : A -> M B) : M B :=
  fun self => let '(x, self') := m self in k x self'.
Definition set_note (note : option Py.str) : M unit :=
  fun self => (tt, mkSelector note (llm_requests self)).
Definition request (prompt : Py.str) : M (option Py.str) :=
  fun self => (chat_completion prompt,
               mkSelector (_last_selection_note self)
                          (llm_requests self ++ [prompt])).

Notation "'let*' x ':=' m 'in' k" := (bind m (fun x => k))
  (at level 10, x name, m at level 100, k at level 200).

Definition _call_llm_for_selection (prompt : Py.str) : M Py.str :=
  let* response := request prompt in
  match response with
  | Some content => ret (Py.strip content)
  | None => ret Py.empty
  end.

(** Returns [(index, no_match)]. Every exception of the body ends in the
    handler, which returns [(None, False)]. *)
Definition _parse_selection_result (raw_response : Py.str) (total_candidates : Z)
    : option Z * bool :=
  let result := LLMUtils.parse_llm_json_response json_loads raw_response in
  if negb (Json.truthy result) then (None, false)
  else
    match result with
    | Json.Dict d =>
      let chosen :=
        match Json.get d BEST_CHOICE with
        | None => Some Py.empty
        | Some v =>
          if Json.truthy v then
            match v with
            | Json.Str s => Some s
            | _ => None
            end
          else Some Py.empty
        end in
      match chosen with
      | None => (None, false)
      | Some s =>
        let selection := Py.strip s in
        if decide (selection = NO_MATCH) then (None, true)
        else
          match search_option selection with
          | Some digits =>
            match Py.int digits with
            | Some option_num =>
              let index := option_num - 1 in
              if (0 <=? index) && (index <? total_candidates)
              then (Some index, false)
              else (None, false)
            | None => (None, false)
            end
          | None => (None, false)
          end
      end
    | _ => (None, false)
    end.

Definition select_best_chunk (search_info : Py.str)
    (candidate_results all_chunks : list SearchResult)
    (expand_context : bool) (intent : Py.str) : M (option SearchResult) :=
  match candidate_results with
  | [] =>
    let* _ := set_note (if decide (intent = TITLE) then Some NO_CANDIDATES else None) in
    ret None
  | [only] => let* _ := set_note None in ret (Some only)
  | first :: _ =>
    if decide (intent <> TITLE) then let* _ := set_note None in ret (Some first)
    else
      let* _ := set_note None in
      let expanded_candidates :=
        _expand_candidates candidate_results all_chunks expand_context in
      let prompt :=
        _build_selection_prompt search_info expanded_candidates intent in
      let* selection_result := _call_llm_for_selection prompt in
      let '(selected_index, no_match) :=
        _parse_selection_result selection_result
                                (Z.of_nat (length candidate_results)) in
      if no_match then let* _ := set_note (Some NO_MATCH) in ret None
      else
        match selected_index with
        | Some i =>
          match candidate_results !! Z.to_nat i with
          | Some selected_chunk =>
            let* _ := set_note None in ret (Some selected_chunk)
          | None => let* _ := set_note None in ret (Some first)
          end
        | None => ret (Some first)
        end
  end.

(** A fresh selector, as [__init__] leaves it. *)
Definition init : selector := mkSelector None [].
End Oracles.

End ChunkSelector.

(** ** Batch selection ([utils/chunk_selector.py], continued) *)

Module ChunkSelectorBatch.

Section Oracles.
Variable json_loads : Py.str -> Json.decoded.
Variable chat_completion : Py.str -> option Py.str.

(** The loop of [select_best_chunks_batch]: one selection per group, on
    the same selector object, with [expand_context] at its default. *)
Fixpoint select_best_chunks_batch (search_info : Py.str)
    (candidate_groups : list (list SearchResult))
    (all_chunks : list SearchResult) (intent : Py.str)
    : ChunkSelector.M (list (option SearchResult)) :=
  match candidate_groups with
  | [] => ChunkSelector.ret []
  | candidates :: groups =>
    ChunkSelector.bind
      (ChunkSelector.select_best_chunk json_loads chat_completion search_info
         candidates all_chunks true intent)
      (fun best_chunk =>
         ChunkSelector.bind
           (select_best_chunks_batch search_info groups all_chunks intent)
           (fun results => ChunkSelector.ret (best_chunk :: results)))
  end.
End Oracles.

End ChunkSelectorBatch.

(** ** The index parser of [utils/llm_utils.py] *)

Module LLMUtilsSelection.

Section Decoder.
Variable json_loads : Py.str -> Json.decoded.

(** Returns the 0-based index of the option the reply names. Every
    exception of the body, from [.get] on a value that is no dictionary
    or from the pattern search on a value that is no string, ends in the
    handler, which returns 0 like the fall-through of the body. *)
Definition parse_chunk_selection_response (raw_response : Py.str)
    (total_options : Z) : Z :=
  match LLMUtils.parse_llm_json_response json_loads raw_response with
  | Json.Dict data =>
    let selection :=
      match Json.get data ChunkSelector.BEST_CHOICE with
      | None => Some Py.empty
      | Some (Json.Str s) => Some s
      | Some _ => None
      end in
    match selection with
    | Some selection =>
      match ChunkSelector.search_option selection with
      | Some digits =>
        match Py.int digits with
        | Some option_num =>
          let index := option_num - 1 in
          if (0 <=? index) && (index <? total_options) then index else 0
        | None => 0
        end
      | None => 0
      end
    | None => 0
    end
  | _ => 0
  end.
End Decoder.

End LLMUtilsSelection.

(** ** Response shapes of the orchestrator
       ([prospectus_search_tool.py], [tool_entry.py]) *)

Module ProspectusSearchTool.

Definition CATALOG : Py.str := Eval vm_compute in Py.utf8 "目录".
Definition TITLE : Py.str := Eval vm_compute in Py.utf8 "title".
Definition CONTENT : Py.str := Eval vm_compute in Py.utf8 "content".

(** One element of ["results"] in the list-shaped response. *)
Record result_item := mkItem {
  item_text : option Py.str;
  item_start_page : option Z;
  item_end_page : option Z;
  item_start_chunk_id : option Z;
  item_end_chunk_id : option Z
}.

(** The two dictionaries a caller can receive, told apart by their keys:
    the flat one has [content] and the four extents, the list one has
    [retrieved_count], [retrieved_summary] and [results]. *)
Inductive response :=
| Flat (success : bool) (source_file content : option Py.str)
       (start_page end_page start_chunk_id end_chunk_id : option Z)
       (error : option Py.str)
| Listed (success : bool) (source_file error : option Py.str)
         (retrieved_count : Z) (retrieved_summary : option Py.str)
         (results : list result_item).

Definition _create_error_result (error_msg : Py.str) (intent : Py.str) : response :=
  if decide (intent = TITLE) then
    Flat false None None None None None None (Some error_msg)
  else
    Listed false None (Some error_msg) 0 None [].

(** [prefix_map], in the order the dictionary is written. *)
Definition prefix_map : list (Py.str * list Py.str) :=
  Eval vm_compute in
  [ (TITLE, [Py.utf8 "章节标题检索："; Py.utf8 "章节标题检索:"]);
    (CONTENT, [Py.utf8 "内容检索："; Py.utf8 "内容检索:"]) ].

(** The inner loop over the prefixes of one intent. *)
Fixpoint match_prefixes (intent_key raw : Py.str) (prefixes : list Py.str)
    : option (Py.str * Py.str) :=
  match prefixes with
  | [] => None
  | prefix :: rest =>
    if Py.startswith raw prefix
    then Some (intent_key, Py.strip (drop (length prefix) raw))
    else match_prefixes intent_key raw rest
  end.

(** The outer loop over the intents. *)
Fixpoint match_intents (raw : Py.str) (m : list (Py.str * list Py.str))
    : option (Py.str * Py.str) :=
  match m with
  | [] => None
  | (intent_key, prefixes) :: rest =>
    match match_prefixes intent_key raw prefixes with
    | Some r => Some r
    | None => match_intents raw rest
    end
  end.

(** Returns [(intent, query)]. *)
Definition _parse_search_intent (search_info : Py.str) : Py.str * Py.str :=
  let raw := Py.strip search_info in
  if Py.falsy raw then (CONTENT, Py.empty)
  else
    match match_intents raw prefix_map with
    | Some r => r
    | None => (CONTENT, raw)
    end.

Definition _infer_intent_for_error (search_info : Py.str) : Py.str :=
  if Py.falsy search_info || bool_decide (search_info = CATALOG) then CONTENT
  else fst (_parse_search_intent search_info).

(** [None] when the parameters are valid, else the error text. *)
Definition _validate_parameters (fund_code search_info : Py.str)
    (start_page end_page start_chunk_id end_chunk_id : option Z) : option Py.str :=
  if Py.falsy fund_code || Py.falsy (Py.strip fund_code)
  then Some (Py.utf8 "基金代码不能为空")
  else
    match start_page, end_page with
    | Some lo, Some hi =>
      if lo >? hi then Some (Py.utf8 "起始页码不能大于截止页码") else
        match start_chunk_id, end_chunk_id with
        | Some lo', Some hi' =>
          if lo' >? hi' then Some (Py.utf8 "起始chunk_id不能大于截止chunk_id")
          else None
        | _, _ => None
        end
    | _, _ =>
      match start_chunk_id, end_chunk_id with
      | Some lo', Some hi' =>
        if lo' >? hi' then Some (Py.utf8 "起始chunk_id不能大于截止chunk_id")
        else None
      | _, _ => None
      end
    end.

Section Collaborators.
(** [FileManager.determine_prospectus_file]: the file name, or [None]
    (it turns its own exceptions into [None]). *)
Variable determine_prospectus_file : Py.str -> bool -> option Py.str.
(** [DirectorySearcher.get_directory_content fund_code source_file]. *)
Variable get_directory_content : Py.str -> Py.str -> response.
(** [_search_general_content], with the arguments in the order of the
    call: the retrieval pipeline behind it runs on the search backends
    and always returns a response. *)
Variable _search_general_content :
  Py.str -> Py.str -> Py.str -> option Z -> option Z -> option Z -> option Z
  -> Z -> Z -> response.

Definition search_prospectus (fund_code search_info : Py.str)
    (is_expansion : bool)
    (start_page end_page start_chunk_id end_chunk_id : option Z)
    (expand_before expand_after : Z) : response :=
  let intent_for_error := _infer_intent_for_error search_info in
  match _validate_parameters fund_code search_info start_page end_page
                             start_chunk_id end_chunk_id with
  | Some error => _create_error_result error intent_for_error
  | None =>
    match determine_prospectus_file fund_code is_expansion with
    | None =>
      let error_msg :=
        Py.utf8 "未找到基金 " ++ fund_code ++ Py.utf8 " 的"
        ++ (if is_expansion then Py.utf8 "扩募" else Py.utf8 "首发")
        ++ Py.utf8 "招募说明书" in
      _create_error_result error_msg intent_for_error
    | Some source_file =>
      if Py.falsy source_file then
        let error_msg :=
          Py.utf8 "未找到基金 " ++ fund_code ++ Py.utf8 " 的"
          ++ (if is_expansion then Py.utf8 "扩募" else Py.utf8 "首发")
          ++ Py.utf8 "招募说明书" in
        _create_error_result error_msg intent_for_error
      else if decide (search_info = CATALOG) then
        get_directory_content fund_code source_file
      else
        _search_general_content fund_code source_file search_info
          start_page end_page start_chunk_id end_chunk_id
          expand_before expand_after
    end
  end.
End Collaborators.

(** [tool_entry._guess_intent] on a string argument. *)
Definition _guess_intent (search_info : Py.str) : Py.str :=
  let stripped := Py.strip search_info in
  if Py.falsy stripped then CONTENT
  else if decide (stripped = CATALOG) then Py.utf8 "catalog"
  else if Py.startswith stripped (Py.utf8 "章节标题检索：")
          || Py.startswith stripped (Py.utf8 "章节标题检索:")
  then TITLE
  else CONTENT.

(** [tool_entry._build_wrapper_error] *)
Definition _build_wrapper_error (intent message : Py.str) : response :=
  if decide (intent = TITLE) then
    Flat false None None None None None None (Some message)
  else if decide (intent = Py.utf8 "catalog") then
    Flat false None None None None None None (Some message)
  else
    Listed false None (Some message) 0 None [].

End ProspectusSearchTool.

(** ** The retrieval pipeline behind the orchestrator
       ([prospectus_search_tool.py]) *)

Module ProspectusSearchPipeline.
Import ProspectusSearchTool.

(** The dictionary [_build_expanded_entry] returns. *)
Record expanded_entry := mkEntry {
  entry_order : Z;
  base_chunk_id : option Z;
  base_page_num : Py.str;
  entry_text : Py.str;
  entry_start_page : option Z;
  entry_end_page : option Z;
  entry_start_chunk_id : option Z;
  entry_end_chunk_id : option Z;
  page_range : option (Z * Z);
  chunk_range : option (Z * Z);
  chunk_ids : list Z
}.

Definition _build_expanded_entry (expanded_chunks : list SearchResult)
    (base_chunk : option SearchResult) (order : Z) : expanded_entry :=
  let expanded_chunks :=
    match expanded_chunks, base_chunk with
    | [], Some base => [base]
    | _, _ => expanded_chunks
    end in
  let sorted_chunks := Py.sorted ChunkUtils.chunk_id_lt expanded_chunks in
  let merged_text := ChunkUtils.merge_chunks_text sorted_chunks in
  let '(start_page, end_page) :=
    PageUtils.get_page_range_from_chunks sorted_chunks in
  let '(start_chunk_id, end_chunk_id) :=
    ChunkUtils.get_chunk_id_range_from_chunks sorted_chunks in
  let chunk_ids := List.map chunk_id sorted_chunks in
  let base_chunk_id := option_map chunk_id base_chunk in
  let base_page_num :=
    match base_chunk with
    | Some base => page_num base
    | None => Py.empty
    end in
  let page_range :=
    match start_page, end_page with
    | Some lo, Some hi => Some (lo, hi)
    | _, _ => None
    end in
  let chunk_range :=
    match start_chunk_id, end_chunk_id with
    | Some lo, Some hi => Some (lo, hi)
    | _, _ => None
    end in
  mkEntry order base_chunk_id base_page_num merged_text start_page end_page
          start_chunk_id end_chunk_id page_range chunk_range chunk_ids.

(** The loop of [_prepare_expanded_results], from [order] on. *)
Fixpoint prepare_from (order : Z) (candidate_results all_chunks : list SearchResult)
    (expand_before expand_after : Z) : list expanded_entry :=
  match candidate_results with
  | [] => []
  | candidate :: rest =>
    let expanded_chunks :=
      ChunkUtils.expand_chunks [candidate] all_chunks expand_before expand_after in
    let expanded_chunks :=
      match expanded_chunks with
      | [] => [candidate]
      | _ => expanded_chunks
      end in
    _build_expanded_entry expanded_chunks (Some candidate) order
    :: prepare_from (order + 1) rest all_chunks expand_before expand_after
  end.

Definition _prepare_expanded_results (candidate_results all_chunks : list SearchResult)
    (expand_before expand_after : Z) : list expanded_entry :=
  prepare_from 1 candidate_results all_chunks expand_before expand_after.

(** The five keys a formatted result keeps of an entry. *)
Definition format_entry (item : expanded_entry) : result_item :=
  mkItem (Some (entry_text item)) (entry_start_page item) (entry_end_page item)
         (entry_start_chunk_id item) (entry_end_chunk_id item).

Definition _create_title_success_result (source_file : Py.str)
    (results : list expanded_entry) : response :=
  match results with
  | entry :: _ =>
    Flat true (Some source_file) (Some (entry_text entry))
         (entry_start_page entry) (entry_end_page entry)
         (entry_start_chunk_id entry) (entry_end_chunk_id entry) None
  | [] => Flat true (Some source_file) None None None None None None
  end.

Definition _create_content_success_result (source_file : Py.str)
    (results : list expanded_entry) : response :=
  let formatted_results := List.map format_entry results in
  let retrieved_count := Z.of_nat (length formatted_results) in
  let summary :=
    if retrieved_count =? 0 then Py.utf8 "未检索到文本信息"
    else Py.utf8 "共检索到 " ++ Py.of_int retrieved_count
         ++ Py.utf8 " 个文本信息" in
  Listed true (Some source_file) None retrieved_count (Some summary)
         formatted_results.

Definition NOTHING_IN_RANGE : Py.str := Eval vm_compute in Py.utf8 "指定范围内无内容".
Definition NO_FILE_CHUNKS : Py.str := Eval vm_compute in Py.utf8 "未能获取文件语块数据".
Definition NOTHING_FOUND : Py.str := Eval vm_compute in Py.utf8 "未找到匹配的内容".
Definition NOTHING_LEFT : Py.str :=
  Eval vm_compute in Py.utf8 "应用范围限制后无匹配结果".
Definition NOTHING_EXPANDED : Py.str :=
  Eval vm_compute in Py.utf8 "语块扩展后无有效内容".
Definition TITLE_NOT_FOUND : Py.str :=
  Eval vm_compute in Py.utf8 "未检索到目标标题所在文本块".

Definition _get_range_content (all_chunks : list SearchResult)
    (start_page end_page start_chunk_id end_chunk_id : option Z)
    (source_file : Py.str) : response :=
  let range_chunks :=
    ChunkUtils.apply_range_limitations all_chunks start_page end_page
                                       start_chunk_id end_chunk_id in
  match range_chunks with
  | [] => _create_error_result NOTHING_IN_RANGE CONTENT
  | first :: _ =>
    _create_content_success_result
      source_file [_build_expanded_entry range_chunks (Some first) 1]
  end.

Definition KEYWORD_MODE : Py.str := Eval vm_compute in Py.utf8 "keyword".
Definition VECTOR_MODE : Py.str := Eval vm_compute in Py.utf8 "vector".
Definition HYBRID_MODE : Py.str := Eval vm_compute in Py.utf8 "hybrid".

Definition DEFAULT_INTENT_MODE_MAP : list (Py.str * Py.str) :=
  [ (TITLE, KEYWORD_MODE); (CONTENT, HYBRID_MODE) ].

(** [d.get(key)] on a dictionary written as its items. *)
Definition dict_get (d : list (Py.str * Py.str)) (key : Py.str) : option Py.str :=
  snd <$> List.find (fun item => bool_decide (fst item = key)) d.

(** The truth value of an optional integer argument. *)
Definition truthy (x : option Z) : bool :=
  match x with
  | Some v => negb (v =? 0)
  | None => false
  end.

Section Backends.
(** [self.intent_mode_map] *)
Variable intent_mode_map : list (Py.str * Py.str).
(** [_get_all_file_chunks]: the chunks of the file by chunk id, or the
    empty list when the back end raises. *)
Variable _get_all_file_chunks : Py.str -> Py.str -> list SearchResult.
(** The three searchers, called as
    [search(query, fund_code, source_file, top_k=10, chunk_range, intent)];
    [None] when the call raises. *)
Variable keyword_search vector_search hybrid_search :
  Py.str -> Py.str -> Py.str -> option (option Z * option Z) -> Py.str
  -> option (list SearchResult).
(** The oracles of the chunk selector. *)
Variable json_loads : Py.str -> Json.decoded.
Variable chat_completion : Py.str -> option Py.str.

Definition _resolve_search_mode (intent : Py.str) : Py.str :=
  let mode :=
    match dict_get intent_mode_map intent with
    | Some mode => mode
    | None =>
      match dict_get intent_mode_map CONTENT with
      | Some mode => mode
      | None => HYBRID_MODE
      end
    end in
  if bool_decide (mode = KEYWORD_MODE) || bool_decide (mode = VECTOR_MODE)
     || bool_decide (mode = HYBRID_MODE)
  then mode else HYBRID_MODE.

Definition _execute_search (search_info fund_code source_file search_mode : Py.str)
    (chunk_range : option (option Z * option Z)) (intent : Py.str)
    : list SearchResult :=
  let found :=
    if bool_decide (search_mode = KEYWORD_MODE) then
      keyword_search search_info fund_code source_file chunk_range intent
    else if bool_decide (search_mode = VECTOR_MODE) then
      vector_search search_info fund_code source_file chunk_range intent
    else if bool_decide (search_mode = HYBRID_MODE) then
      hybrid_search search_info fund_code source_file chunk_range intent
    else Some [] in
  match found with
  | Some results => results
  | None => []
  end.

(** [ChunkUtils.apply_range_limitations] does not raise on these
    chunks, so the handler of [_apply_range_filter] is never entered. *)
Definition _apply_range_filter (candidate_results : list SearchResult)
    (start_page end_page start_chunk_id end_chunk_id : option Z)
    : list SearchResult :=
  ChunkUtils.apply_range_limitations candidate_results start_page end_page
                                     start_chunk_id end_chunk_id.

(** [_search_general_content] on the tool whose selector is [self]: the
    response, and the selector as the call leaves it. The helpers it
    calls catch their own exceptions, so its handler is not entered. *)
Definition _search_general_content (self : ChunkSelector.selector)
    (fund_code source_file search_info : Py.str)
    (start_page end_page start_chunk_id end_chunk_id : option Z)
    (expand_before expand_after : Z) : response * ChunkSelector.selector :=
  let '(intent, normalized_query) := _parse_search_intent search_info in
  let search_mode := _resolve_search_mode intent in
  let all_chunks := _get_all_file_chunks fund_code source_file in
  match all_chunks with
  | [] => (_create_error_result NO_FILE_CHUNKS intent, self)
  | _ =>
    let range_chunks :=
      ChunkUtils.apply_range_limitations all_chunks start_page end_page
                                         start_chunk_id end_chunk_id in
    let range_given :=
      is_not_None start_page || is_not_None end_page
      || is_not_None start_chunk_id || is_not_None end_chunk_id in
    match range_given, range_chunks with
    | true, [] => (_create_error_result NOTHING_IN_RANGE intent, self)
    | _, _ =>
      let chunk_range_limits :=
        if range_given
        then Some (ChunkUtils.get_chunk_id_range_from_chunks range_chunks)
        else None in
      if Py.falsy (Py.strip normalized_query) then
        (_get_range_content all_chunks start_page end_page start_chunk_id
                            end_chunk_id source_file, self)
      else
        let candidate_results :=
          _execute_search normalized_query fund_code source_file search_mode
                          chunk_range_limits intent in
        match candidate_results with
        | [] => (_create_error_result NOTHING_FOUND intent, self)
        | _ =>
          let candidate_results :=
            if truthy start_page || truthy end_page
               || truthy start_chunk_id || truthy end_chunk_id
            then _apply_range_filter candidate_results start_page end_page
                                     start_chunk_id end_chunk_id
            else candidate_results in
          match candidate_results with
          | [] => (_create_error_result NOTHING_LEFT intent, self)
          | _ =>
            if decide (intent = TITLE) then
              let '(best_chunk, self) :=
                ChunkSelector.select_best_chunk json_loads chat_completion
                  search_info candidate_results all_chunks true intent self in
              match best_chunk with
              | None =>
                let message :=
                  match ChunkSelector._last_selection_note self with
                  | Some note => if Py.falsy note then TITLE_NOT_FOUND else note
                  | None => TITLE_NOT_FOUND
                  end in
                (_create_error_result message intent, self)
              | Some best_chunk =>
                let expanded_results :=
                  _prepare_expanded_results [best_chunk] all_chunks
                                            expand_before expand_after in
                match expanded_results with
                | [] => (_create_error_result NOTHING_EXPANDED intent, self)
                | _ =>
                  (_create_title_success_result source_file expanded_results,
                   self)
                end
              end
            else
              let expanded_results :=
                _prepare_expanded_results candidate_results all_chunks
                                          expand_before expand_after in
              match expanded_results with
              | [] => (_create_error_result NOTHING_EXPANDED intent, self)
              | _ =>
                (_create_content_success_result source_file expanded_results,
                 self)
              end
          end
        end
    end
  end.
End Backends.

End ProspectusSearchPipeline.

(** ** The catalog lookup ([core/directory_searcher.py]) *)

Module DirectorySearcher.
Import ProspectusSearchTool.

(** The two characters a catalog candidate must contain. *)
Definition MU : N := 30446.
Definition LU : N := 24405.

(** [self.chunks_before] and [self.chunks_after] *)
Definition chunks_before : Z := 0.
Definition chunks_after : Z := 7.

Definition NO_HITS : Py.str :=
  Eval vm_compute in Py.utf8 "ES中未找到该文件的语块数据".
Definition NO_KEYWORD : Py.str :=
  Eval vm_compute in Py.utf8 "未找到包含目录关键词的语块".
Definition NOT_RECOGNISED : Py.str :=
  Eval vm_compute in Py.utf8 "LLM未能识别出目录语块".
Definition EXPANSION_FAILED : Py.str :=
  Eval vm_compute in Py.utf8 "扩展目录语块失败".

Definition _create_error_result (error_msg : Py.str) : response :=
  Flat false None None None None None None (Some error_msg).

Definition _create_success_result (source_file content : Py.str)
    (start_page end_page : option Z) (start_chunk_id end_chunk_id : Z)
    : response :=
  Flat true (Some source_file) (Some content) start_page end_page
       (Some start_chunk_id) (Some end_chunk_id) None.

(** [{h.chunk_id: h.text for h in hits}]: a later hit replaces an
    earlier one with the same id. *)
Definition id2text_of (hits : list SearchResult) : gmap Z Py.str :=
  fold_left (fun m h => <[chunk_id h := text h]> m) hits ∅.

(** [("目" in text and "录" in text)] *)
Definition is_candidate (h : SearchResult) : bool :=
  existsb (N.eqb MU) (text h) && existsb (N.eqb LU) (text h).

(** The text shown to the model: the chunk and the two after it. *)
Definition combined_text (id2text : gmap Z Py.str) (chunk : SearchResult)
    : Py.str :=
  text chunk
  ++ default Py.empty (id2text !! (chunk_id chunk + 1))
  ++ default Py.empty (id2text !! (chunk_id chunk + 2)).

(** [start_chunk_id <= chunk_id <= end_chunk_id] around the catalog
    chunk. *)
Definition in_catalog_window (dir_chunk_id : Z) (h : SearchResult) : bool :=
  (dir_chunk_id - chunks_before <=? chunk_id h)
  && (chunk_id h <=? dir_chunk_id + chunks_after).

Section Backends.
(** [_get_file_chunks_from_es]: the hits of the file, read through
    [_source] as chunks, or the empty list when the query raises. *)
Variable _get_file_chunks_from_es : Py.str -> Py.str -> list SearchResult.
(** [_is_directory_chunk_by_llm]: the verdict of the model on a text,
    [False] when the call or the parsing raises. *)
Variable _is_directory_chunk_by_llm : Py.str -> bool.

(** The loop over the candidates, up to its [break]. *)
Fixpoint find_directory_chunk (id2text : gmap Z Py.str)
    (candidates : list SearchResult) : option SearchResult :=
  match candidates with
  | [] => None
  | chunk :: rest =>
    if _is_directory_chunk_by_llm (combined_text id2text chunk)
    then Some chunk
    else find_directory_chunk id2text rest
  end.

(** On hits that have their three fields the body does not raise, so
    the handler of [get_directory_content] is not entered. *)
Definition get_directory_content (fund_code source_file : Py.str) : response :=
  let hits := _get_file_chunks_from_es fund_code source_file in
  match hits with
  | [] => _create_error_result NO_HITS
  | _ =>
    let hits := Py.sorted ChunkUtils.chunk_id_lt hits in
    let id2text := id2text_of hits in
    let candidates := List.filter is_candidate hits in
    match candidates with
    | [] => _create_error_result NO_KEYWORD
    | _ =>
      match find_directory_chunk id2text candidates with
      | None => _create_error_result NOT_RECOGNISED
      | Some directory_chunk =>
        let dir_chunk_id := chunk_id directory_chunk in
        let expanded_chunks :=
          List.filter (in_catalog_window dir_chunk_id) hits in
        match expanded_chunks with
        | [] => _create_error_result EXPANSION_FAILED
        | first :: _ =>
          let directory_text :=
            Py.join Py.empty (List.map text expanded_chunks) in
          let '(start_page, end_page) :=
            PageUtils.calculate_page_range expanded_chunks in
          _create_success_result source_file directory_text start_page
            end_page (chunk_id first) (chunk_id (List.last expanded_chunks first))
        end
      end
    end
  end.
End Backends.

End DirectorySearcher.

(** ** The text-protocol conversation driver
       ([demo_deepseek_simulated_calling.py])

    This module has the vocabulary of the driver and its runs in which
    every exception raised is one that the handler around it catches;
    [DriverExits], after it, has the exceptions that leave the parser
    and the driver, and agrees with this module on every other run. *)

Module Driver.

Definition TOOL_CALL_MARK : Py.str := Eval vm_compute in Py.utf8 "TOOL_CALL:".
Definition FINAL_ANSWER_MARK : Py.str := Eval vm_compute in Py.utf8 "FINAL_ANSWER:".
Definition COLON : N := 58.
Definition FULLWIDTH_COLON : N := 65306.
Definition NL : Py.str := [10%N].

(** A decoded JSON object. *)
Definition jdict : Type := list (Py.str * Json.value).

(** The values of [result["type"]]. The keys [tool_call] and
    [final_answer] of the result are set exactly together with the type of
    the same name, so the constructors carry them. *)
Inductive parsed_type :=
| tool_call (call : jdict)
| final_answer (answer : Py.str)
| format_error
| error.

(** The dictionary [_parse_reasoner_output] returns. *)
Record parsed := mkParsed {
  p_type : parsed_type;
  p_analysis : Py.str;
  p_reasoning : Py.str;
  p_errors : list Py.str
}.

(** What a call that may raise gives back: its value, or the text of the
    exception. *)
Inductive attempt (A : Type) :=
| Returned (x : A)
| Raised (msg : Py.str).
Arguments Returned {A} x.
Arguments Raised {A} msg.

(** The text up to the first place where one of the markers starts, or
    up to the end. *)
Fixpoint until_marker (markers : list Py.str) (s : Py.str) : Py.str :=
  match s with
  | [] => []
  | c :: s' =>
    if existsb (Py.startswith s) markers then []
    else c :: until_marker markers s'
  end.

(** [re.search(label + r'[：:]\s*(.*?)(?=marker|...|$)', content, re.DOTALL)]
    followed by [.group(1).strip()]. *)
Fixpoint search_analysis (label : Py.str) (markers : list Py.str) (s : Py.str)
    : option Py.str :=
  match s with
  | [] => None
  | _ :: s' =>
    if Py.startswith s label then
      match drop (length label) s with
      | c :: rest =>
        if ((c =? FULLWIDTH_COLON) || (c =? COLON))%N
        then Some (Py.strip (until_marker markers (Py.lstrip rest)))
        else search_analysis label markers s'
      | [] => search_analysis label markers s'
      end
    else search_analysis label markers s'
  end.

(** The match of [r'TOOL_CALL:\s*(\{.*?\})'] that starts at the head of
    [s], if there is one: group 1. *)
Definition tool_call_here (s : Py.str) : option Py.str :=
  if Py.startswith s TOOL_CALL_MARK then
    match Py.lstrip (drop (length TOOL_CALL_MARK) s) with
    | c :: rest =>
      if (c =? LLMUtils.LBRACE)%N then
        match Py.break_at LLMUtils.RBRACE rest with
        | Some (body, _) => Some (LLMUtils.LBRACE :: body ++ [LLMUtils.RBRACE])
        | None => None
        end
      else None
    | [] => None
    end
  else None.

(** [re.search(tool_call_pattern, content, re.DOTALL)]: the leftmost
    match. *)
Fixpoint search_tool_call (s : Py.str) : option Py.str :=
  match tool_call_here s with
  | Some group => Some group
  | None =>
    match s with
    | [] => None
    | _ :: s' => search_tool_call s'
    end
  end.

(** [re.search(final_pattern, content, re.DOTALL)], the pattern being the
    marker, white space, a greedy group of any characters, white space and
    the end: group 1 runs from the first character after the marker that
    is no white space to the end of the text. *)
Definition search_final_answer (s : Py.str) : option Py.str :=
  match Py.find_from FINAL_ANSWER_MARK s with
  | Some from_mark => Some (Py.lstrip (drop (length FINAL_ANSWER_MARK) from_mark))
  | None => None
  end.

Definition FUND_CODE : Py.str := Eval vm_compute in Py.utf8 "fund_code".
Definition SEARCH_INFO : Py.str := Eval vm_compute in Py.utf8 "search_info".
Definition required_params : list Py.str := [FUND_CODE; SEARCH_INFO].

(** [p not in tool_call or tool_call[p] is None] *)
Definition is_missing (tool_call : jdict) (p : Py.str) : bool :=
  match Json.get tool_call p with
  | None => true
  | Some Json.Null => true
  | Some _ => false
  end.

(** [str(l)] for a list of plain ASCII strings. *)
Definition repr_str_list (l : list Py.str) : Py.str :=
  Py.utf8 "[" ++ Py.join (Py.utf8 ", ")
                         (List.map (fun p => Py.utf8 "'" ++ p ++ Py.utf8 "'") l)
  ++ Py.utf8 "]".

Definition MSG_EMPTY_FINAL : Py.str := Eval vm_compute in Py.utf8 "最终答案不能为空".
Definition MSG_NO_FORMAT : Py.str :=
  Eval vm_compute in Py.utf8 "未找到有效的TOOL_CALL或FINAL_ANSWER格式".
Definition SENTINEL_ANSWER : Py.str :=
  Eval vm_compute in Py.utf8 "达到最大对话轮数，未能获得完整答案".

(** The corrective message after a malformed reply. *)
Definition corrective_feedback (errors : list Py.str) : Py.str :=
  let error_details := Py.join (Py.utf8 "; ") errors in
  Py.utf8 "输出格式有误：" ++ error_details ++ NL ++ NL
  ++ Py.utf8 "请严格按照以下格式输出：" ++ NL
  ++ Py.utf8 "1. 如需调用工具，使用格式：" ++ NL
  ++ Py.utf8 "TOOL_CALL:" ++ NL
  ++ Py.utf8 "{ 仅填写本轮需要的参数 }" ++ NL ++ NL
  ++ Py.utf8 "2. 如给出最终答案，使用格式：" ++ NL
  ++ Py.utf8 "FINAL_ANSWER:" ++ NL
  ++ Py.utf8 "具体答案内容".

Record message := mkMessage { role : Py.str; content : Py.str }.

Definition SYSTEM : Py.str := Eval vm_compute in Py.utf8 "system".
Definition USER : Py.str := Eval vm_compute in Py.utf8 "user".
Definition ASSISTANT : Py.str := Eval vm_compute in Py.utf8 "assistant".

(** An element of [conversation_rounds] (the wall-clock [timestamp] is
    left out). The last two fields are the keys added after a tool ran. *)
Record round_data := mkRound {
  round_number : Z;
  reasoning_content : Py.str;
  response_content : Py.str;
  parsed_analysis : Py.str;
  round_parsed_type : parsed_type;
  round_errors : list Py.str;
  tool_execution_result : option Py.str;
  tool_success : option bool
}.

(** An element of [tool_calls_made]. *)
Record tool_call_record := mkToolCall {
  tc_round : Z;
  tc_params : jdict;
  tc_result : option Py.str;
  tc_success : bool;
  tc_error : option Py.str
}.

(** The local variables of [_chat_with_deepseek_reasoner] that live
    across rounds; [model_requests] records the histories sent to the
    completion model, one per call. *)
Record conversation := mkConversation {
  messages : list message;
  conversation_rounds : list round_data;
  all_reasoning : list Py.str;
  tool_calls_made : list tool_call_record;
  model_requests : list (list message)
}.

(** The dictionary the driver returns; [complete_reasoning_log] is absent
    when a model call failed. *)
Record outcome := mkOutcome {
  success : bool;
  out_error : option Py.str;
  out_final_answer : Py.str;
  out_conversation_rounds : list round_data;
  out_all_reasoning : list Py.str;
  tool_calls : list tool_call_record;
  total_rounds : Z;
  complete_reasoning_log : option Py.str
}.

Definition ROUND_ANALYSIS : Py.str := Eval vm_compute in Py.utf8 "本轮分析".
Definition FINAL_ANALYSIS : Py.str := Eval vm_compute in Py.utf8 "最终分析".

(** [conversation_rounds[-1][...] = ...]: the last round gets the result
    of the tool. *)
Definition set_last_tool_result (result : Py.str) (ok : bool)
    (rounds : list round_data) : list round_data :=
  match rev rounds with
  | [] => []
  | r :: before =>
    rev (mkRound (round_number r) (reasoning_content r) (response_content r)
                 (parsed_analysis r) (round_parsed_type r) (round_errors r)
                 (Some result) (Some ok) :: before)
  end.

Section External.
(** [json.loads] on group 1 of the tool-call pattern, a text that runs
    from an opening brace to the first closing brace: the decoded
    object, or the text of [JSONDecodeError]. *)
Variable json_loads_object : Py.str -> attempt jdict.
(** [client.chat.completions.create(model=..., messages=...)] read
    through [.choices[0].message]: the pair
    [(reasoning_content or '', content or '')]. *)
Variable chat_create : list message -> attempt (Py.str * Py.str).
(** [tool_registry[TOOL_NAME](tool_call)]: the response of the tool. *)
Variable run_tool : jdict -> attempt Py.str.

Definition _parse_reasoner_output (content reasoning_content : Py.str) : parsed :=
  let analysis :=
    match search_analysis ROUND_ANALYSIS
                          [TOOL_CALL_MARK; FINAL_ANSWER_MARK] content with
    | Some a => a
    | None =>
      match search_analysis FINAL_ANALYSIS [FINAL_ANSWER_MARK] content with
      | Some a => a
      | None => Py.empty
      end
    end in
  match search_tool_call content with
  | Some tool_call_json =>
    match json_loads_object tool_call_json with
    | Returned call =>
      match List.filter (is_missing call) required_params with
      | [] => mkParsed (tool_call call) analysis reasoning_content []
      | missing_params =>
        mkParsed error analysis reasoning_content
                 [Py.utf8 "缺少必填参数: " ++ repr_str_list missing_params]
      end
    | Raised e =>
      mkParsed error analysis reasoning_content [Py.utf8 "JSON解析失败: " ++ e]
    end
  | None =>
    match search_final_answer content with
    | Some group =>
      let answer := Py.strip group in
      if Py.falsy answer
      then mkParsed error analysis reasoning_content [MSG_EMPTY_FINAL]
      else mkParsed (final_answer answer) analysis reasoning_content []
    | None => mkParsed format_error analysis reasoning_content [MSG_NO_FORMAT]
    end
  end.

(** One turn of the [for] loop. [Some] outcome: the function returned
    in this round. *)
Definition round (round_index : Z) (st : conversation)
    : option outcome * conversation :=
  let st := mkConversation (messages st) (conversation_rounds st)
              (all_reasoning st) (tool_calls_made st)
              (model_requests st ++ [messages st]) in
  match chat_create (messages st) with
  | Raised e =>
    (Some (mkOutcome false (Some (Py.utf8 "模型调用失败: " ++ e)) Py.empty
                     (conversation_rounds st) (all_reasoning st)
                     (tool_calls_made st) (round_index - 1) None), st)
  | Returned (reasoning, reply) =>
    let all_reasoning :=
      if Py.falsy reasoning then all_reasoning st
      else all_reasoning st
           ++ [Py.utf8 "=== 第 " ++ Py.of_int round_index
               ++ Py.utf8 " 轮推理 ===" ++ NL ++ reasoning] in
    let parsed := _parse_reasoner_output reply reasoning in
    let round_data :=
      mkRound round_index reasoning reply (p_analysis parsed)
              (p_type parsed) (p_errors parsed) None None in
    let conversation_rounds := conversation_rounds st ++ [round_data] in
    let messages := messages st ++ [mkMessage ASSISTANT reply] in
    match p_type parsed with
    | tool_call call =>
      match run_tool call with
      | Returned tool_response =>
        let tool_feedback :=
          Py.utf8 "工具调用已执行完成，结果如下：" ++ NL ++ NL ++ tool_response
          ++ NL ++ NL
          ++ Py.utf8 "请基于此结果继续分析或给出最终答案。记住要按照指定格式输出。" in
        (None,
         mkConversation
           (messages ++ [mkMessage USER tool_feedback])
           (set_last_tool_result tool_response true conversation_rounds)
           all_reasoning
           (tool_calls_made st
            ++ [mkToolCall round_index call (Some tool_response) true None])
           (model_requests st))
      | Raised e =>
        let error_msg := Py.utf8 "工具调用失败: " ++ e in
        let retry_feedback :=
          error_msg ++ NL ++ NL
          ++ Py.utf8 "请检查参数并重试，或采用其他检索策略。记住要按照指定格式输出。" in
        (None,
         mkConversation
           (messages ++ [mkMessage USER retry_feedback])
           (set_last_tool_result error_msg false conversation_rounds)
           all_reasoning
           (tool_calls_made st
            ++ [mkToolCall round_index call None false (Some e)])
           (model_requests st))
      end
    | final_answer answer =>
      let st' := mkConversation messages conversation_rounds all_reasoning
                   (tool_calls_made st) (model_requests st) in
      (Some (mkOutcome true None answer conversation_rounds all_reasoning
                       (tool_calls_made st) round_index
                       (Some (Py.join (NL ++ NL) all_reasoning))), st')
    | format_error | error =>
      (None,
       mkConversation
         (messages ++ [mkMessage USER (corrective_feedback (p_errors parsed))])
         conversation_rounds all_reasoning (tool_calls_made st)
         (model_requests st))
    end
  end.

(** The loop [for round_index in range(first, first + remaining)]. *)
Fixpoint rounds (remaining : nat) (round_index : Z) (st : conversation)
    : option outcome * conversation :=
  match remaining with
  | O => (None, st)
  | S n =>
    match round round_index st with
    | (Some out, st') => (Some out, st')
    | (None, st') => rounds n (round_index + 1) st'
    end
  end.

(** The driver, from the enhanced system prompt on; it returns the
    result dictionary together with the final state of its locals. *)
Definition run (enhanced_system_prompt user_question : Py.str) (max_rounds : Z)
    : outcome * conversation :=
  let st := mkConversation
              [mkMessage SYSTEM enhanced_system_prompt;
               mkMessage USER user_question] [] [] [] [] in
  match rounds (Z.to_nat max_rounds) 1 st with
  | (Some out, st') => (out, st')
  | (None, st') =>
    (mkOutcome false
               (Some (Py.utf8 "达到最大轮数 " ++ Py.of_int max_rounds))
               SENTINEL_ANSWER (conversation_rounds st') (all_reasoning st')
               (tool_calls_made st') max_rounds
               (Some (Py.join (NL ++ NL) (all_reasoning st'))), st')
  end.

Definition _chat_with_deepseek_reasoner
    (enhanced_system_prompt user_question : Py.str) (max_rounds : Z) : outcome :=
  fst (run enhanced_system_prompt user_question max_rounds).
End External.

End Driver.

(** ** The driver with the exceptions that leave it

    [Driver] follows the runs in which whatever is raised is caught by
    the handler around it. The handlers of the source are narrower than
    that: the one in [_parse_reasoner_output] catches [json.JSONDecodeError]
    only, [response.choices[0]] and [.message] are read after the [try]
    around the model call has ended, and the two [except Exception]
    clauses let the other [BaseException]s through. Here the collaborators
    say which kind of exception they raise, and the parser and the driver
    may raise. *)

Module DriverExits.
Import Driver.

(** What a call made under a handler gives back: its value, the text of
    an exception the handler catches, or the text of one it lets
    through. *)
Inductive guarded (A : Type) :=
| Value (x : A)
| Caught (msg : Py.str)
| Uncaught (exc : Py.str).
Arguments Value {A} x.
Arguments Caught {A} msg.
Arguments Uncaught {A} exc.

Section External.
(** [json.loads] on group 1 of the tool-call pattern: the decoded
    object, [Caught] for [JSONDecodeError], [Uncaught] for every other
    exception of the decoder (such as [RecursionError] on deeply nested
    brackets). *)
Variable json_loads_object : Py.str -> guarded jdict.
(** [client.chat.completions.create(model=..., messages=...)] and the
    reading of its result. [Value]: the pair
    [(reasoning_content or '', content or '')] of [.choices[0].message],
    both strings. [Caught]: the call raised an [Exception]. [Uncaught]:
    the call raised another [BaseException], or the result could not be
    read as such a pair, which happens after the [try] has ended. *)
Variable chat_create : list message -> guarded (Py.str * Py.str).
(** [tool_registry[TOOL_NAME](tool_call)]: the response of the tool,
    [Caught] for an [Exception], [Uncaught] for another
    [BaseException]. *)
Variable run_tool : jdict -> guarded Py.str.

(** [Raised]: the exception left the function. *)
Definition _parse_reasoner_output (content reasoning_content : Py.str)
    : attempt parsed :=
  let analysis :=
    match search_analysis ROUND_ANALYSIS
                          [TOOL_CALL_MARK; FINAL_ANSWER_MARK] content with
    | Some a => a
    | None =>
      match search_analysis FINAL_ANALYSIS [FINAL_ANSWER_MARK] content with
      | Some a => a
      | None => Py.empty
      end
    end in
  match search_tool_call content with
  | Some tool_call_json =>
    match json_loads_object tool_call_json with
    | Value call =>
      match List.filter (is_missing call) required_params with
      | [] => Returned (mkParsed (tool_call call) analysis reasoning_content [])
      | missing_params =>
        Returned
          (mkParsed error analysis reasoning_content
                    [Py.utf8 "缺少必填参数: " ++ repr_str_list missing_params])
      end
    | Caught e =>
      Returned
        (mkParsed error analysis reasoning_content
                  [Py.utf8 "JSON解析失败: " ++ e])
    | Uncaught exc => Raised exc
    end
  | None =>
    match search_final_answer content with
    | Some group =>
      let answer := Py.strip group in
      if Py.falsy answer
      then Returned (mkParsed error analysis reasoning_content [MSG_EMPTY_FINAL])
      else Returned (mkParsed (final_answer answer) analysis reasoning_content [])
    | None =>
      Returned (mkParsed format_error analysis reasoning_content [MSG_NO_FORMAT])
    end
  end.

(** One turn of the [for] loop. [Some (Returned out)]: the function
    returned [out] in this round; [Some (Raised exc)]: [exc] left the
    function in this round. *)
Definition round (round_index : Z) (st : conversation)
    : option (attempt outcome) * conversation :=
  let st := mkConversation (messages st) (conversation_rounds st)
              (all_reasoning st) (tool_calls_made st)
              (model_requests st ++ [messages st]) in
  match chat_create (messages st) with
  | Caught e =>
    (Some (Returned
             (mkOutcome false (Some (Py.utf8 "模型调用失败: " ++ e)) Py.empty
                        (conversation_rounds st) (all_reasoning st)
                        (tool_calls_made st) (round_index - 1) None)), st)
  | Uncaught exc => (Some (Raised exc), st)
  | Value (reasoning, reply) =>
    let all_reasoning :=
      if Py.falsy reasoning then all_reasoning st
      else all_reasoning st
           ++ [Py.utf8 "=== 第 " ++ Py.of_int round_index
               ++ Py.utf8 " 轮推理 ===" ++ NL ++ reasoning] in
    match _parse_reasoner_output reply reasoning with
    | Raised exc =>
      (Some (Raised exc),
       mkConversation (messages st) (conversation_rounds st) all_reasoning
                      (tool_calls_made st) (model_requests st))
    | Returned parsed =>
      let round_data :=
        mkRound round_index reasoning reply (p_analysis parsed)
                (p_type parsed) (p_errors parsed) None None in
      let conversation_rounds := conversation_rounds st ++ [round_data] in
      let messages := messages st ++ [mkMessage ASSISTANT reply] in
      match p_type parsed with
      | tool_call call =>
        match run_tool call with
        | Value tool_response =>
          let tool_feedback :=
            Py.utf8 "工具调用已执行完成，结果如下：" ++ NL ++ NL ++ tool_response
            ++ NL ++ NL
            ++ Py.utf8 "请基于此结果继续分析或给出最终答案。记住要按照指定格式输出。" in
          (None,
           mkConversation
             (messages ++ [mkMessage USER tool_feedback])
             (set_last_tool_result tool_response true conversation_rounds)
             all_reasoning
             (tool_calls_made st
              ++ [mkToolCall round_index call (Some tool_response) true None])
             (model_requests st))
        | Caught e =>
          let error_msg := Py.utf8 "工具调用失败: " ++ e in
          let retry_feedback :=
            error_msg ++ NL ++ NL
            ++ Py.utf8 "请检查参数并重试，或采用其他检索策略。记住要按照指定格式输出。" in
          (None,
           mkConversation
             (messages ++ [mkMessage USER retry_feedback])
             (set_last_tool_result error_msg false conversation_rounds)
             all_reasoning
             (tool_calls_made st
              ++ [mkToolCall round_index call None false (Some e)])
             (model_requests st))
        | Uncaught exc =>
          (Some (Raised exc),
           mkConversation messages conversation_rounds all_reasoning
                          (tool_calls_made st) (model_requests st))
        end
      | final_answer answer =>
        let st' := mkConversation messages conversation_rounds all_reasoning
                     (tool_calls_made st) (model_requests st) in
        (Some (Returned
                 (mkOutcome true None answer conversation_rounds all_reasoning
                            (tool_calls_made st) round_index
                            (Some (Py.join (NL ++ NL) all_reasoning)))), st')
      | format_error | error =>
        (None,
         mkConversation
           (messages ++ [mkMessage USER (corrective_feedback (p_errors parsed))])
           conversation_rounds all_reasoning (tool_calls_made st)
           (model_requests st))
      end
    end
  end.

(** The loop [for round_index in range(first, first + remaining)]. *)
Fixpoint rounds (remaining : nat) (round_index : Z) (st : conversation)
    : option (attempt outcome) * conversation :=
  match remaining with
  | O => (None, st)
  | S n =>
    match round round_index st with
    | (Some exit, st') => (Some exit, st')
    | (None, st') => rounds n (round_index + 1) st'
    end
  end.

(** The state of the locals before the first round. *)
Definition opening (enhanced_system_prompt user_question : Py.str)
    : conversation :=
  mkConversation [mkMessage SYSTEM enhanced_system_prompt;
                  mkMessage USER user_question] [] [] [] [].

(** The driver, from the enhanced system prompt on: what it returns or
    raises, together with the final state of its locals. *)
Definition run (enhanced_system_prompt user_question : Py.str) (max_rounds : Z)
    : attempt outcome * conversation :=
  match rounds (Z.to_nat max_rounds) 1
               (opening enhanced_system_prompt user_question) with
  | (Some exit, st') => (exit, st')
  | (None, st') =>
    (Returned
       (mkOutcome false
                  (Some (Py.utf8 "达到最大轮数 " ++ Py.of_int max_rounds))
                  SENTINEL_ANSWER (conversation_rounds st') (all_reasoning st')
                  (tool_calls_made st') max_rounds
                  (Some (Py.join (NL ++ NL) (all_reasoning st')))), st')
  end.

Definition _chat_with_deepseek_reasoner
    (enhanced_system_prompt user_question : Py.str) (max_rounds : Z)
    : attempt outcome :=
  fst (run enhanced_system_prompt user_question max_rounds).
End External.

End DriverExits.

(** ** The entry point for tool calls ([tool_entry.py]) *)

Module ToolEntry.
Import ProspectusSearchTool.

Definition IS_EXPANSION : Py.str := Eval vm_compute in Py.utf8 "is_expansion".
Definition START_PAGE : Py.str := Eval vm_compute in Py.utf8 "start_page".
Definition END_PAGE : Py.str := Eval vm_compute in Py.utf8 "end_page".
Definition START_CHUNK_ID : Py.str :=
  Eval vm_compute in Py.utf8 "start_chunk_id".
Definition END_CHUNK_ID : Py.str := Eval vm_compute in Py.utf8 "end_chunk_id".
Definition EXPAND_BEFORE : Py.str := Eval vm_compute in Py.utf8 "expand_before".
Definition EXPAND_AFTER : Py.str := Eval vm_compute in Py.utf8 "expand_after".

Definition TRUE_WORDS : list Py.str :=
  Eval vm_compute in
  [Py.utf8 "1"; Py.utf8 "true"; Py.utf8 "yes"; Py.utf8 "t"; Py.utf8 "y";
   Py.utf8 "真"; Py.utf8 "是"].
Definition FALSE_WORDS : list Py.str :=
  Eval vm_compute in
  [Py.utf8 "0"; Py.utf8 "false"; Py.utf8 "no"; Py.utf8 "f"; Py.utf8 "n";
   Py.utf8 "假"; Py.utf8 "否"].

(** The dictionary [_normalize_arguments] returns. *)
Record params := mkParams {
  p_fund_code : Py.str;
  p_search_info : Py.str;
  p_is_expansion : bool;
  p_start_page : option Z;
  p_end_page : option Z;
  p_start_chunk_id : option Z;
  p_end_chunk_id : option Z;
  p_expand_before : Z;
  p_expand_after : Z
}.

(** The rest of a [try] body after a call that may raise. *)
Definition and_then {A B} (m : Driver.attempt A) (k : A -> Driver.attempt B)
    : Driver.attempt B :=
  match m with
  | Driver.Returned x => k x
  | Driver.Raised msg => Driver.Raised msg
  end.

Section Builtins.
(** [str(v)] for a float, a list or a dictionary. *)
Variable repr : Json.value -> Py.str.
(** [s.lower()] *)
Variable lower : Py.str -> Py.str.

(** [str(v)] *)
Definition str (v : Json.value) : Py.str :=
  match v with
  | Json.Str s => s
  | Json.Int n => Py.of_int n
  | Json.Bool true => Py.utf8 "True"
  | Json.Bool false => Py.utf8 "False"
  | Json.Null => Py.utf8 "None"
  | _ => repr v
  end.

(** [int(v)]; [None] stands for [TypeError] and [ValueError]. A float is
    cut towards zero, a string is read without the white space around
    it. *)
Definition int (v : Json.value) : option Z :=
  match v with
  | Json.Int n => Some n
  | Json.Bool b => Some (if b then 1 else 0)
  | Json.Float q => Some (Z.quot (Qnum q) (Z.pos (Qden q)))
  | Json.Str s => Py.int (Py.strip s)
  | _ => None
  end.

(** [value] is what [arguments.get(label)] gave. *)
Definition _parse_optional_int (value : option Json.value) (label : Py.str)
    : Driver.attempt (option Z) :=
  match value with
  | None | Some Json.Null => Driver.Returned None
  | Some v =>
    if match v with
       | Json.Str s => Py.falsy (Py.strip s)
       | _ => false
       end
    then Driver.Returned None
    else
      match int v with
      | Some n => Driver.Returned (Some n)
      | None =>
        Driver.Raised (label ++ Py.utf8 " 的值无效，期望为整数: " ++ str v)
      end
  end.

Definition _parse_bool (value : Json.value) : Driver.attempt bool :=
  let invalid := Driver.Raised (Py.utf8 "布尔参数取值无效: " ++ str value) in
  match value with
  | Json.Bool b => Driver.Returned b
  | Json.Str s =>
    let lowered := lower (Py.strip s) in
    if bool_decide (lowered ∈ TRUE_WORDS) then Driver.Returned true
    else if bool_decide (lowered ∈ FALSE_WORDS) then Driver.Returned false
    else invalid
  | _ => invalid
  end.

Definition _parse_non_negative_int (value : option Json.value)
    (label : Py.str) (default : Z) : Driver.attempt Z :=
  match value with
  | None | Some Json.Null => Driver.Returned default
  | Some v =>
    match int v with
    | None =>
      Driver.Raised (label ++ Py.utf8 " 的值无效，期望为非负整数: " ++ str v)
    | Some parsed =>
      if parsed <? 0 then Driver.Raised (label ++ Py.utf8 " 不能小于 0")
      else Driver.Returned parsed
    end
  end.

Definition _normalize_arguments (arguments : Driver.jdict)
    : Driver.attempt params :=
  match Json.get arguments Driver.FUND_CODE,
        Json.get arguments Driver.SEARCH_INFO with
  | Some fund_code, Some search_info =>
    let fund_code := Py.strip (str fund_code) in
    let search_info :=
      match search_info with
      | Json.Null => Py.empty
      | _ => str search_info
      end in
    and_then
      (match Json.get arguments IS_EXPANSION with
       | None => Driver.Returned false
       | Some (Json.Bool b) => Driver.Returned b
       | Some is_expansion => _parse_bool is_expansion
       end) (fun is_expansion =>
    and_then (_parse_optional_int (Json.get arguments START_PAGE) START_PAGE)
      (fun start_page =>
    and_then (_parse_optional_int (Json.get arguments END_PAGE) END_PAGE)
      (fun end_page =>
    and_then (_parse_optional_int (Json.get arguments START_CHUNK_ID)
                                  START_CHUNK_ID)
      (fun start_chunk_id =>
    and_then (_parse_optional_int (Json.get arguments END_CHUNK_ID)
                                  END_CHUNK_ID)
      (fun end_chunk_id =>
    and_then (_parse_non_negative_int (Json.get arguments EXPAND_BEFORE)
                                      EXPAND_BEFORE 0)
      (fun expand_before =>
    and_then (_parse_non_negative_int (Json.get arguments EXPAND_AFTER)
                                      EXPAND_AFTER 0)
      (fun expand_after =>
    Driver.Returned
      (mkParams fund_code search_info is_expansion start_page end_page
                start_chunk_id end_chunk_id expand_before expand_after))))))))
  | _, _ => Driver.Raised (Py.utf8 "缺少必要字段 fund_code 或 search_info")
  end.

(** [_get_tool_instance()] followed by [tool.search_prospectus] on the
    normalised arguments: the response, or the text of what either
    raised. *)
Variable search_prospectus : params -> Driver.attempt response.

(** [_guess_intent(arguments.get("search_info"))] *)
Definition guessed_intent (arguments : Driver.jdict) : Py.str :=
  match Json.get arguments Driver.SEARCH_INFO with
  | Some (Json.Str search_info) => _guess_intent search_info
  | _ => CONTENT
  end.

(** [call_prospectus_search(arguments, return_json=False)] *)
Definition call_prospectus_search (arguments : Driver.jdict) : response :=
  let intent := guessed_intent arguments in
  match _normalize_arguments arguments with
  | Driver.Raised exc =>
    _build_wrapper_error intent (Py.utf8 "invalid_arguments: " ++ exc)
  | Driver.Returned params =>
    match search_prospectus params with
    | Driver.Returned result => result
    | Driver.Raised exc =>
      _build_wrapper_error intent (Py.utf8 "tool_execution_error: " ++ exc)
    end
  end.
End Builtins.

End ToolEntry.

(** ** Statements of the specification, in its own words *)

Module Spec.

(** [x] lies within the bounds that are given. *)
Definition within (lo hi : option Z) (x : Z) : Prop :=
  (forall l, lo = Some l -> l <= x) /\ (forall h, hi = Some h -> x <= h).

(** [pagesOf(label)] *)
Definition pagesOf (c : SearchResult) : list Z :=
  PageUtils.extract_page_numbers_from_string (page_num c).

(** "its parsed page set intersects [pageLo, pageHi]" *)
Definition page_set_meets (pageLo pageHi : option Z) (c : SearchResult) : Prop :=
  exists p, In p (pagesOf c) /\ within pageLo pageHi p.

(** "its page label yields no parsable page numbers" *)
Definition unparsable (c : SearchResult) : Prop := pagesOf c = [].

(** The filter of section 4.1 as worded: a chunk is kept iff its id is
    within the id bounds and its page set meets the page bounds or its
    label is unparsable. *)
Definition filterByRange_as_worded (chunks : list SearchResult)
    (pageLo pageHi idLo idHi : option Z) : Prop :=
  forall c,
    In c (ChunkUtils.apply_range_limitations chunks pageLo pageHi idLo idHi)
    <-> In c chunks /\ within idLo idHi (chunk_id c)
        /\ (page_set_meets pageLo pageHi c \/ unparsable c).

(** The bound property of section 8 as worded: with ordered bounds, what
    is returned comes from the input and satisfies every given bound. *)
Definition ordered (lo hi : option Z) : Prop :=
  forall l h, lo = Some l -> hi = Some h -> l <= h.

Definition filterByRange_bounds_as_worded (chunks : list SearchResult)
    (pageLo pageHi idLo idHi : option Z) : Prop :=
  ordered pageLo pageHi -> ordered idLo idHi ->
  forall c,
    In c (ChunkUtils.apply_range_limitations chunks pageLo pageHi idLo idHi) ->
    In c chunks /\ within idLo idHi (chunk_id c)
    /\ (is_not_None pageLo || is_not_None pageHi = true ->
        page_set_meets pageLo pageHi c).

(** The smallest and the largest element of a list. *)
Definition least (m : Z) (l : list Z) : Prop := In m l /\ forall x, In x l -> m <= x.
Definition greatest (m : Z) (l : list Z) : Prop := In m l /\ forall x, In x l -> x <= m.

(** The page span of a chunk, from its smallest to its largest parsed
    page, meets the bounds that are given. *)
Definition page_span_meets (pageLo pageHi : option Z) (c : SearchResult) : Prop :=
  exists lo_page hi_page,
    least lo_page (pagesOf c) /\ greatest hi_page (pagesOf c)
    /\ (forall l, pageLo = Some l -> l <= hi_page)
    /\ (forall h, pageHi = Some h -> lo_page <= h).

(** A reply that is neither a well-formed action block nor a final
    answer. *)
Definition malformed (t : Driver.parsed_type) : Prop :=
  t = Driver.format_error \/ t = Driver.error.

(** What a malformed round adds to the history: the reply of the model,
    then the corrective feedback. *)
Definition malformed_exchange (rd : Driver.round_data) : list Driver.message :=
  [ Driver.mkMessage Driver.ASSISTANT (Driver.response_content rd);
    Driver.mkMessage Driver.USER
      (Driver.corrective_feedback (Driver.round_errors rd)) ].

(** The texts of the assistant turns of a history, in order. *)
Definition assistant_turns (history : list Driver.message) : list Py.str :=
  List.map Driver.content
    (List.filter (fun m => bool_decide (Driver.role m = Driver.ASSISTANT))
                 history).

(** The round asked for an action. *)
Definition is_action (rd : Driver.round_data) : bool :=
  match Driver.round_parsed_type rd with
  | Driver.tool_call _ => true
  | _ => false
  end.

(** A required parameter is present in an action and is not [null]. *)
Definition present (call : Driver.jdict) (key : Py.str) : Prop :=
  exists v, Json.get call key = Some v /\ v <> Json.Null.

(** The selection field of a decoded reply: the string under the key
    ["最佳选择"] of an object; [None] when the reply gave no such thing. *)
Definition selection_field (reply : Json.value) : option Py.str :=
  match reply with
  | Json.Dict d =>
    match Json.get d ChunkSelector.BEST_CHOICE with
    | Some (Json.Str s) => Some s
    | _ => None
    end
  | _ => None
  end.

End Spec.

(** ** Vocabulary for the merge: the order of the sort key and the
       invariant of the two insertion loops *)

Module MergeInvariant.
Import HybridSearcher.

(** The order the sort key induces: bucket first, then the negated
    score. *)
Definition key_le (a b : Z * Q) : Prop :=
  fst a < fst b \/ (fst a = fst b /\ (snd a <= snd b)%Q).

Definition ids (l : list SearchResult) : list Py.str := global_id <$> l.

(** The tags of an entry that came from the vector list. *)
Definition vector_tags (g : Py.str) (keywords_done : list SearchResult)
    : list Py.str :=
  if decide (g ∈ ids keywords_done) then [VECTOR; KEYWORD] else [VECTOR].

(** [r] is the first result of [l] that has its global id. *)
Definition first_with_id (r : SearchResult) (l : list SearchResult) : Prop :=
  exists l1 l2, l = l1 ++ r :: l2 /\ global_id r ∉ ids l1.

(** What holds after the vector list [vs] and the keyword results [ks]
    went through the loops. *)
Record invariant (vs ks : list SearchResult) (st : merge_state) : Prop := {
  inv_seen : forall g, g ∈ snd st <-> g ∈ ids (fst st);
  inv_nodup : NoDup (ids (fst st));
  inv_all : forall g, g ∈ ids vs \/ g ∈ ids ks -> g ∈ ids (fst st);
  inv_vector : forall e, e ∈ fst st -> global_id e ∈ ids vs ->
    exists r, first_with_id r vs /\ global_id r = global_id e
              /\ e = set_from_methods r (vector_tags (global_id e) ks);
  inv_keyword : forall e, e ∈ fst st -> global_id e ∉ ids vs ->
    exists r, r ∈ ks /\ e = set_from_methods r [KEYWORD]
}.

(** The effect of the inner loop on one entry. *)
Definition mark (g : Py.str) (e : SearchResult) : SearchResult :=
  if decide (global_id e = g) then
    if decide (KEYWORD ∈ from_methods e) then e
    else set_from_methods e (from_methods e ++ [KEYWORD])
  else e.

(** The entries before sorting. *)
Definition merged (v k : list SearchResult) : merge_state :=
  fold_left add_keyword k (fold_left add_vector v ([], ∅)).

End MergeInvariant.

(** ** Vocabulary for the conversation loop: what its bookkeeping keeps
       true from round to round, and the three ways it ends *)

Module LoopInvariant.
Import Driver.

(** The round carries a final answer. *)
Definition is_final (rd : round_data) : bool :=
  match round_parsed_type rd with
  | final_answer _ => true
  | _ => false
  end.

(** The round has the two keys a tool run adds. *)
Definition has_tool_outcome (rd : round_data) : bool :=
  match tool_success rd, tool_execution_result rd with
  | Some _, Some _ => true
  | _, _ => false
  end.

(** The record of a tool run says what the tool did with its
    parameters. *)
Definition faithful_record (run_tool : jdict -> attempt Py.str)
    (t : tool_call_record) : Prop :=
  match run_tool (tc_params t) with
  | Returned response =>
    tc_success t = true /\ tc_result t = Some response /\ tc_error t = None
  | Raised e =>
    tc_success t = false /\ tc_result t = None /\ tc_error t = Some e
  end.

(** What holds of the local variables before and after every round. *)
Record invariant (run_tool : jdict -> attempt Py.str) (st : conversation)
    : Prop := {
  inv_call_rounds :
    List.map tc_round (tool_calls_made st)
    = List.map round_number
               (List.filter Spec.is_action (conversation_rounds st));
  inv_call_params :
    List.map (fun t => tool_call (tc_params t)) (tool_calls_made st)
    = List.map round_parsed_type
               (List.filter Spec.is_action (conversation_rounds st));
  inv_call_success :
    List.map (fun t => Some (tc_success t)) (tool_calls_made st)
    = List.map tool_success
               (List.filter Spec.is_action (conversation_rounds st));
  inv_call_required :
    Forall (fun t => Forall (Spec.present (tc_params t)) required_params)
           (tool_calls_made st);
  inv_call_faithful : Forall (faithful_record run_tool) (tool_calls_made st);
  inv_outcome :
    Forall (fun rd => has_tool_outcome rd = Spec.is_action rd)
           (conversation_rounds st);
  inv_turns :
    Spec.assistant_turns (messages st)
    = List.map response_content (conversation_rounds st);
  inv_prefix :
    Forall (fun history => history `prefix_of` messages st)
           (model_requests st);
  inv_lengths :
    List.map (@length message) (model_requests st)
    = List.map (fun k => 2 + 2 * k)%nat (seq 0 (length (model_requests st)))
}.

(** What holds in addition while the loop has not returned, before
    round [i]. *)
Record running (i : Z) (st : conversation) : Prop := {
  run_index : Z.of_nat (length (conversation_rounds st)) = i - 1;
  run_requests : length (model_requests st) = length (conversation_rounds st);
  run_messages :
    length (messages st) = (2 + 2 * length (conversation_rounds st))%nat;
  run_no_final :
    Forall (fun rd => is_final rd = false) (conversation_rounds st)
}.

(** The driver returned the answer of the model. *)
Definition answered (out : outcome) : Prop :=
  success out = true /\ out_error out = None
  /\ complete_reasoning_log out
     = Some (Py.join (NL ++ NL) (out_all_reasoning out))
  /\ out_final_answer out <> []
  /\ Py.strip (out_final_answer out) = out_final_answer out
  /\ exists earlier rd,
       out_conversation_rounds out = earlier ++ [rd]
       /\ round_parsed_type rd = final_answer (out_final_answer out)
       /\ Forall (fun rd => is_final rd = false) earlier.

(** The driver gave up because the call of the model raised. *)
Definition transport_failed (out : outcome) : Prop :=
  exists e,
    success out = false
    /\ out_error out = Some (Py.utf8 "模型调用失败: " ++ e)
    /\ out_final_answer out = Py.empty
    /\ complete_reasoning_log out = None
    /\ Forall (fun rd => is_final rd = false) (out_conversation_rounds out).

(** The driver used up its rounds. *)
Definition out_of_budget (max_rounds : Z) (out : outcome) : Prop :=
  success out = false
  /\ out_error out = Some (Py.utf8 "达到最大轮数 " ++ Py.of_int max_rounds)
  /\ out_final_answer out = SENTINEL_ANSWER
  /\ complete_reasoning_log out
     = Some (Py.join (NL ++ NL) (out_all_reasoning out))
  /\ Forall (fun rd => is_final rd = false) (out_conversation_rounds out)
  /\ length (out_conversation_rounds out) = Z.to_nat max_rounds.

End LoopInvariant.

(** ** Vocabulary for the exits of the driver *)

Module ExitSpec.
Import Driver DriverExits.

(** A collaborator of [DriverExits] seen as one of [Driver]: the kind of
    the exception is forgotten. *)
Definition catching {A} (g : guarded A) : attempt A :=
  match g with
  | Value x => Returned x
  | Caught msg => Raised msg
  | Uncaught exc => Raised exc
  end.

(** A collaborator of [Driver] seen as one of [DriverExits]: every
    exception is one the handler catches. *)
Definition caught {A} (a : attempt A) : guarded A :=
  match a with
  | Returned x => Value x
  | Raised msg => Caught msg
  end.

Definition FORMAT_WRONG : Py.str := Eval vm_compute in Py.utf8 "输出格式有误：".
Definition SEMICOLON : Py.str := Eval vm_compute in Py.utf8 "; ".

(** The feedback names the errors, then shows the marker of an action
    block and after it the marker of a final answer. *)
Definition restates_formats (errors : list Py.str) (feedback : Py.str) : Prop :=
  exists intro action answer,
    feedback
    = FORMAT_WRONG ++ Py.join SEMICOLON errors ++ intro
      ++ TOOL_CALL_MARK ++ action ++ FINAL_ANSWER_MARK ++ answer.

(** In the state [st] the next round lets [exc] through: the model call
    or the reading of its result does, or the decoder does on the first
    action block of the reply, or the tool does. *)
Definition raises_in_round
    (json_loads_object : Py.str -> guarded jdict)
    (chat_create : list message -> guarded (Py.str * Py.str))
    (run_tool : jdict -> guarded Py.str)
    (exc : Py.str) (st : conversation) : Prop :=
  chat_create (messages st) = Uncaught exc
  \/ exists reasoning reply,
       chat_create (messages st) = Value (reasoning, reply)
       /\ ((exists group, search_tool_call reply = Some group
                          /\ json_loads_object group = Uncaught exc)
           \/ exists p call,
                _parse_reasoner_output json_loads_object reply reasoning
                = Returned p
                /\ p_type p = tool_call call
                /\ run_tool call = Uncaught exc).

(** "neither a well-formed action block nor a final-answer block": the
    reply has no action block that decodes to an object with both
    required parameters, and no final-answer marker. *)
Definition malformed_as_worded (json_loads_object : Py.str -> guarded jdict)
    (reply : Py.str) : Prop :=
  (forall group call,
     search_tool_call reply = Some group ->
     json_loads_object group = Value call ->
     exists p, In p required_params /\ is_missing call p = true)
  /\ search_final_answer reply = None.

(** The sentence of the specification on malformed replies, as worded. *)
Definition exhausts_budget_as_worded
    (json_loads_object : Py.str -> guarded jdict)
    (chat_create : list message -> guarded (Py.str * Py.str))
    (run_tool : jdict -> guarded Py.str)
    (enhanced_system_prompt user_question : Py.str) (max_rounds : Z) : Prop :=
  (forall history, exists reasoning reply,
     chat_create history = Value (reasoning, reply)
     /\ malformed_as_worded json_loads_object reply) ->
  exists out,
    _chat_with_deepseek_reasoner json_loads_object chat_create run_tool
      enhanced_system_prompt user_question max_rounds
    = Returned out
    /\ success out = false
    /\ out_final_answer out = SENTINEL_ANSWER
    /\ total_rounds out = max_rounds.

End ExitSpec.

(** ** Vocabulary for the retrieval pipeline: the shape of a response and
       what an entry says about the chunks it was built from *)

Module PipelineSpec.
Import ProspectusSearchTool ProspectusSearchPipeline.

(** The response is the flat dictionary. *)
Definition flat (r : response) : bool :=
  match r with
  | Flat _ _ _ _ _ _ _ _ => true
  | Listed _ _ _ _ _ _ => false
  end.

Definition succeeded (r : response) : bool :=
  match r with
  | Flat success _ _ _ _ _ _ _ => success
  | Listed success _ _ _ _ _ => success
  end.

Definition error_of (r : response) : option Py.str :=
  match r with
  | Flat _ _ _ _ _ _ _ error => error
  | Listed _ _ error _ _ _ => error
  end.

Definition results_of (r : response) : list result_item :=
  match r with
  | Flat _ _ _ _ _ _ _ _ => []
  | Listed _ _ _ _ _ results => results
  end.

(** [entry] describes the chunks [chunks], found for [base]. *)
Definition entry_of (chunks : list SearchResult) (base : SearchResult)
    (entry : expanded_entry) : Prop :=
  base_chunk_id entry = Some (chunk_id base)
  /\ base_page_num entry = page_num base
  /\ chunk_ids entry = List.map chunk_id chunks
  /\ entry_text entry = Py.join Py.empty (List.map text chunks)
  /\ (entry_start_page entry, entry_end_page entry)
     = PageUtils.get_page_range_from_chunks chunks
  /\ exists lo hi,
       Spec.least lo (chunk_ids entry) /\ Spec.greatest hi (chunk_ids entry)
       /\ entry_start_chunk_id entry = Some lo
       /\ entry_end_chunk_id entry = Some hi
       /\ chunk_range entry = Some (lo, hi).

(** [chunks] is the context of [candidate]: in ascending order of
    chunk_id, made of the candidate and of chunks of the file, none
    further from the candidate than the margins, and, unless both
    margins are zero, with every chunk of the file that is that close. *)
Definition window_of (all_chunks : list SearchResult)
    (expand_before expand_after : Z) (candidate : SearchResult)
    (chunks : list SearchResult) : Prop :=
  chunks <> []
  /\ StronglySorted (fun a b => chunk_id a <= chunk_id b) chunks
  /\ Forall (fun c => (c = candidate \/ In c all_chunks)
                      /\ chunk_id candidate - expand_before <= chunk_id c
                         <= chunk_id candidate + expand_after)
            chunks
  /\ (expand_before <> 0 \/ expand_after <> 0 ->
      forall c, In c all_chunks ->
        chunk_id candidate - expand_before <= chunk_id c
        <= chunk_id candidate + expand_after ->
        In c chunks).

Definition entry_around (all_chunks : list SearchResult)
    (expand_before expand_after : Z) (candidate : SearchResult)
    (entry : expanded_entry) : Prop :=
  exists chunks,
    window_of all_chunks expand_before expand_after candidate chunks
    /\ entry_of chunks candidate entry.

(** The chunk passes the range filter. *)
Definition in_range (start_page end_page start_chunk_id end_chunk_id : option Z)
    (c : SearchResult) : Prop :=
  Spec.within start_chunk_id end_chunk_id (chunk_id c)
  /\ (Spec.page_span_meets start_page end_page c \/ Spec.unparsable c).

End PipelineSpec.

(** Chunks and oracles used in the examples. *)

Module Sample.

Definition chunk (gid : Py.str) (id : Z) (pages body : Py.str) (s : Q)
    : SearchResult :=
  mkSearchResult gid id (Py.utf8 "prospectus.pdf") pages body s
                 (Py.utf8 "180101.SZ") Py.empty Py.empty [].

Definition c1 := chunk (Py.utf8 "g1") 1 (Py.utf8 "3-10") (Py.utf8 "A") (1 # 2).
Definition c2 := chunk (Py.utf8 "g2") 2 (Py.utf8 "n/a") (Py.utf8 "B") (3 # 4).
Definition c3 := chunk (Py.utf8 "g3") 3 (Py.utf8 "11-12") (Py.utf8 "C") (1 # 4).
Definition c4 := chunk (Py.utf8 "g4") 4 (Py.utf8 "12") (Py.utf8 "D") (9 # 10).
Definition c5 := chunk (Py.utf8 "g5") 5 (Py.utf8 "13") (Py.utf8 "E") (1 # 10).
Definition document : list SearchResult := [c1; c2; c3; c4; c5].

(** Candidates of the two adapters; chunk 4 is found by both. *)
Definition vector_hits : list SearchResult := [c1; c4].
Definition keyword_hits : list SearchResult := [c5; c4; c2].


(** A decoder for the one-key objects the selection prompt asks for, an
    opening brace, the quoted key ["最佳选择"], a colon, a space, a quoted
    value without escapes and a closing brace; every other text is
    rejected. *)
Definition choice_prefix : Py.str :=
  Eval vm_compute in
  Py.utf8 "{" ++ ChunkSelector.quoted ChunkSelector.BEST_CHOICE
  ++ Py.utf8 ": " ++ [34%N].

Definition decode_choice (text : Py.str) : Json.decoded :=
  if Py.startswith text choice_prefix then
    match Py.break_at 34%N (drop (length choice_prefix) text) with
    | Some (body, rest) =>
      if decide (rest = Py.utf8 "}")
      then Json.Decoded (Json.Dict [(ChunkSelector.BEST_CHOICE, Json.Str body)])
      else Json.JSONDecodeError (Py.utf8 "Extra data")
    | None => Json.JSONDecodeError (Py.utf8 "Unterminated string")
    end
  else Json.JSONDecodeError (Py.utf8 "Expecting value").

(** The reply that names a choice. *)
Definition choice_reply (choice : Py.str) : Py.str :=
  choice_prefix ++ choice ++ [34%N] ++ Py.utf8 "}".

(** A completion model that answers every prompt the same way. *)
Definition always (reply : option Py.str) : Py.str -> option Py.str :=
  fun _ => reply.

(** A completion model that never follows the protocol, and collaborators
    that are never reached. *)
Definition chatty_model (history : list Driver.message)
    : Driver.attempt (Py.str * Py.str) :=
  Driver.Returned (Py.utf8 "thinking", Py.utf8 "我需要先看看目录。").
Definition no_json (text : Py.str) : Driver.attempt Driver.jdict :=
  Driver.Raised (Py.utf8 "Expecting value").
Definition no_tool (call : Driver.jdict) : Driver.attempt Py.str :=
  Driver.Raised (Py.utf8 "unavailable").

(** A completion model that asks for the catalog in every round, and the
    decoder of its action block. *)
Definition catalog_action : Driver.jdict :=
  [ (Driver.FUND_CODE, Json.Str (Py.utf8 "180101.SZ"));
    (Driver.SEARCH_INFO, Json.Str (Py.utf8 "目录")) ].
Definition action_model (history : list Driver.message)
    : Driver.attempt (Py.str * Py.str) :=
  Driver.Returned (Py.empty, Py.utf8 "本轮分析：先查目录
TOOL_CALL:
{catalog}").
Definition catalog_json (text : Py.str) : Driver.attempt Driver.jdict :=
  if decide (text = Py.utf8 "{catalog}") then Driver.Returned catalog_action
  else Driver.Raised (Py.utf8 "Expecting value").

(** A completion model that answers at once. *)
Definition answering_model (history : list Driver.message)
    : Driver.attempt (Py.str * Py.str) :=
  Driver.Returned (Py.utf8 "it is in the overview",
                   Py.utf8 "最终分析：已找到
FINAL_ANSWER: 没有外部借款 ").

Definition title_query : Py.str :=
  Eval vm_compute in Py.utf8 "章节标题检索：第五部分 基金费用".

(** A file whose first chunk has chunk_id 0, and search back ends that
    return the same chunks whatever they are asked. *)
Definition c0 := chunk (Py.utf8 "g0") 0 (Py.utf8 "1-2") (Py.utf8 "Z") (1 # 5).
Definition file_chunks (fund_code source_file : Py.str) : list SearchResult :=
  c0 :: document.
Definition searcher (hits : list SearchResult)
    : Py.str -> Py.str -> Py.str -> option (option Z * option Z) -> Py.str
      -> option (list SearchResult) :=
  fun _ _ _ _ _ => Some hits.
Definition content_query : Py.str := Eval vm_compute in Py.utf8 "基金费用".
Definition bare_title_query : Py.str :=
  Eval vm_compute in Py.utf8 "章节标题检索：".

(** An action block the decoder gives up on: an object whose one value
    opens 5000 arrays, far more than the decoder is willing to descend
    into, so that [json.loads] raises [RecursionError], which is no
    [JSONDecodeError]. The block runs to the first closing brace. *)
Definition nested_block : Py.str :=
  [LLMUtils.LBRACE; 34; 97; 34; Driver.COLON]%N
  ++ List.repeat 91%N (N.to_nat 5000) ++ [LLMUtils.RBRACE].

(** A completion model whose every reply is that action block. *)
Definition nested_reply : Py.str := Py.utf8 "TOOL_CALL: " ++ nested_block.
Definition nested_model (history : list Driver.message)
    : DriverExits.guarded (Py.str * Py.str) :=
  DriverExits.Value (Py.empty, nested_reply).

(** The decoder on that block; other texts are rejected. *)
Definition deep_decoder (text : Py.str) : DriverExits.guarded Driver.jdict :=
  if decide (text = nested_block) then
    DriverExits.Uncaught
      (Py.utf8 "maximum recursion depth exceeded while decoding a JSON array from a unicode string")
  else DriverExits.Caught (Py.utf8 "Expecting value").

End Sample.

(* ===================================================================== *)
(** * Part II. Properties                                                 *)
(* ===================================================================== *)

(** ** Python helpers *)

Example utf8_catalog : Py.utf8 "目录" = [30446; 24405]%N.
Proof. reflexivity. Qed.

Example int_samples :
  List.map Py.int
    [Py.utf8 "1_0"; Py.utf8 "_1"; Py.utf8 "1__0"; Py.utf8 "+5"; Py.utf8 "007";
     Py.utf8 "１２"; Py.utf8 "a"]
  = [Some 10; None; None; Some 5; Some 7; Some 12; None].
Proof. reflexivity. Qed.

Example of_int_samples :
  (Py.of_int 0, Py.of_int 20, Py.of_int (-7))
  = (Py.utf8 "0", Py.utf8 "20", Py.utf8 "-7").
Proof. reflexivity. Qed.

Example pages_samples :
  List.map PageUtils.extract_page_numbers_from_string
    [Py.utf8 "3-10"; Py.utf8 "n/a"; Py.utf8 " 7 - x -9"; Py.empty; Py.utf8 "-5"]
  = [[3; 10]; []; [7; 9]; []; [5]].
Proof. reflexivity. Qed.

Lemma min_le_init l x : Py.min x l <= x.
Proof.
  unfold Py.min. revert x. induction l as [|y l IH]; intros x; simpl; [lia|].
  specialize (IH (Z.min x y)). lia.
Qed.

Lemma min_least x l : Spec.least (Py.min x l) (x :: l).
Proof.
  unfold Py.min. revert x. induction l as [|y l IH]; intros x; simpl.
  - split; [now left|]. intros z [Hz|[]]. lia.
  - destruct (IH (Z.min x y)) as [Hin Hle]. split.
    + destruct Hin as [Heq|Hin].
      * rewrite <- Heq. destruct (Z.min_spec x y) as [[_ ->]|[_ ->]]; simpl; auto.
      * right; now right.
    + intros z Hz. pose proof (Hle _ (or_introl eq_refl)) as H0.
      destruct Hz as [Hz|[Hz|Hz]]; [lia|lia|].
      apply Hle. now right.
Qed.

Lemma max_greatest x l : Spec.greatest (Py.max x l) (x :: l).
Proof.
  unfold Py.max. revert x. induction l as [|y l IH]; intros x; simpl.
  - split; [now left|]. intros z [Hz|[]]. lia.
  - destruct (IH (Z.max x y)) as [Hin Hle]. split.
    + destruct Hin as [Heq|Hin].
      * rewrite <- Heq. destruct (Z.max_spec x y) as [[_ ->]|[_ ->]]; simpl; auto.
      * right; now right.
    + intros z Hz. pose proof (Hle _ (or_introl eq_refl)) as H0.
      destruct Hz as [Hz|[Hz|Hz]]; [lia|lia|].
      apply Hle. now right.
Qed.

Lemma least_unique m m' l : Spec.least m l -> Spec.least m' l -> m = m'.
Proof. intros [H1 H2] [H3 H4]. specialize (H2 _ H3). specialize (H4 _ H1). lia. Qed.

Lemma greatest_unique m m' l : Spec.greatest m l -> Spec.greatest m' l -> m = m'.
Proof. intros [H1 H2] [H3 H4]. specialize (H2 _ H3). specialize (H4 _ H1). lia. Qed.

(** Python's stable sort, for a comparison that is asymmetric and whose
    complement is transitive (a strict weak order). *)
Section SortedFacts.
Context {A : Type} (lt : A -> A -> bool).

Local Abbreviation before := (Py.before lt).

Hypothesis lt_asym : forall a b, lt a b = true -> lt b a = false.
Hypothesis before_trans : forall a b c, before a b -> before b c -> before a c.

Lemma insert_perm x l : Permutation (Py.insert lt x l) (x :: l).
Proof.
  induction l as [|y l IH]; simpl; [reflexivity|].
  destruct (lt y x); [|reflexivity].
  rewrite IH. apply perm_swap.
Qed.

Lemma sorted_perm l : Permutation (Py.sorted lt l) l.
Proof.
  induction l as [|x l IH]; simpl; [reflexivity|].
  rewrite insert_perm. now constructor.
Qed.

Lemma sorted_In x l : In x (Py.sorted lt l) <-> In x l.
Proof.
  split; apply Permutation_in; [|symmetry]; apply sorted_perm.
Qed.

Lemma insert_sorted x l :
  StronglySorted before l -> StronglySorted before (Py.insert lt x l).
Proof.
  induction 1 as [|y l Hs IH Hall]; simpl.
  - repeat constructor.
  - destruct (lt y x) eqn:E.
    + constructor; [assumption|].
      apply List.Forall_forall. intros z Hz.
      apply (Permutation_in _ (insert_perm x l)) in Hz.
      destruct Hz as [<-|Hz].
      * now apply lt_asym.
      * rewrite List.Forall_forall in Hall. now apply Hall.
    + constructor; [now constructor|].
      constructor; [exact E|].
      rewrite List.Forall_forall in Hall |- *. intros z Hz.
      eapply before_trans; [exact E|]. now apply Hall.
Qed.

Lemma sorted_sorted l : StronglySorted before (Py.sorted lt l).
Proof.
  induction l as [|x l IH]; simpl; [constructor|]. now apply insert_sorted.
Qed.

(** A list that is in order already is left as it is. *)
Lemma insert_head x l :
  List.Forall (before x) l -> Py.insert lt x l = x :: l.
Proof.
  intros H. destruct l as [|y l]; simpl; [reflexivity|].
  inversion H as [|? ? Hy _]; subst. unfold Py.before in Hy. now rewrite Hy.
Qed.

Lemma sorted_id l : StronglySorted before l -> Py.sorted lt l = l.
Proof.
  induction 1 as [|x l Hs IH Hall]; simpl; [reflexivity|].
  rewrite IH. now apply insert_head.
Qed.
End SortedFacts.

(** ** Range filtering *)

Lemma chunk_id_pass_within lo hi c :
  ChunkUtils.chunk_id_pass lo hi c = true <-> Spec.within lo hi (chunk_id c).
Proof.
  unfold ChunkUtils.chunk_id_pass, Spec.within.
  destruct lo as [l|], hi as [h|];
    repeat match goal with
           | |- context [?a <? ?b] => destruct (Z.ltb_spec a b)
           | |- context [?a >? ?b] => rewrite (Z.gtb_ltb a b)
           end;
    split; try discriminate; try (intros _; split; intros ? [= <-]; lia);
    try (intros [H1 H2]; try specialize (H1 _ eq_refl);
         try specialize (H2 _ eq_refl); lia);
    auto.
Qed.

Lemma page_pass_span lo hi c :
  ChunkUtils.page_pass lo hi c = true
  <-> Spec.page_span_meets lo hi c \/ Spec.unparsable c.
Proof.
  unfold ChunkUtils.page_pass, Spec.page_span_meets, Spec.unparsable, Spec.pagesOf.
  destruct (PageUtils.extract_page_numbers_from_string (page_num c)) as [|p ps].
  { split; auto. }
  pose proof (min_least p ps) as Hmin. pose proof (max_greatest p ps) as Hmax.
  split.
  - intros H. left. exists (Py.min p ps), (Py.max p ps).
    repeat split; try apply Hmin; try apply Hmax.
    + intros l ->. destruct (Z.ltb_spec (Py.max p ps) l); [discriminate|lia].
    + intros h ->. rewrite Z.gtb_ltb in H.
      destruct lo as [l|].
      * destruct (Py.max p ps <? l); [discriminate|].
        destruct (Z.ltb_spec h (Py.min p ps)); [discriminate|lia].
      * destruct (Z.ltb_spec h (Py.min p ps)); [discriminate|lia].
  - intros [(lo_page & hi_page & Hl & Hg & Hlo & Hhi)|]; [|discriminate].
    rewrite (least_unique _ _ _ Hl Hmin) in Hhi.
    rewrite (greatest_unique _ _ _ Hg Hmax) in Hlo.
    destruct lo as [l|], hi as [h|]; try rewrite Z.gtb_ltb;
      try specialize (Hlo _ eq_refl); try specialize (Hhi _ eq_refl);
      repeat match goal with
             | |- context [?a <? ?b] => destruct (Z.ltb_spec a b); try lia
             end; reflexivity.
Qed.

Lemma apply_range_limitations_passes chunks sp ep sc ec :
  ChunkUtils.apply_range_limitations chunks sp ep sc ec
  = List.filter (ChunkUtils.page_pass sp ep)
                (List.filter (ChunkUtils.chunk_id_pass sc ec) chunks).
Proof.
  assert (Hid : forall l : list SearchResult,
             List.filter (ChunkUtils.chunk_id_pass None None) l = l).
  { induction l; simpl; congruence. }
  assert (Hpg : forall l : list SearchResult,
             List.filter (ChunkUtils.page_pass None None) l = l).
  { induction l as [|a l IH]; simpl; [reflexivity|].
    unfold ChunkUtils.page_pass at 1.
    destruct (PageUtils.extract_page_numbers_from_string _); congruence. }
  unfold ChunkUtils.apply_range_limitations.
  destruct chunks as [|c chunks]; [reflexivity|].
  destruct sc, ec, sp, ep; cbn [is_not_None orb];
    rewrite ?Hid, ?Hpg; reflexivity.
Qed.

Lemma apply_range_limitations_In chunks pageLo pageHi idLo idHi c :
  In c (ChunkUtils.apply_range_limitations chunks pageLo pageHi idLo idHi)
  <-> In c chunks /\ Spec.within idLo idHi (chunk_id c)
      /\ (Spec.page_span_meets pageLo pageHi c \/ Spec.unparsable c).
Proof.
  rewrite apply_range_limitations_passes.
  rewrite !List.filter_In, chunk_id_pass_within, page_pass_span. tauto.
Qed.

(** C1, as worded, fails: a chunk labelled "3-10" has the page set
    [{3, 10}], which misses the range 5..6, yet the filter keeps it. *)
Lemma apply_range_limitations_page_set_counterexample :
  ~ Spec.filterByRange_as_worded [Sample.c1] (Some 5) (Some 6) None None.
Proof.
  intros H. destruct (H Sample.c1) as [H1 _].
  destruct H1 as (_ & _ & [(p & Hp & Hlo & Hhi)|Hun]).
  - vm_compute. now left.
  - specialize (Hlo _ eq_refl). specialize (Hhi _ eq_refl).
    vm_compute in Hp. destruct Hp as [<-|[<-|[]]]; lia.
  - vm_compute in Hun. discriminate.
Qed.

(** C1 (amended): range filtering is the chunk_id pass followed by the
    page pass, and it keeps a chunk iff its chunk_id is within the id
    bounds given and, in the page pass, either the span from its smallest
    to its largest parsed page meets the page bounds given (largest at
    least pageLo, smallest at most pageHi) or its label yields no page
    number; an absent bound imposes nothing. *)
Theorem apply_range_limitations_spec chunks pageLo pageHi idLo idHi :
  ChunkUtils.apply_range_limitations chunks pageLo pageHi idLo idHi
  = List.filter (ChunkUtils.page_pass pageLo pageHi)
                (List.filter (ChunkUtils.chunk_id_pass idLo idHi) chunks)
  /\ (forall c,
        In c (ChunkUtils.apply_range_limitations chunks pageLo pageHi idLo idHi)
        <-> In c chunks /\ Spec.within idLo idHi (chunk_id c)
            /\ (Spec.page_span_meets pageLo pageHi c \/ Spec.unparsable c))
  /\ (forall c, Spec.within None None (chunk_id c))
  /\ (forall c, Spec.unparsable c -> ChunkUtils.page_pass pageLo pageHi c = true).
Proof.
  split; [apply apply_range_limitations_passes|]. split; [|split].
  - intros c. apply apply_range_limitations_In.
  - intros c. split; discriminate.
  - intros c Hc. apply page_pass_span. now right.
Qed.

Lemma filter_sublist {A} (f : A -> bool) (l : list A) :
  sublist (List.filter f l) l.
Proof.
  induction l as [|x l IH]; simpl; [constructor|].
  destruct (f x); now constructor.
Qed.

(** C8, as worded, fails on both counts: the page set [{3, 10}] of a kept
    chunk misses the range 5..6, and a chunk whose label has no page
    number is kept under a page filter. *)
Lemma apply_range_limitations_bounds_counterexample :
  ~ Spec.filterByRange_bounds_as_worded [Sample.c1] (Some 5) (Some 6) None None
  /\ ~ Spec.filterByRange_bounds_as_worded [Sample.c2] (Some 5) (Some 6) None None.
Proof.
  split; intros H.
  - destruct (H ltac:(intros l h [= <-] [= <-]; lia) ltac:(intros l h [=])
                Sample.c1 ltac:(vm_compute; now left)) as (_ & _ & Hp).
    destruct (Hp eq_refl) as (p & Hp' & Hlo & Hhi).
    specialize (Hlo _ eq_refl). specialize (Hhi _ eq_refl).
    vm_compute in Hp'. destruct Hp' as [<-|[<-|[]]]; lia.
  - destruct (H ltac:(intros l h [= <-] [= <-]; lia) ltac:(intros l h [=])
                Sample.c2 ltac:(vm_compute; now left)) as (_ & _ & Hp).
    destruct (Hp eq_refl) as (p & Hp' & _). vm_compute in Hp'. exact Hp'.
Qed.

(** C8 (amended): with ordered bounds, what range filtering returns is a
    sub-list of its input; every returned chunk has its chunk_id within
    the id bounds given, and either its label yields no page number or
    some page between its smallest and its largest parsed page lies within
    the page bounds given. *)
Theorem apply_range_limitations_bounds chunks pageLo pageHi idLo idHi :
  Spec.ordered pageLo pageHi -> Spec.ordered idLo idHi ->
  sublist (ChunkUtils.apply_range_limitations chunks pageLo pageHi idLo idHi) chunks
  /\ List.Forall
       (fun c =>
          In c chunks /\ Spec.within idLo idHi (chunk_id c)
          /\ (Spec.unparsable c
              \/ exists lo_page hi_page q,
                   Spec.least lo_page (Spec.pagesOf c)
                   /\ Spec.greatest hi_page (Spec.pagesOf c)
                   /\ lo_page <= q <= hi_page /\ Spec.within pageLo pageHi q))
       (ChunkUtils.apply_range_limitations chunks pageLo pageHi idLo idHi).
Proof.
  intros Hpage _. split.
  - rewrite apply_range_limitations_passes.
    etransitivity; apply filter_sublist.
  - apply List.Forall_forall. intros c Hc.
    apply apply_range_limitations_In in Hc.
    destruct Hc as (Hin & Hid & [(lo_page & hi_page & Hl & Hg & Hlo & Hhi)|Hun]);
      (split; [exact Hin|split; [exact Hid|]]); [|now left].
    right. exists lo_page, hi_page.
    assert (lo_page <= hi_page) by (apply Hl, Hg).
    unfold Spec.within.
    destruct pageLo as [l|], pageHi as [h|];
      try specialize (Hlo _ eq_refl); try specialize (Hhi _ eq_refl);
      try specialize (Hpage _ _ eq_refl eq_refl).
    + exists (Z.max l lo_page). split; [exact Hl|split; [exact Hg|]].
      split; [lia|]. split; intros ? [= <-]; lia.
    + exists hi_page. split; [exact Hl|split; [exact Hg|]].
      split; [lia|]. split; intros ? [= <-]; lia.
    + exists lo_page. split; [exact Hl|split; [exact Hg|]].
      split; [lia|]. split; intros ? [= <-]; lia.
    + exists lo_page. split; [exact Hl|split; [exact Hg|]].
      split; [lia|]. split; intros ? [=].
Qed.

Lemma apply_range_limitations_bounds_witness :
  sublist (ChunkUtils.apply_range_limitations
             Sample.document (Some 11) (Some 12) (Some 2) (Some 4))
          Sample.document
  /\ List.Forall
       (fun c =>
          In c Sample.document /\ Spec.within (Some 2) (Some 4) (chunk_id c)
          /\ (Spec.unparsable c
              \/ exists lo_page hi_page q,
                   Spec.least lo_page (Spec.pagesOf c)
                   /\ Spec.greatest hi_page (Spec.pagesOf c)
                   /\ lo_page <= q <= hi_page
                   /\ Spec.within (Some 11) (Some 12) q))
       (ChunkUtils.apply_range_limitations
          Sample.document (Some 11) (Some 12) (Some 2) (Some 4)).
Proof.
  apply (apply_range_limitations_bounds
           Sample.document (Some 11) (Some 12) (Some 2) (Some 4));
    intros l h [= <-] [= <-]; lia.
Defined.

Example apply_range_limitations_sample :
  ChunkUtils.apply_range_limitations
    Sample.document (Some 11) (Some 12) (Some 2) (Some 4)
  = [Sample.c2; Sample.c3; Sample.c4].
Proof. reflexivity. Qed.

(** ** Expansion and merging *)

Lemma chunk_id_lt_asym a b :
  ChunkUtils.chunk_id_lt a b = true -> ChunkUtils.chunk_id_lt b a = false.
Proof. unfold ChunkUtils.chunk_id_lt. rewrite Z.ltb_lt, Z.ltb_ge. lia. Qed.

Lemma chunk_id_before_trans a b c :
  Py.before ChunkUtils.chunk_id_lt a b -> Py.before ChunkUtils.chunk_id_lt b c ->
  Py.before ChunkUtils.chunk_id_lt a c.
Proof. unfold Py.before, ChunkUtils.chunk_id_lt. rewrite !Z.ltb_ge. lia. Qed.

Lemma StronglySorted_impl {A} (R S : A -> A -> Prop) l :
  (forall a b, R a b -> S a b) -> StronglySorted R l -> StronglySorted S l.
Proof.
  intros HRS. induction 1 as [|x l Hs IH Hall]; constructor; [assumption|].
  eapply List.Forall_impl; [|exact Hall]. auto.
Qed.

Lemma sorted_by_chunk_id l :
  StronglySorted (fun a b => chunk_id a <= chunk_id b)
                 (Py.sorted ChunkUtils.chunk_id_lt l).
Proof.
  eapply StronglySorted_impl;
    [|apply sorted_sorted; [apply chunk_id_lt_asym|apply chunk_id_before_trans]].
  intros a b. unfold Py.before, ChunkUtils.chunk_id_lt. rewrite Z.ltb_ge. lia.
Qed.

Lemma expand_chunks_zero targets all_chunks :
  ChunkUtils.expand_chunks targets all_chunks 0 0 = targets.
Proof.
  unfold ChunkUtils.expand_chunks.
  destruct (List.map chunk_id targets); reflexivity.
Qed.

(** C2: for a non-empty target list and margins that are not negative,
    with [min_id] and [max_id] the smallest and the largest chunk_id of the
    targets, [expand_chunks] is a no-op when both margins are zero, and
    otherwise returns exactly the chunks of the document whose chunk_id
    lies in [min_id - before, max_id + after], in ascending order of
    chunk_id (the stable sort of the document order). *)
Theorem expand_chunks_spec targets all_chunks before_ after_ :
  targets <> [] -> 0 <= before_ -> 0 <= after_ ->
  exists min_id max_id,
    Spec.least min_id (List.map chunk_id targets)
    /\ Spec.greatest max_id (List.map chunk_id targets)
    /\ let out := ChunkUtils.expand_chunks targets all_chunks before_ after_ in
       let in_window c :=
         (min_id - before_ <=? chunk_id c) && (chunk_id c <=? max_id + after_) in
       (before_ = 0 /\ after_ = 0 -> out = targets)
       /\ (~ (before_ = 0 /\ after_ = 0) ->
           (forall c, In c out
                      <-> In c all_chunks
                          /\ min_id - before_ <= chunk_id c <= max_id + after_)
           /\ Permutation out (List.filter in_window all_chunks)
           /\ StronglySorted (fun a b => chunk_id a <= chunk_id b) out
           /\ out = Py.sorted ChunkUtils.chunk_id_lt
                              (List.filter in_window all_chunks)).
Proof.
  intros Hne _ _.
  destruct targets as [|t ts]; [congruence|].
  exists (Py.min (chunk_id t) (List.map chunk_id ts)),
         (Py.max (chunk_id t) (List.map chunk_id ts)).
  split; [apply min_least|]. split; [apply max_greatest|].
  cbv zeta. split.
  - intros [-> ->]. apply expand_chunks_zero.
  - intros Hnz. unfold ChunkUtils.expand_chunks. cbn [List.map].
    destruct ((before_ =? 0) && (after_ =? 0)) eqn:E.
    { apply andb_true_iff in E. rewrite !Z.eqb_eq in E. tauto. }
    split; [|split; [|split]].
    + intros c. rewrite sorted_In, List.filter_In, andb_true_iff, !Z.leb_le.
      tauto.
    + apply sorted_perm.
    + apply sorted_by_chunk_id.
    + reflexivity.
Qed.

Lemma expand_chunks_spec_witness :
  exists min_id max_id,
    Spec.least min_id (List.map chunk_id [Sample.c4; Sample.c3])
    /\ Spec.greatest max_id (List.map chunk_id [Sample.c4; Sample.c3])
    /\ let out := ChunkUtils.expand_chunks [Sample.c4; Sample.c3]
                                           Sample.document 1 1 in
       let in_window c :=
         (min_id - 1 <=? chunk_id c) && (chunk_id c <=? max_id + 1) in
       (1 = 0 /\ 1 = 0 -> out = [Sample.c4; Sample.c3])
       /\ (~ (1 = 0 /\ 1 = 0) ->
           (forall c, In c out
                      <-> In c Sample.document
                          /\ min_id - 1 <= chunk_id c <= max_id + 1)
           /\ Permutation out (List.filter in_window Sample.document)
           /\ StronglySorted (fun a b => chunk_id a <= chunk_id b) out
           /\ out = Py.sorted ChunkUtils.chunk_id_lt
                              (List.filter in_window Sample.document)).
Proof.
  apply (expand_chunks_spec [Sample.c4; Sample.c3] Sample.document 1 1);
    [discriminate|lia|lia].
Defined.

Example expand_chunks_sample :
  ChunkUtils.expand_chunks [Sample.c4; Sample.c3] Sample.document 1 1
  = [Sample.c2; Sample.c3; Sample.c4; Sample.c5]
  /\ ChunkUtils.expand_chunks [Sample.c4; Sample.c3] Sample.document 0 0
     = [Sample.c4; Sample.c3].
Proof. split; reflexivity. Qed.

(** C9: expanding an expansion by zero margins changes nothing, and
    merging after an expansion by zero margins gives the text of merging
    the targets themselves. *)
Theorem expand_idempotent_and_merge_noop targets all_chunks before_ after_ :
  ChunkUtils.expand_chunks
    (ChunkUtils.expand_chunks targets all_chunks before_ after_) all_chunks 0 0
  = ChunkUtils.expand_chunks targets all_chunks before_ after_
  /\ ChunkUtils.merge_chunks_text (ChunkUtils.expand_chunks targets all_chunks 0 0)
     = ChunkUtils.merge_chunks_text targets.
Proof.
  split; [apply expand_chunks_zero|]. now rewrite expand_chunks_zero.
Qed.

Example merge_chunks_text_sample :
  ChunkUtils.merge_chunks_text [Sample.c4; Sample.c1; Sample.c3] = Py.utf8 "ACD".
Proof. reflexivity. Qed.

(** ** Merge and ranking *)

Module HybridFacts.
Import HybridSearcher MergeInvariant.

Lemma key_lt_false a b : key_lt b a = false <-> key_le a b.
Proof.
  unfold key_lt, key_le.
  destruct (Z.eqb_spec (fst b) (fst a)) as [E|E]; cbn [negb].
  - destruct (snd b ?= snd a)%Q eqn:C.
    + apply Qeq_alt in C. split; [|reflexivity]. intros _. right.
      split; [congruence|]. rewrite C. apply Qle_refl.
    + apply Qlt_alt in C. split; [discriminate|].
      intros [H|[_ H]]; [lia|]. exfalso. exact (Qlt_not_le _ _ C H).
    + apply Qgt_alt in C. split; [|reflexivity]. intros _. right.
      split; [congruence|]. now apply Qlt_le_weak.
  - rewrite Z.ltb_ge. split; [intros; left; lia|].
    intros [H|[H _]]; [lia|congruence].
Qed.

Lemma key_le_trans a b c : key_le a b -> key_le b c -> key_le a c.
Proof.
  unfold key_le. intros [H1|[H1 H1']] [H2|[H2 H2']]; try (left; lia).
  right. split; [lia|]. eapply Qle_trans; eassumption.
Qed.

Lemma result_lt_asym a b : result_lt a b = true -> result_lt b a = false.
Proof.
  unfold result_lt. intros H. apply key_lt_false.
  destruct (key_lt (sort_key b) (sort_key a)) eqn:E.
  - exfalso. unfold key_lt in H, E.
    destruct (Z.eqb_spec (fst (sort_key a)) (fst (sort_key b))) as [E1|E1];
      destruct (Z.eqb_spec (fst (sort_key b)) (fst (sort_key a))) as [E2|E2];
      cbn [negb] in H, E; try congruence.
    + destruct (snd (sort_key a) ?= snd (sort_key b))%Q eqn:C1; try discriminate.
      destruct (snd (sort_key b) ?= snd (sort_key a))%Q eqn:C2; try discriminate.
      apply Qlt_alt in C1, C2. exact (Qlt_irrefl _ (Qlt_trans _ _ _ C1 C2)).
    + apply Z.ltb_lt in H, E. lia.
  - now apply key_lt_false.
Qed.

Lemma result_before_trans a b c :
  Py.before result_lt a b -> Py.before result_lt b c -> Py.before result_lt a c.
Proof.
  unfold Py.before, result_lt. rewrite !key_lt_false. apply key_le_trans.
Qed.

Lemma StronglySorted_lookup {A} (R : A -> A -> Prop) (l : list A) :
  StronglySorted R l ->
  forall (i j : nat) x y,
    l !! i = Some x -> l !! j = Some y -> (i < j)%nat -> R x y.
Proof.
  induction 1 as [|a l Hs IH Hall]; intros i j x y Hi Hj Hlt.
  - discriminate.
  - destruct j as [|j]; [lia|]. cbn in Hj. destruct i as [|i]; cbn in Hi.
    + injection Hi as <-. rewrite List.Forall_forall in Hall.
      apply Hall. apply list_elem_of_In. eapply list_elem_of_lookup_2; eauto.
    + eapply IH; eauto. lia.
Qed.

Lemma invariant_init : invariant [] [] ([], ∅).
Proof.
  split; cbn.
  - intros g. set_solver.
  - constructor.
  - intros g [H|H]; inversion H.
  - intros e H; inversion H.
  - intros e H; inversion H.
Qed.

Lemma first_with_id_snoc r l x : first_with_id r l -> first_with_id r (l ++ [x]).
Proof.
  intros (l1 & l2 & -> & H). exists l1, (l2 ++ [x]).
  split; [|assumption]. now rewrite <- app_assoc.
Qed.

Lemma add_vector_invariant vs st x :
  invariant vs [] st -> invariant (vs ++ [x]) [] (add_vector st x).
Proof.
  destruct st as [all_results seen]. intros [Hseen Hnd Hall Hv Hk].
  cbn [fst snd] in *. unfold add_vector.
  assert (Hnil : forall g, vector_tags g [] = [VECTOR]).
  { intros g. unfold vector_tags. destruct (decide _) as [H|]; [inversion H|done]. }
  destruct (decide (global_id x ∈ seen)) as [Hin|Hnin]; split; cbn [fst snd].
  - exact Hseen.
  - exact Hnd.
  - intros g [H|H]; [|inversion H]. unfold ids in H. rewrite fmap_app in H.
    apply elem_of_app in H as [H|H]; [apply Hall; now left|].
    apply list_elem_of_singleton in H as ->. now apply Hseen.
  - intros e He _.
    assert (Hg : global_id e ∈ ids vs).
    { destruct (decide (global_id e ∈ ids vs)) as [|Hn]; [done|].
      destruct (Hk e He Hn) as (r & Hr & _). inversion Hr. }
    destruct (Hv e He Hg) as (r & Hf & Hid & He').
    exists r. split; [now apply first_with_id_snoc|]. now rewrite Hnil in *.
  - intros e He Hn. exfalso.
    destruct (decide (global_id e ∈ ids vs)) as [Hg|Hg].
    + apply Hn. unfold ids. rewrite fmap_app. apply elem_of_app. now left.
    + destruct (Hk e He Hg) as (r & Hr & _). inversion Hr.
  - intros g. unfold ids. rewrite fmap_app, elem_of_app, elem_of_union.
    rewrite Hseen. cbn. rewrite list_elem_of_singleton, elem_of_singleton.
    reflexivity.
  - unfold ids. rewrite fmap_app. apply NoDup_app. split; [exact Hnd|]. split.
    + intros g Hg Hg'. cbn in Hg'. apply list_elem_of_singleton in Hg' as ->.
      apply Hnin. now apply Hseen.
    + cbn. apply NoDup_singleton.
  - intros g [H|H]; [|inversion H]. unfold ids in *. rewrite !fmap_app in *.
    rewrite elem_of_app in *. destruct H as [H|H]; [left; apply Hall; now left|].
    now right.
  - intros e He _. apply elem_of_app in He as [He|He].
    + assert (Hg : global_id e ∈ ids vs).
      { destruct (decide (global_id e ∈ ids vs)) as [|Hn]; [done|].
        destruct (Hk e He Hn) as (r & Hr & _). inversion Hr. }
      destruct (Hv e He Hg) as (r & Hf & Hid & He').
      exists r. split; [now apply first_with_id_snoc|]. now rewrite Hnil in *.
    + apply list_elem_of_singleton in He as ->. exists x.
      split; [|split; [reflexivity|now rewrite Hnil]].
      exists vs, []. split; [reflexivity|].
      intros Hin. apply Hnin, Hseen. cbn in Hin.
      destruct (proj1 (list_elem_of_fmap _ _ _) Hin) as (r & Hr & Hrin).
      destruct (decide (global_id x ∈ ids all_results)) as [|Hno]; [done|].
      exfalso. apply Hno, Hall. left. exact Hin.
  - intros e He Hn. exfalso. apply elem_of_app in He as [He|He].
    + destruct (decide (global_id e ∈ ids vs)) as [Hg|Hg].
      * apply Hn. unfold ids. rewrite fmap_app. apply elem_of_app. now left.
      * destruct (Hk e He Hg) as (r & Hr & _). inversion Hr.
    + apply list_elem_of_singleton in He as ->. apply Hn. cbn.
      unfold ids. rewrite fmap_app. apply elem_of_app. right. cbn.
      apply list_elem_of_singleton. reflexivity.
Qed.

Lemma fold_add_vector_invariant vs done st :
  invariant done [] st ->
  invariant (done ++ vs) [] (fold_left add_vector vs st).
Proof.
  revert done st. induction vs as [|x vs IH]; intros done st H; cbn.
  - now rewrite app_nil_r.
  - replace (done ++ x :: vs) with ((done ++ [x]) ++ vs)
      by now rewrite <- app_assoc.
    apply IH. now apply add_vector_invariant.
Qed.

Lemma mark_global_id g e : global_id (mark g e) = global_id e.
Proof. unfold mark. repeat destruct (decide _); reflexivity. Qed.

Lemma ids_mark g l : ids (mark g <$> l) = ids l.
Proof.
  unfold ids. rewrite <- list_fmap_compose. apply list_fmap_ext.
  intros i e _. apply mark_global_id.
Qed.

Lemma mark_absent g l : g ∉ ids l -> mark g <$> l = l.
Proof.
  induction l as [|e l IH]; cbn; [reflexivity|]. intros H.
  rewrite not_elem_of_cons in H. destruct H as [Hne Hl].
  rewrite (IH Hl). unfold mark. destruct (decide (global_id e = g)); congruence.
Qed.

Lemma mark_keyword_fmap g l : NoDup (ids l) -> mark_keyword g l = mark g <$> l.
Proof.
  induction l as [|e l IH]; cbn; [reflexivity|]. intros H.
  apply NoDup_cons in H as [Hne Hnd]. unfold mark at 1.
  destruct (decide (global_id e = g)) as [<-|Hg].
  - now rewrite (mark_absent _ _ Hne).
  - now rewrite (IH Hnd).
Qed.

Lemma vector_tags_snoc_ne g ks x :
  g <> global_id x -> vector_tags g (ks ++ [x]) = vector_tags g ks.
Proof.
  intros Hne. unfold vector_tags, ids. rewrite fmap_app. cbn.
  destruct (decide (g ∈ global_id <$> ks)) as [H|H];
    destruct (decide _) as [H'|H'];
    try reflexivity; exfalso.
  - apply H', elem_of_app. now left.
  - apply elem_of_app in H' as [H'|H']; [done|].
    apply list_elem_of_singleton in H'. done.
Qed.

Lemma vector_tags_snoc_eq ks x :
  vector_tags (global_id x) (ks ++ [x]) = [VECTOR; KEYWORD].
Proof.
  unfold vector_tags, ids. rewrite fmap_app. cbn.
  destruct (decide _) as [|H]; [reflexivity|]. exfalso.
  apply H, elem_of_app. right. apply list_elem_of_singleton. reflexivity.
Qed.

Lemma keyword_not_vector : KEYWORD ∉ [VECTOR].
Proof. intros H. apply list_elem_of_singleton in H. discriminate. Qed.

Lemma add_keyword_invariant vs ks st x :
  invariant vs ks st -> invariant vs (ks ++ [x]) (add_keyword st x).
Proof.
  destruct st as [all_results seen]. intros [Hseen Hnd Hall Hv Hk].
  cbn [fst snd] in *. unfold add_keyword.
  destruct (decide (global_id x ∈ seen)) as [Hin|Hnin]; cbn [fst snd].
  - rewrite (mark_keyword_fmap _ _ Hnd). split; cbn [fst snd].
    + intros g. now rewrite ids_mark.
    + now rewrite ids_mark.
    + intros g Hg. rewrite ids_mark. unfold ids in Hg. rewrite fmap_app in Hg.
      rewrite elem_of_app in Hg. destruct Hg as [Hg|[Hg|Hg]].
      * apply Hall. now left.
      * apply Hall. now right.
      * cbn in Hg. apply list_elem_of_singleton in Hg as ->. now apply Hseen.
    + intros e' He' Hg'.
      apply list_elem_of_fmap in He' as (e & -> & He).
      rewrite mark_global_id in *.
      destruct (Hv e He Hg') as (r & Hf & Hid & Heq).
      exists r. split; [exact Hf|]. split; [exact Hid|].
      unfold mark. destruct (decide (global_id e = global_id x)) as [E|E].
      * rewrite E, vector_tags_snoc_eq.
        assert (Hm : from_methods e = vector_tags (global_id e) ks)
          by now rewrite Heq at 1.
        unfold vector_tags in Hm.
        destruct (decide (global_id e ∈ ids ks)) as [Hks|Hks].
        -- destruct (decide (KEYWORD ∈ from_methods e)) as [_|Hn].
           ++ rewrite Heq. unfold vector_tags.
              destruct (decide _); [reflexivity|done].
           ++ exfalso. apply Hn. rewrite Hm.
              apply elem_of_cons. right. apply elem_of_cons. now left.
        -- destruct (decide (KEYWORD ∈ from_methods e)) as [Hy|_].
           ++ exfalso. rewrite Hm in Hy. exact (keyword_not_vector Hy).
           ++ rewrite Hm. rewrite Heq. reflexivity.
      * now rewrite (vector_tags_snoc_ne _ _ _ E).
    + intros e' He' Hg'.
      apply list_elem_of_fmap in He' as (e & -> & He).
      rewrite mark_global_id in *.
      destruct (Hk e He Hg') as (r & Hr & Heq).
      exists r. split; [apply elem_of_app; now left|].
      unfold mark. destruct (decide _); [|exact Heq].
      destruct (decide (KEYWORD ∈ from_methods e)) as [_|Hn]; [exact Heq|].
      exfalso. apply Hn. rewrite Heq. cbn. apply elem_of_cons. now left.
  - assert (Hfresh : global_id x ∉ ids all_results)
      by (intros H; now apply Hnin, Hseen).
    split; cbn [fst snd].
    + intros g. unfold ids. rewrite fmap_app, elem_of_app, elem_of_union.
      rewrite Hseen. cbn. rewrite list_elem_of_singleton, elem_of_singleton.
      reflexivity.
    + unfold ids. rewrite fmap_app. apply NoDup_app. split; [exact Hnd|]. split.
      * intros g Hg Hg'. cbn in Hg'. apply list_elem_of_singleton in Hg' as ->.
        done.
      * cbn. apply NoDup_singleton.
    + intros g Hg. unfold ids in *. rewrite !fmap_app in *.
      rewrite !elem_of_app in *. destruct Hg as [Hg|[Hg|Hg]].
      * left. apply Hall. now left.
      * left. apply Hall. now right.
      * now right.
    + intros e He Hg. apply elem_of_app in He as [He|He].
      * destruct (Hv e He Hg) as (r & Hf & Hid & Heq).
        exists r. split; [exact Hf|]. split; [exact Hid|].
        rewrite vector_tags_snoc_ne; [exact Heq|].
        intros E. apply Hfresh. rewrite <- E.
        apply list_elem_of_fmap. eauto.
      * apply list_elem_of_singleton in He as ->. cbn in Hg.
        exfalso. apply Hfresh, Hall. now left.
    + intros e He Hg. apply elem_of_app in He as [He|He].
      * destruct (Hk e He Hg) as (r & Hr & Heq).
        exists r. split; [apply elem_of_app; now left|exact Heq].
      * apply list_elem_of_singleton in He as ->. exists x.
        split; [|reflexivity]. apply elem_of_app. right.
        apply list_elem_of_singleton. reflexivity.
Qed.

Lemma fold_add_keyword_invariant vs ks done st :
  invariant vs done st ->
  invariant vs (done ++ ks) (fold_left add_keyword ks st).
Proof.
  revert done st. induction ks as [|x ks IH]; intros done st H; cbn.
  - now rewrite app_nil_r.
  - replace (done ++ x :: ks) with ((done ++ [x]) ++ ks)
      by now rewrite <- app_assoc.
    apply IH. now apply add_keyword_invariant.
Qed.

Lemma merged_invariant v k : invariant v k (merged v k).
Proof.
  unfold merged.
  apply (fold_add_keyword_invariant v k []).
  apply (fold_add_vector_invariant v []). apply invariant_init.
Qed.

Lemma merge_perm v k : _merge_and_deduplicate v k ≡ₚ fst (merged v k).
Proof. unfold _merge_and_deduplicate. apply sorted_perm. Qed.

Lemma merge_tags v k e :
  e ∈ _merge_and_deduplicate v k ->
  from_methods e = [VECTOR] \/ from_methods e = [VECTOR; KEYWORD]
  \/ from_methods e = [KEYWORD].
Proof.
  intros He. rewrite merge_perm in He.
  destruct (merged_invariant v k) as [_ _ _ Hv Hk].
  destruct (decide (global_id e ∈ ids v)) as [Hg|Hg].
  - destruct (Hv e He Hg) as (r & _ & _ & ->). cbn. unfold vector_tags.
    destruct (decide _); auto.
  - destruct (Hk e He Hg) as (r & _ & ->). cbn. auto.
Qed.

Lemma NoDup_fmap_eq {A B} (f : A -> B) (l : list A) x y :
  NoDup (f <$> l) -> x ∈ l -> y ∈ l -> f x = f y -> x = y.
Proof.
  induction l as [|a l IH]; cbn; intros Hnd Hx Hy E; [inversion Hx|].
  apply NoDup_cons in Hnd as [Ha Hnd].
  apply elem_of_cons in Hx as [->|Hx]; apply elem_of_cons in Hy as [->|Hy].
  - reflexivity.
  - exfalso. apply Ha. rewrite E. apply list_elem_of_fmap. eauto.
  - exfalso. apply Ha. rewrite <- E. apply list_elem_of_fmap. eauto.
  - now apply IH.
Qed.

End HybridFacts.

(** C3: in the list the merge returns, a result that carries the
    ["vector"] tag stands before every result that does not; a result
    without it carries the ["keyword"] tag alone; and of two results in the
    same bucket the earlier one has the score that is at least as high. *)
Theorem merge_order (vector_results keyword_results : list SearchResult)
    (i j : nat) (x y : SearchResult) :
  let out := HybridSearcher._merge_and_deduplicate vector_results keyword_results in
  out !! i = Some x -> out !! j = Some y ->
  (HybridSearcher.VECTOR ∈ from_methods x ->
   HybridSearcher.VECTOR ∉ from_methods y -> (i < j)%nat)
  /\ (HybridSearcher.VECTOR ∉ from_methods y ->
      from_methods y = [HybridSearcher.KEYWORD])
  /\ ((i < j)%nat ->
      (HybridSearcher.VECTOR ∈ from_methods x
       <-> HybridSearcher.VECTOR ∈ from_methods y) ->
      (score y <= score x)%Q).
Proof.
  intros out Hi Hj.
  assert (Hsorted : StronglySorted (Py.before HybridSearcher.result_lt) out).
  { apply sorted_sorted;
      [apply HybridFacts.result_lt_asym|apply HybridFacts.result_before_trans]. }
  assert (Hle : forall a b, Py.before HybridSearcher.result_lt a b ->
            MergeInvariant.key_le (HybridSearcher.sort_key a)
                               (HybridSearcher.sort_key b)).
  { intros a b. unfold Py.before, HybridSearcher.result_lt.
    now rewrite HybridFacts.key_lt_false. }
  split; [|split].
  - intros Hx Hy.
    destruct (Nat.lt_trichotomy i j) as [Hlt|[->|Hgt]]; [exact Hlt| |].
    + rewrite Hi in Hj. injection Hj as ->. done.
    + pose proof (HybridFacts.StronglySorted_lookup _ _ Hsorted _ _ _ _ Hj Hi Hgt)
        as Hb.
      apply Hle in Hb. unfold MergeInvariant.key_le, HybridSearcher.sort_key in Hb.
      cbn [fst snd] in Hb.
      destruct (decide (HybridSearcher.VECTOR ∈ from_methods y)); [done|].
      destruct (decide (HybridSearcher.VECTOR ∈ from_methods x)); [|done].
      lia.
  - intros Hy.
    destruct (HybridFacts.merge_tags vector_results keyword_results y)
      as [H|[H|H]].
    + eapply list_elem_of_lookup_2. exact Hj.
    + exfalso. apply Hy. rewrite H. apply elem_of_cons. now left.
    + exfalso. apply Hy. rewrite H. apply elem_of_cons. now left.
    + exact H.
  - intros Hlt Hsame.
    pose proof (HybridFacts.StronglySorted_lookup _ _ Hsorted _ _ _ _ Hi Hj Hlt)
      as Hb.
    apply Hle in Hb. unfold MergeInvariant.key_le, HybridSearcher.sort_key in Hb.
    cbn [fst snd] in Hb.
    destruct (decide (HybridSearcher.VECTOR ∈ from_methods x)) as [Hx|Hx];
      destruct (decide (HybridSearcher.VECTOR ∈ from_methods y)) as [Hy|Hy];
      try tauto;
      destruct Hb as [Hb|[_ Hb]]; try lia;
      now apply Qopp_le_compat in Hb; rewrite !Qopp_involutive in Hb.
Qed.

(** C4: the merge output holds every global id at most once; nothing is
    lost; and a global id found in both input lists has exactly one entry,
    which is the first vector result with that id, carrying the tags
    ["vector"] and ["keyword"]. *)
Theorem merge_no_duplicate_ids (vector_results keyword_results : list SearchResult) :
  let out := HybridSearcher._merge_and_deduplicate vector_results keyword_results in
  NoDup (global_id <$> out)
  /\ (forall r, r ∈ vector_results \/ r ∈ keyword_results ->
                global_id r ∈ global_id <$> out)
  /\ (forall g,
        g ∈ global_id <$> vector_results -> g ∈ global_id <$> keyword_results ->
        exists e r,
          MergeInvariant.first_with_id r vector_results /\ global_id r = g
          /\ e = set_from_methods r [HybridSearcher.VECTOR; HybridSearcher.KEYWORD]
          /\ e ∈ out
          /\ (forall e', e' ∈ out -> global_id e' = g -> e' = e)).
Proof.
  intros out.
  pose proof (HybridFacts.merge_perm vector_results keyword_results) as Hperm.
  fold out in Hperm.
  destruct (HybridFacts.merged_invariant vector_results keyword_results)
    as [_ Hnd Hall Hv _].
  assert (Hnd' : NoDup (global_id <$> out)).
  { unfold MergeInvariant.ids in Hnd. now rewrite Hperm. }
  split; [exact Hnd'|]. split.
  - intros r Hr. rewrite Hperm. apply Hall.
    destruct Hr as [Hr|Hr]; [left|right]; apply list_elem_of_fmap; eauto.
  - intros g Hgv Hgk.
    assert (Hg : g ∈ MergeInvariant.ids
                       (fst (MergeInvariant.merged vector_results keyword_results)))
      by (apply Hall; now left).
    apply list_elem_of_fmap in Hg as (e & -> & He).
    destruct (Hv e He Hgv) as (r & Hf & Hid & Heq).
    exists e, r. split; [exact Hf|]. split; [exact Hid|]. split.
    { rewrite Heq at 1. unfold MergeInvariant.vector_tags.
      destruct (decide _); [reflexivity|done]. }
    split; [now rewrite Hperm|].
    intros e' He' E.
    eapply (HybridFacts.NoDup_fmap_eq global_id out); eauto.
    now rewrite Hperm.
Qed.

Example merge_sample :
  HybridSearcher._merge_and_deduplicate Sample.vector_hits Sample.keyword_hits
  = [ set_from_methods Sample.c4 [HybridSearcher.VECTOR; HybridSearcher.KEYWORD];
      set_from_methods Sample.c1 [HybridSearcher.VECTOR];
      set_from_methods Sample.c2 [HybridSearcher.KEYWORD];
      set_from_methods Sample.c5 [HybridSearcher.KEYWORD] ].
Proof. vm_compute. reflexivity. Qed.

Lemma merge_order_witness :
  let x := set_from_methods Sample.c1 [HybridSearcher.VECTOR] in
  let y := set_from_methods Sample.c2 [HybridSearcher.KEYWORD] in
  (HybridSearcher.VECTOR ∈ from_methods x ->
   HybridSearcher.VECTOR ∉ from_methods y -> (1 < 2)%nat)
  /\ (HybridSearcher.VECTOR ∉ from_methods y ->
      from_methods y = [HybridSearcher.KEYWORD])
  /\ ((1 < 2)%nat ->
      (HybridSearcher.VECTOR ∈ from_methods x
       <-> HybridSearcher.VECTOR ∈ from_methods y) ->
      (score y <= score x)%Q).
Proof.
  apply (merge_order Sample.vector_hits Sample.keyword_hits 1 2);
    vm_compute; reflexivity.
Defined.

Lemma merge_no_duplicate_ids_witness :
  let out :=
    HybridSearcher._merge_and_deduplicate Sample.vector_hits Sample.keyword_hits in
  NoDup (global_id <$> out)
  /\ exists e r,
       MergeInvariant.first_with_id r Sample.vector_hits
       /\ global_id r = global_id Sample.c4
       /\ e = set_from_methods r [HybridSearcher.VECTOR; HybridSearcher.KEYWORD]
       /\ e ∈ out
       /\ (forall e', e' ∈ out -> global_id e' = global_id Sample.c4 -> e' = e).
Proof.
  destruct (merge_no_duplicate_ids Sample.vector_hits Sample.keyword_hits)
    as (Hnd & _ & Hboth).
  split; [exact Hnd|].
  apply Hboth; apply list_elem_of_fmap; exists Sample.c4;
    (split; [reflexivity|]).
  - apply elem_of_cons. right. apply elem_of_cons. now left.
  - apply elem_of_cons. right. apply elem_of_cons. now left.
Defined.

(** ** Title selection *)

Module SelectorFacts.
Import ChunkSelector.

Lemma parse_selection_cases json_loads raw total :
  _parse_selection_result json_loads raw total
  = match Spec.selection_field
            (LLMUtils.parse_llm_json_response json_loads raw) with
    | None => (None, false)
    | Some s =>
      if decide (Py.strip s = NO_MATCH) then (None, true)
      else
        match search_option (Py.strip s) with
        | None => (None, false)
        | Some digits =>
          match Py.int digits with
          | None => (None, false)
          | Some k =>
            if (0 <=? k - 1) && (k - 1 <? total) then (Some (k - 1), false)
            else (None, false)
          end
        end
    end.
Proof.
  unfold _parse_selection_result, Spec.selection_field.
  destruct (LLMUtils.parse_llm_json_response json_loads raw) as [|b|n|q|s|l|d];
    cbn [Json.truthy negb]; try reflexivity;
    try (destruct (negb _); reflexivity);
    try (destruct b; reflexivity);
    try (destruct l; reflexivity).
  destruct d as [|kv d]; [reflexivity|]. cbn [negb].
  destruct (Json.get (kv :: d) BEST_CHOICE) as [v|]; [|reflexivity].
  destruct v as [|b|n|q|s|l|d']; cbn [Json.truthy negb]; try reflexivity;
    try (destruct (negb _); reflexivity);
    try (destruct b; reflexivity);
    try (destruct l; reflexivity);
    try (destruct d'; reflexivity).
  destruct s as [|c s]; reflexivity.
Qed.

(** What [select_best_chunk] does with two or more candidates under title
    intent, in terms of the parsed reply. *)
Lemma select_title_run json_loads chat search_info first second rest
    all_chunks expand_context self :
  let candidates := first :: second :: rest in
  let prompt :=
    _build_selection_prompt search_info
      (_expand_candidates candidates all_chunks expand_context) TITLE in
  let reply :=
    match chat prompt with Some content => Py.strip content | None => Py.empty end in
  let self' note := mkSelector note (llm_requests self ++ [prompt]) in
  select_best_chunk json_loads chat search_info candidates all_chunks
                    expand_context TITLE self
  = match _parse_selection_result json_loads reply
                                  (Z.of_nat (length candidates)) with
    | (_, true) => (None, self' (Some NO_MATCH))
    | (Some i, false) =>
      match candidates !! Z.to_nat i with
      | Some c => (Some c, self' None)
      | None => (Some first, self' None)
      end
    | (None, false) => (Some first, self' None)
    end.
Proof.
  intros candidates prompt reply self'.
  unfold select_best_chunk, candidates.
  destruct (decide (TITLE <> TITLE)) as [H|_]; [congruence|].
  cbv beta iota delta [bind set_note _call_llm_for_selection request ret].
  fold candidates. fold prompt. cbn [llm_requests _last_selection_note].
  subst reply. destruct (chat prompt) as [content|];
    cbv beta iota; cbn [llm_requests];
    destruct (_parse_selection_result json_loads _ _) as [[i|] [|]];
    try reflexivity;
    destruct (candidates !! Z.to_nat i); reflexivity.
Qed.

End SelectorFacts.

(** C5: with one candidate the selector returns it and sends nothing to
    the model. With two or more candidates under title intent it sends one
    prompt and then: a model-call error (the reply is the empty text, which
    the JSON decoder rejects), a reply without a selection field, a
    selection field without an ordinal, and an ordinal outside 1..N all
    give the first candidate; the sentinel in the selection field gives
    [None] with the note set; an ordinal within 1..N gives that
    candidate. *)
Theorem select_best_chunk_fail_closed
    (json_loads : Py.str -> Json.decoded) (chat : Py.str -> option Py.str)
    (search_info : Py.str) (all_chunks : list SearchResult)
    (expand_context : bool) (self : ChunkSelector.selector) :
  (forall only intent,
     ChunkSelector.select_best_chunk json_loads chat search_info [only]
       all_chunks expand_context intent self
     = (Some only,
        ChunkSelector.mkSelector None (ChunkSelector.llm_requests self)))
  /\ (forall first second rest,
        let candidates := first :: second :: rest in
        let total := Z.of_nat (length candidates) in
        let prompt :=
          ChunkSelector._build_selection_prompt search_info
            (ChunkSelector._expand_candidates candidates all_chunks expand_context)
            ChunkSelector.TITLE in
        let reply :=
          match chat prompt with
          | Some content => Py.strip content
          | None => Py.empty
          end in
        let parsed := LLMUtils.parse_llm_json_response json_loads reply in
        let run :=
          ChunkSelector.select_best_chunk json_loads chat search_info candidates
            all_chunks expand_context ChunkSelector.TITLE self in
        let after note :=
          ChunkSelector.mkSelector note
            (ChunkSelector.llm_requests self ++ [prompt]) in
        ChunkSelector.llm_requests (snd run)
        = ChunkSelector.llm_requests self ++ [prompt]
        /\ (chat prompt = None ->
            (exists msg, json_loads Py.empty = Json.JSONDecodeError msg) ->
            run = (Some first, after None))
        /\ (Spec.selection_field parsed = None -> run = (Some first, after None))
        /\ (forall s, Spec.selection_field parsed = Some s ->
              (Py.strip s = ChunkSelector.NO_MATCH ->
               run = (None, after (Some ChunkSelector.NO_MATCH)))
              /\ (Py.strip s <> ChunkSelector.NO_MATCH ->
                  (ChunkSelector.search_option (Py.strip s) = None ->
                   run = (Some first, after None))
                  /\ (forall digits k,
                        ChunkSelector.search_option (Py.strip s) = Some digits ->
                        Py.int digits = Some k ->
                        (~ (1 <= k <= total) -> run = (Some first, after None))
                        /\ (1 <= k <= total ->
                            exists c, candidates !! Z.to_nat (k - 1) = Some c
                                      /\ run = (Some c, after None)))))).
Proof.
  split; [reflexivity|].
  intros first second rest candidates total prompt reply parsed run after.
  assert (Hrun := SelectorFacts.select_title_run json_loads chat search_info
                    first second rest all_chunks expand_context self).
  cbv zeta in Hrun. fold candidates prompt reply run in Hrun.
  rewrite SelectorFacts.parse_selection_cases in Hrun.
  fold parsed total after in Hrun.
  assert (Hfield : Spec.selection_field parsed = None ->
                   run = (Some first, after None)).
  { intros E. now rewrite E in Hrun. }
  split; [|split; [|split]].
  - rewrite Hrun.
    destruct (Spec.selection_field parsed) as [s|]; [|reflexivity].
    destruct (decide _); [reflexivity|].
    destruct (ChunkSelector.search_option _); [|reflexivity].
    destruct (Py.int _); [|reflexivity].
    destruct (_ && _); [|reflexivity].
    destruct (candidates !! _); reflexivity.
  - intros Hnone [msg Hmsg]. apply Hfield.
    subst parsed reply. rewrite Hnone.
    unfold LLMUtils.parse_llm_json_response, Py.empty in *. cbn.
    now rewrite Hmsg.
  - exact Hfield.
  - intros s Hs. rewrite Hs in Hrun. split.
    + intros E. now destruct (decide _).
    + intros Hne. destruct (decide _) as [|_]; [done|]. split.
      * intros E. now rewrite E in Hrun.
      * intros digits k Hd Hk. rewrite Hd, Hk in Hrun. split.
        -- intros Hout.
           destruct ((0 <=? k - 1) && (k - 1 <? total)) eqn:E; [|exact Hrun].
           apply andb_true_iff in E. rewrite Z.leb_le, Z.ltb_lt in E. lia.
        -- intros Hin.
           assert (E : (0 <=? k - 1) && (k - 1 <? total) = true).
           { apply andb_true_iff. rewrite Z.leb_le, Z.ltb_lt. lia. }
           rewrite E in Hrun.
           destruct (candidates !! Z.to_nat (k - 1)) as [c|] eqn:Hc.
           ++ exists c. now split.
           ++ exfalso. apply lookup_ge_None in Hc. subst total. lia.
Qed.

(** C10: with two or more candidates and an intent other than title the
    selector returns the first candidate and sends nothing to the model;
    whenever a prompt is sent, the intent is title and there are at least
    two candidates. *)
Theorem select_best_chunk_non_title
    (json_loads : Py.str -> Json.decoded) (chat : Py.str -> option Py.str)
    (search_info : Py.str) (candidates all_chunks : list SearchResult)
    (expand_context : bool) (intent : Py.str) (self : ChunkSelector.selector) :
  let run :=
    ChunkSelector.select_best_chunk json_loads chat search_info candidates
      all_chunks expand_context intent self in
  ((2 <= length candidates)%nat -> intent <> ChunkSelector.TITLE ->
   run = (head candidates,
          ChunkSelector.mkSelector None (ChunkSelector.llm_requests self)))
  /\ (ChunkSelector.llm_requests (snd run) <> ChunkSelector.llm_requests self ->
      intent = ChunkSelector.TITLE /\ (2 <= length candidates)%nat).
Proof.
  intros run. subst run. unfold ChunkSelector.select_best_chunk.
  destruct candidates as [|first [|second rest]].
  - split; [cbn; lia|]. cbn. congruence.
  - split; [cbn; lia|]. cbn. congruence.
  - destruct (decide (intent <> ChunkSelector.TITLE)) as [Hne|He].
    + split; [reflexivity|]. cbn. congruence.
    + split; [intros _ Hne; done|]. intros _. split; [|cbn; lia].
      destruct (decide (intent = ChunkSelector.TITLE)); [done|]. done.
Qed.

Lemma select_best_chunk_fail_closed_witness :
  let select chat :=
    fst (ChunkSelector.select_best_chunk Sample.decode_choice chat
           Sample.title_query [Sample.c3; Sample.c4; Sample.c5] Sample.document
           true ChunkSelector.TITLE ChunkSelector.init) in
  select (Sample.always None) = Some Sample.c3
  /\ select (Sample.always (Some (Py.utf8 "I cannot decide."))) = Some Sample.c3
  /\ select (Sample.always (Some (Sample.choice_reply (Py.utf8 "选项9"))))
     = Some Sample.c3
  /\ select (Sample.always (Some (Sample.choice_reply ChunkSelector.NO_MATCH)))
     = None
  /\ select (Sample.always (Some (Sample.choice_reply (Py.utf8 "选项2"))))
     = Some Sample.c4.
Proof.
  intros select. subst select. cbv beta.
  pose (facts chat :=
          proj2 (select_best_chunk_fail_closed Sample.decode_choice chat
                   Sample.title_query Sample.document true ChunkSelector.init)
                Sample.c3 Sample.c4 [Sample.c5]).
  split; [|split; [|split; [|split]]].
  - destruct (facts (Sample.always None)) as (_ & Herr & _).
    rewrite Herr; [reflexivity|reflexivity|].
    eexists. reflexivity.
  - destruct (facts (Sample.always (Some (Py.utf8 "I cannot decide."))))
      as (_ & _ & Hmal & _).
    rewrite Hmal; reflexivity.
  - destruct (facts (Sample.always (Some (Sample.choice_reply (Py.utf8 "选项9")))))
      as (_ & _ & _ & Hsel).
    destruct (Hsel (Py.utf8 "选项9") eq_refl) as [_ Hne].
    destruct (Hne ltac:(vm_compute; discriminate)) as [_ Hord].
    destruct (Hord (Py.utf8 "9") 9 eq_refl eq_refl) as [Hout _].
    rewrite Hout; [reflexivity|]. cbn. lia.
  - destruct (facts (Sample.always (Some (Sample.choice_reply ChunkSelector.NO_MATCH))))
      as (_ & _ & _ & Hsel).
    destruct (Hsel ChunkSelector.NO_MATCH eq_refl) as [Hno _].
    rewrite Hno; reflexivity.
  - destruct (facts (Sample.always (Some (Sample.choice_reply (Py.utf8 "选项2")))))
      as (_ & _ & _ & Hsel).
    destruct (Hsel (Py.utf8 "选项2") eq_refl) as [_ Hne].
    destruct (Hne ltac:(vm_compute; discriminate)) as [_ Hord].
    destruct (Hord (Py.utf8 "2") 2 eq_refl eq_refl) as [_ Hin].
    destruct (Hin ltac:(cbn; lia)) as (c & Hc & Hrun).
    rewrite Hrun. change (Some Sample.c4 = Some c) in Hc.
    now injection Hc as <-.
Defined.

Lemma select_best_chunk_non_title_witness :
  ChunkSelector.select_best_chunk Sample.decode_choice (Sample.always None)
    (Py.utf8 "内容检索：基金管理费") [Sample.c3; Sample.c4; Sample.c5]
    Sample.document true ProspectusSearchTool.CONTENT ChunkSelector.init
  = (Some Sample.c3, ChunkSelector.mkSelector None []).
Proof.
  apply (select_best_chunk_non_title Sample.decode_choice (Sample.always None)
           (Py.utf8 "内容检索：基金管理费") [Sample.c3; Sample.c4; Sample.c5]
           Sample.document true ProspectusSearchTool.CONTENT ChunkSelector.init).
  - cbn. lia.
  - discriminate.
Defined.

Example selection_prompt_sample :
  ChunkSelector.candidate_info
    (ChunkSelector.mkExpanded 0 3 (Py.utf8 "C") (Py.utf8 "[目标]C") (Py.utf8 "11-12"))
  = Py.utf8 "选项1 (chunk_id=3, page_num=11-12):
[目标]C".
Proof. reflexivity. Qed.

Example parse_selection_samples :
  List.map (fun raw => ChunkSelector._parse_selection_result
                         Sample.decode_choice raw 3)
    [ Sample.choice_reply (Py.utf8 "选项1");
      Sample.choice_reply (Py.utf8 "选项3");
      Sample.choice_reply (Py.utf8 "选项0");
      Sample.choice_reply (Py.utf8 "选项4");
      Sample.choice_reply (Py.utf8 "第二个");
      Sample.choice_reply ChunkSelector.NO_MATCH;
      LLMUtils.FENCE ++ Py.utf8 "json" ++ [10%N]
        ++ Sample.choice_reply (Py.utf8 "选项2") ++ [10%N] ++ LLMUtils.FENCE;
      Py.utf8 "未检索到目标标题所在文本块";
      Py.empty ]
  = [ (Some 0, false); (Some 2, false); (None, false); (None, false);
      (None, false); (None, true); (Some 1, false); (None, false);
      (None, false) ].
Proof. vm_compute. reflexivity. Qed.

(** ** Error shapes of the orchestrator *)

Lemma create_error_result_shape msg intent :
  (intent = ProspectusSearchTool.TITLE ->
   ProspectusSearchTool._create_error_result msg intent
   = ProspectusSearchTool.Flat false None None None None None None (Some msg))
  /\ (intent <> ProspectusSearchTool.TITLE ->
      ProspectusSearchTool._create_error_result msg intent
      = ProspectusSearchTool.Listed false None (Some msg) 0 None []).
Proof.
  unfold ProspectusSearchTool._create_error_result.
  destruct (decide (intent = ProspectusSearchTool.TITLE)); split; congruence.
Qed.

Example infer_intent_samples :
  List.map ProspectusSearchTool._infer_intent_for_error
    [ Py.utf8 "目录"; Py.empty; Py.utf8 "章节标题检索：第五部分";
      Py.utf8 "章节标题检索:第五部分"; Py.utf8 "内容检索：基金管理费";
      Py.utf8 "基金管理费" ]
  = [ ProspectusSearchTool.CONTENT; ProspectusSearchTool.CONTENT;
      ProspectusSearchTool.TITLE; ProspectusSearchTool.TITLE;
      ProspectusSearchTool.CONTENT; ProspectusSearchTool.CONTENT ].
Proof. vm_compute. reflexivity. Qed.

(** C7, on the code: a catalog request that fails validation (start page 5
    after end page 3), and one whose document is not found, both get the
    list-shaped error from [search_prospectus], because
    [_infer_intent_for_error] maps the catalog marker to ["content"]; the
    wrapper of [tool_entry] shapes an error of the same catalog request
    flat. *)
Theorem catalog_failure_shape
    (get_directory_content : Py.str -> Py.str -> ProspectusSearchTool.response)
    (_search_general_content :
       Py.str -> Py.str -> Py.str -> option Z -> option Z -> option Z
       -> option Z -> Z -> Z -> ProspectusSearchTool.response)
    (determine_prospectus_file : Py.str -> bool -> option Py.str) :
  ProspectusSearchTool.search_prospectus determine_prospectus_file
    get_directory_content _search_general_content
    (Py.utf8 "180101.SZ") ProspectusSearchTool.CATALOG false
    (Some 5) (Some 3) None None 0 0
  = ProspectusSearchTool.Listed false None
      (Some (Py.utf8 "起始页码不能大于截止页码")) 0 None []
  /\ ProspectusSearchTool.search_prospectus (fun _ _ => None)
       get_directory_content _search_general_content
       (Py.utf8 "180101.SZ") ProspectusSearchTool.CATALOG false
       None None None None 0 0
     = ProspectusSearchTool.Listed false None
         (Some (Py.utf8 "未找到基金 180101.SZ 的首发招募说明书")) 0 None []
  /\ ProspectusSearchTool._build_wrapper_error
       (ProspectusSearchTool._guess_intent ProspectusSearchTool.CATALOG)
       (Py.utf8 "起始页码不能大于截止页码")
     = ProspectusSearchTool.Flat false None None None None None None
         (Some (Py.utf8 "起始页码不能大于截止页码")).
Proof. repeat split; vm_compute; reflexivity. Qed.

(** ** The conversation driver *)

Module DriverFacts.
Import Driver.

Section Facts.
Variable json_loads_object : Py.str -> attempt jdict.
Variable chat_create : list message -> attempt (Py.str * Py.str).
Variable run_tool : jdict -> attempt Py.str.

Local Abbreviation parse := (_parse_reasoner_output json_loads_object).
Local Abbreviation round := (Driver.round json_loads_object chat_create run_tool).
Local Abbreviation rounds := (Driver.rounds json_loads_object chat_create run_tool).

Lemma set_last_tool_result_length result ok l :
  length (set_last_tool_result result ok l) = length l.
Proof.
  unfold set_last_tool_result. destruct (rev l) as [|r before] eqn:E.
  - apply (f_equal (@rev _)) in E. rewrite rev_involutive in E. now subst.
  - rewrite length_rev. cbn. rewrite <- (length_rev l), E. reflexivity.
Qed.

(** A round that returns nothing has recorded one more round; a round
    that returns reports as [total_rounds] the number of rounds
    recorded. *)
Lemma round_counts i st :
  Z.of_nat (length (conversation_rounds st)) = i - 1 ->
  match round i st with
  | (None, st') => Z.of_nat (length (conversation_rounds st')) = i
  | (Some out, _) =>
    total_rounds out = Z.of_nat (length (out_conversation_rounds out))
  end.
Proof.
  intros H. unfold Driver.round. cbn [messages conversation_rounds].
  destruct (chat_create (messages st)) as [[reasoning reply]|e];
    [|cbn; lia].
  destruct (p_type (parse reply reasoning)) as [call|answer| |].
  - destruct (run_tool call);
      cbn [conversation_rounds];
      rewrite set_last_tool_result_length, length_app; cbn; lia.
  - cbn. rewrite length_app. cbn. lia.
  - cbn. rewrite length_app. cbn. lia.
  - cbn. rewrite length_app. cbn. lia.
Qed.

Lemma rounds_counts n i st :
  Z.of_nat (length (conversation_rounds st)) = i - 1 ->
  match rounds n i st with
  | (None, st') =>
    Z.of_nat (length (conversation_rounds st')) = i - 1 + Z.of_nat n
  | (Some out, _) =>
    total_rounds out = Z.of_nat (length (out_conversation_rounds out))
  end.
Proof.
  revert i st. induction n as [|n IH]; intros i st H.
  - cbn. lia.
  - cbn [Driver.rounds]. pose proof (round_counts i st H) as Hr.
    destruct (round i st) as [[out|] st']; [exact Hr|].
    specialize (IH (i + 1) st' ltac:(lia)).
    destruct (rounds n (i + 1) st') as [[out|] st'']; [exact IH|lia].
Qed.

(** One malformed round. *)
Lemma round_malformed i st reasoning reply :
  chat_create (messages st) = Returned (reasoning, reply) ->
  Spec.malformed (p_type (parse reply reasoning)) ->
  exists rd,
    round i st
    = (None,
       mkConversation (messages st ++ Spec.malformed_exchange rd)
                      (conversation_rounds st ++ [rd])
                      (if Py.falsy reasoning then all_reasoning st
                       else all_reasoning st
                            ++ [Py.utf8 "=== 第 " ++ Py.of_int i
                                ++ Py.utf8 " 轮推理 ===" ++ NL ++ reasoning])
                      (tool_calls_made st)
                      (model_requests st ++ [messages st]))
    /\ round_number rd = i /\ response_content rd = reply
    /\ Spec.malformed (round_parsed_type rd).
Proof.
  intros Hchat Hmal.
  exists (mkRound i reasoning reply (p_analysis (parse reply reasoning))
                  (p_type (parse reply reasoning))
                  (p_errors (parse reply reasoning)) None None).
  split; [|repeat split; exact Hmal].
  unfold Driver.round. cbn [messages conversation_rounds all_reasoning
                            tool_calls_made model_requests].
  rewrite Hchat. unfold Spec.malformed_exchange.
  cbn [response_content round_errors].
  destruct Hmal as [-> | ->]; now rewrite <- app_assoc.
Qed.

Hypothesis always_malformed :
  forall history, exists reasoning reply,
    chat_create history = Returned (reasoning, reply)
    /\ Spec.malformed (p_type (parse reply reasoning)).

Lemma rounds_malformed n i st :
  exists rds st',
    rounds n i st = (None, st')
    /\ length rds = n
    /\ conversation_rounds st' = conversation_rounds st ++ rds
    /\ messages st' = messages st ++ concat (List.map Spec.malformed_exchange rds)
    /\ tool_calls_made st' = tool_calls_made st
    /\ length (model_requests st') = (length (model_requests st) + n)%nat
    /\ List.map round_number rds = List.map (fun k => i + Z.of_nat k) (seq 0 n)
    /\ List.Forall (fun rd => Spec.malformed (round_parsed_type rd)) rds.
Proof.
  revert i st. induction n as [|n IH]; intros i st.
  - exists [], st. cbn. rewrite !app_nil_r.
    repeat split; try reflexivity; [lia|constructor].
  - destruct (always_malformed (messages st)) as (reasoning & reply & Hc & Hm).
    destruct (round_malformed i st reasoning reply Hc Hm)
      as (rd & Hround & Hnum & _ & Hrd).
    cbn [Driver.rounds]. rewrite Hround.
    match goal with
    | |- context [rounds n (i + 1) ?s] =>
      destruct (IH (i + 1) s)
        as (rds & st' & Hrun & Hlen & Hrounds & Hmsgs & Htools & Hreq
            & Hnums & Hall)
    end.
    cbn [conversation_rounds messages tool_calls_made model_requests]
      in Hrounds, Hmsgs, Htools, Hreq.
    exists (rd :: rds), st'. rewrite Hrun.
    split; [reflexivity|]. split; [cbn; now rewrite Hlen|].
    split; [now rewrite Hrounds, <- app_assoc|].
    split; [rewrite Hmsgs; cbn [List.map concat]; now rewrite <- !app_assoc|].
    split; [exact Htools|].
    split; [rewrite Hreq, length_app; cbn; lia|].
    split; [|now constructor].
    cbn [List.map seq]. rewrite Hnum, Hnums, <- seq_shift, List.map_map.
    f_equal; [f_equal; lia|]. apply List.map_ext. intros k. lia.
Qed.
End Facts.

End DriverFacts.

(** When whatever is raised is caught: the driver reports as
    [total_rounds] the number of rounds it recorded, one per reply
    received, and when every reply is malformed a budget of [max_rounds]
    rounds ends in failure with the sentinel answer after exactly
    [max_rounds] model calls and rounds, numbered from 1 on, all of them
    malformed, no tool call made, and the history is the two opening
    messages followed, round after round, by the reply and the
    corrective feedback. *)
Lemma caught_malformed_replies_exhaust_budget
    (json_loads_object : Py.str -> Driver.attempt Driver.jdict)
    (chat_create : list Driver.message -> Driver.attempt (Py.str * Py.str))
    (run_tool : Driver.jdict -> Driver.attempt Py.str)
    (enhanced_system_prompt user_question : Py.str) (max_rounds : Z) :
  0 <= max_rounds ->
  let result :=
    Driver.run json_loads_object chat_create run_tool
               enhanced_system_prompt user_question max_rounds in
  let out := fst result in
  let st := snd result in
  out = Driver._chat_with_deepseek_reasoner json_loads_object chat_create
          run_tool enhanced_system_prompt user_question max_rounds
  /\ Driver.total_rounds out
     = Z.of_nat (length (Driver.out_conversation_rounds out))
  /\ ((forall history, exists reasoning reply,
         chat_create history = Driver.Returned (reasoning, reply)
         /\ Spec.malformed
              (Driver.p_type
                 (Driver._parse_reasoner_output json_loads_object
                                                reply reasoning))) ->
      Driver.success out = false
      /\ Driver.out_error out
         = Some (Py.utf8 "达到最大轮数 " ++ Py.of_int max_rounds)
      /\ Driver.out_final_answer out = Driver.SENTINEL_ANSWER
      /\ Driver.total_rounds out = max_rounds
      /\ length (Driver.out_conversation_rounds out) = Z.to_nat max_rounds
      /\ length (Driver.model_requests st) = Z.to_nat max_rounds
      /\ Driver.tool_calls out = []
      /\ List.map Driver.round_number (Driver.out_conversation_rounds out)
         = List.map (fun k => 1 + Z.of_nat k) (seq 0 (Z.to_nat max_rounds))
      /\ List.Forall (fun rd => Spec.malformed (Driver.round_parsed_type rd))
                     (Driver.out_conversation_rounds out)
      /\ Driver.messages st
         = [ Driver.mkMessage Driver.SYSTEM enhanced_system_prompt;
             Driver.mkMessage Driver.USER user_question ]
           ++ concat (List.map Spec.malformed_exchange
                               (Driver.out_conversation_rounds out))).
Proof.
  intros Hnonneg result out st.
  split; [reflexivity|]. split.
  - subst out result. unfold Driver.run.
    match goal with
    | |- context [Driver.rounds _ _ _ ?n ?i ?s] =>
      pose proof (DriverFacts.rounds_counts json_loads_object chat_create
                    run_tool n i s eq_refl) as H;
      destruct (Driver.rounds json_loads_object chat_create run_tool n i s)
        as [[o|] s']
    end.
    + exact H.
    + cbn [fst Driver.total_rounds Driver.out_conversation_rounds]. lia.
  - intros Hmal. subst st out result. unfold Driver.run.
    match goal with
    | |- context [Driver.rounds _ _ _ ?n ?i ?s] =>
      destruct (DriverFacts.rounds_malformed json_loads_object chat_create
                  run_tool Hmal n i s)
        as (rds & st' & Hrun & Hlen & Hrounds & Hmsgs & Htools & Hreq
            & Hnums & Hall)
    end.
    rewrite Hrun. cbn in Hrounds, Hmsgs, Htools, Hreq.
    cbn [fst snd Driver.success Driver.out_error Driver.out_final_answer
         Driver.total_rounds Driver.out_conversation_rounds Driver.tool_calls].
    rewrite Hrounds, Htools, Hmsgs, Hreq.
    repeat split; try reflexivity; assumption.
Qed.

Example parse_reasoner_output_samples :
  List.map (fun reply =>
              Driver.p_type (Driver._parse_reasoner_output
                               Sample.no_json reply Py.empty))
    [ Py.utf8 "FINAL_ANSWER: 没有外部借款"; Py.utf8 "FINAL_ANSWER:   ";
      Py.utf8 "TOOL_CALL: {oops}"; Py.utf8 "TOOL_CALL: later FINAL_ANSWER: x";
      Py.utf8 "本轮分析：先查目录" ]
  = [ Driver.final_answer (Py.utf8 "没有外部借款"); Driver.error; Driver.error;
      Driver.final_answer (Py.utf8 "x"); Driver.format_error ].
Proof. vm_compute. reflexivity. Qed.

(* ===================================================================== *)
(** * Part III. Further properties of the utilities                       *)
(* ===================================================================== *)

(** ** Range filters *)

Lemma filter_comm {A} (f g : A -> bool) (l : list A) :
  List.filter f (List.filter g l) = List.filter g (List.filter f l).
Proof.
  induction l as [|x l IH]; simpl; [reflexivity|].
  destruct (g x) eqn:Eg, (f x) eqn:Ef; simpl; rewrite ?Eg, ?Ef, IH; reflexivity.
Qed.

Lemma filter_idem {A} (f : A -> bool) (l : list A) :
  List.filter f (List.filter f l) = List.filter f l.
Proof.
  induction l as [|x l IH]; simpl; [reflexivity|].
  destruct (f x) eqn:Ef; simpl; rewrite ?Ef, IH; reflexivity.
Qed.

Lemma filter_chunk_id_pass_none (l : list SearchResult) :
  List.filter (ChunkUtils.chunk_id_pass None None) l = l.
Proof. induction l; simpl; congruence. Qed.

Lemma filter_page_pass_none (l : list SearchResult) :
  List.filter (ChunkUtils.page_pass None None) l = l.
Proof.
  induction l as [|a l IH]; simpl; [reflexivity|].
  unfold ChunkUtils.page_pass at 1.
  destruct (PageUtils.extract_page_numbers_from_string _); congruence.
Qed.

(** X1: filtering by range is idempotent, and the two passes commute:
    filtering by pages first and by chunk_id afterwards, or the other way
    round, in two calls, gives what one call with all four bounds gives. *)
Theorem apply_range_limitations_idempotent_commute chunks sp ep sc ec :
  ChunkUtils.apply_range_limitations
    (ChunkUtils.apply_range_limitations chunks sp ep sc ec) sp ep sc ec
  = ChunkUtils.apply_range_limitations chunks sp ep sc ec
  /\ ChunkUtils.apply_range_limitations
       (ChunkUtils.apply_range_limitations chunks sp ep None None)
       None None sc ec
     = ChunkUtils.apply_range_limitations chunks sp ep sc ec
  /\ ChunkUtils.apply_range_limitations
       (ChunkUtils.apply_range_limitations chunks None None sc ec)
       sp ep None None
     = ChunkUtils.apply_range_limitations chunks sp ep sc ec.
Proof.
  rewrite !apply_range_limitations_passes.
  rewrite !filter_chunk_id_pass_none, !filter_page_pass_none.
  repeat split.
  - rewrite (filter_comm (ChunkUtils.chunk_id_pass sc ec)
                         (ChunkUtils.page_pass sp ep)).
    now rewrite !filter_idem.
  - apply filter_comm.
Qed.

(** X2: [filter_chunks_by_chunk_id_range] is range filtering with the two
    chunk_id bounds and no page bound. *)
Theorem filter_chunks_by_chunk_id_range_spec chunks lo hi :
  ChunkUtils.filter_chunks_by_chunk_id_range chunks lo hi
  = ChunkUtils.apply_range_limitations chunks None None (Some lo) (Some hi)
  /\ forall c,
       In c (ChunkUtils.filter_chunks_by_chunk_id_range chunks lo hi)
       <-> In c chunks /\ lo <= chunk_id c <= hi.
Proof.
  split.
  - rewrite apply_range_limitations_passes, filter_page_pass_none.
    unfold ChunkUtils.filter_chunks_by_chunk_id_range.
    apply List.filter_ext. intros c. unfold ChunkUtils.chunk_id_pass.
    rewrite Z.gtb_ltb.
    destruct (Z.ltb_spec (chunk_id c) lo), (Z.leb_spec lo (chunk_id c)),
      (Z.ltb_spec hi (chunk_id c)), (Z.leb_spec (chunk_id c) hi);
      try reflexivity; lia.
  - intros c. unfold ChunkUtils.filter_chunks_by_chunk_id_range.
    rewrite List.filter_In, andb_true_iff, !Z.leb_le. tauto.
Qed.

Lemma span_meets_page_pass lo hi c :
  PageUtils.span_meets lo hi c
  = ChunkUtils.page_pass (Some lo) (Some hi) c
    && negb (match Spec.pagesOf c with [] => true | _ => false end).
Proof.
  unfold PageUtils.span_meets, ChunkUtils.page_pass, Spec.pagesOf.
  destruct (PageUtils.extract_page_numbers_from_string (page_num c)) as [|p ps];
    [reflexivity|].
  rewrite Z.geb_leb, Z.gtb_ltb.
  destruct (Z.leb_spec lo (Py.max p ps)), (Z.ltb_spec (Py.max p ps) lo),
    (Z.leb_spec (Py.min p ps) hi), (Z.ltb_spec hi (Py.min p ps));
    try reflexivity; lia.
Qed.

(** X3: [filter_chunks_by_page_range] keeps exactly the chunks that range
    filtering with the same two page bounds keeps and that have a parsable
    page label: a chunk without page numbers passes the one and never the
    other. *)
Theorem filter_chunks_by_page_range_fails_closed chunks lo hi :
  ChunkUtils.filter_chunks_by_page_range chunks lo hi
  = List.filter
      (fun c => negb (match Spec.pagesOf c with [] => true | _ => false end))
      (ChunkUtils.apply_range_limitations chunks (Some lo) (Some hi) None None)
  /\ (forall c, In c chunks -> Spec.unparsable c ->
        In c (ChunkUtils.apply_range_limitations
                chunks (Some lo) (Some hi) None None)
        /\ ~ In c (ChunkUtils.filter_chunks_by_page_range chunks lo hi)).
Proof.
  split.
  - rewrite apply_range_limitations_passes, filter_chunk_id_pass_none.
    unfold ChunkUtils.filter_chunks_by_page_range.
    induction chunks as [|c l IH]; simpl; [reflexivity|].
    rewrite span_meets_page_pass.
    destruct (ChunkUtils.page_pass (Some lo) (Some hi) c); simpl;
      [|exact IH].
    destruct (negb _); now rewrite IH.
  - intros c Hin Hun. split.
    + apply apply_range_limitations_In. split; [exact Hin|].
      split; [split; discriminate|now right].
    + unfold ChunkUtils.filter_chunks_by_page_range.
      rewrite List.filter_In, span_meets_page_pass.
      unfold Spec.unparsable in Hun. rewrite Hun, andb_false_r.
      intros [_ H]. discriminate.
Qed.

Lemma filter_chunks_by_page_range_fails_closed_witness :
  In Sample.c2 (ChunkUtils.apply_range_limitations
                  Sample.document (Some 11) (Some 12) None None)
  /\ ~ In Sample.c2 (ChunkUtils.filter_chunks_by_page_range Sample.document 11 12).
Proof.
  apply (filter_chunks_by_page_range_fails_closed Sample.document 11 12).
  - right. now left.
  - reflexivity.
Defined.

(** ** Extents of a chunk list *)

(** X4: [get_chunk_id_range_from_chunks] returns [(None, None)] exactly on
    the empty list, and otherwise the smallest and the largest chunk_id of
    the list. *)
Theorem get_chunk_id_range_from_chunks_spec chunks :
  match ChunkUtils.get_chunk_id_range_from_chunks chunks with
  | (Some lo, Some hi) =>
    chunks <> [] /\ Spec.least lo (List.map chunk_id chunks)
    /\ Spec.greatest hi (List.map chunk_id chunks)
  | (None, None) => chunks = []
  | _ => False
  end.
Proof.
  unfold ChunkUtils.get_chunk_id_range_from_chunks.
  destruct chunks as [|c l]; cbn [List.map]; [reflexivity|].
  split; [discriminate|]. split; [apply min_least|apply max_greatest].
Qed.

(** X5: [get_page_range_from_chunks] returns [(None, None)] exactly when no
    chunk of the list has a parsable page number, and otherwise the
    smallest and the largest page number parsed from any label;
    [calculate_page_range] computes the same pair. *)
Theorem get_page_range_from_chunks_spec chunks :
  PageUtils.calculate_page_range chunks = PageUtils.get_page_range_from_chunks chunks
  /\ match PageUtils.get_page_range_from_chunks chunks with
     | (Some lo, Some hi) =>
       Spec.least lo (PageUtils.all_pages_of chunks)
       /\ Spec.greatest hi (PageUtils.all_pages_of chunks)
       /\ exists c, In c chunks /\ In lo (Spec.pagesOf c)
     | (None, None) => forall c, In c chunks -> Spec.unparsable c
     | _ => False
     end.
Proof.
  split; [reflexivity|].
  unfold PageUtils.get_page_range_from_chunks.
  destruct (PageUtils.all_pages_of chunks) as [|p ps] eqn:E.
  - intros c Hc. unfold Spec.unparsable, Spec.pagesOf.
    destruct (PageUtils.extract_page_numbers_from_string (page_num c))
      as [|q qs] eqn:Eq; [reflexivity|].
    assert (In q (PageUtils.all_pages_of chunks)).
    { apply in_flat_map. exists c. split; [exact Hc|]. rewrite Eq. now left. }
    rewrite E in H. destruct H.
  - pose proof (min_least p ps) as Hmin.
    split; [exact Hmin|]. split; [apply max_greatest|].
    destruct Hmin as [Hin _]. rewrite <- E in Hin.
    apply in_flat_map in Hin as (c & Hc & Hp). now exists c.
Qed.

Lemma range_of_snoc i ids x :
  (Some (Py.min i (ids ++ [x])), Some (Py.max i (ids ++ [x])))
  = (if x <? Py.min i ids then Some x else Some (Py.min i ids),
     if x >? Py.max i ids then Some x else Some (Py.max i ids)).
Proof.
  unfold Py.min, Py.max. rewrite !fold_left_app. cbn [fold_left].
  rewrite Z.gtb_ltb.
  destruct (Z.ltb_spec x (fold_left Z.min ids i)),
    (Z.ltb_spec (fold_left Z.max ids i) x); f_equal; f_equal; lia.
Qed.

Lemma widen_fold start_page end_page l acc :
  fold_left (PageUtils.widen start_page end_page) l
            (ChunkUtils.get_chunk_id_range_from_chunks acc)
  = ChunkUtils.get_chunk_id_range_from_chunks
      (acc ++ ChunkUtils.filter_chunks_by_page_range l start_page end_page).
Proof.
  revert acc. induction l as [|c l IH]; intros acc; cbn [fold_left].
  - cbn. now rewrite app_nil_r.
  - unfold ChunkUtils.filter_chunks_by_page_range. cbn [List.filter].
    fold (ChunkUtils.filter_chunks_by_page_range l start_page end_page).
    unfold PageUtils.widen at 2.
    destruct (ChunkUtils.get_chunk_id_range_from_chunks acc) as [mn mx] eqn:E.
    destruct (PageUtils.span_meets start_page end_page c).
    + replace (acc ++ c :: ChunkUtils.filter_chunks_by_page_range
                             l start_page end_page)
        with ((acc ++ [c])
              ++ ChunkUtils.filter_chunks_by_page_range l start_page end_page)
        by now rewrite <- app_assoc.
      rewrite <- IH. f_equal.
      unfold ChunkUtils.get_chunk_id_range_from_chunks in E |- *.
      rewrite List.map_app. cbn [List.map].
      destruct (List.map chunk_id acc) as [|i ids].
      * injection E as <- <-. reflexivity.
      * injection E as <- <-. cbn [app]. now rewrite range_of_snoc.
    + rewrite <- E. apply IH.
Qed.

(** X6: the chunk_id range of a page range is the chunk_id range of the
    chunks whose page span meets it: [get_chunk_id_range_from_pages] is
    [get_chunk_id_range_from_chunks] after [filter_chunks_by_page_range]. *)
Theorem get_chunk_id_range_from_pages_spec all_chunks start_page end_page :
  PageUtils.get_chunk_id_range_from_pages all_chunks start_page end_page
  = ChunkUtils.get_chunk_id_range_from_chunks
      (ChunkUtils.filter_chunks_by_page_range all_chunks start_page end_page).
Proof.
  unfold PageUtils.get_chunk_id_range_from_pages.
  apply (widen_fold start_page end_page all_chunks []).
Qed.

Example get_chunk_id_range_from_pages_sample :
  PageUtils.get_chunk_id_range_from_pages Sample.document 11 12 = (Some 3, Some 4)
  /\ PageUtils.get_chunk_id_range_from_pages Sample.document 20 30 = (None, None)
  /\ PageUtils.get_page_range_from_chunks Sample.document = (Some 3, Some 13).
Proof. repeat split. Qed.

(** ** Looking pages up *)

Lemma contains_page_In p c :
  PageUtils.contains_page p c = true <-> In p (Spec.pagesOf c).
Proof.
  unfold PageUtils.contains_page, Spec.pagesOf. rewrite existsb_exists. split.
  - intros (x & Hx & E). apply Z.eqb_eq in E. now subst.
  - intros H. exists p. split; [exact H|apply Z.eqb_refl].
Qed.

Lemma contains_page_not_In p c :
  PageUtils.contains_page p c = false <-> ~ In p (Spec.pagesOf c).
Proof.
  rewrite <- contains_page_In. destruct (PageUtils.contains_page p c);
    split; congruence.
Qed.

(** X7: [find_first_chunk_containing_page] returns the first chunk of the
    list whose parsed pages contain the page, [find_last_chunk_containing_page]
    the last one, and each returns [None] exactly when no chunk has the
    page. *)
Theorem find_chunk_containing_page_spec all_chunks p :
  match PageUtils.find_first_chunk_containing_page all_chunks p with
  | Some c =>
    exists l1 l2, all_chunks = l1 ++ c :: l2 /\ In p (Spec.pagesOf c)
                  /\ forall x, In x l1 -> ~ In p (Spec.pagesOf x)
  | None => forall x, In x all_chunks -> ~ In p (Spec.pagesOf x)
  end
  /\ match PageUtils.find_last_chunk_containing_page all_chunks p with
     | Some c =>
       exists l1 l2, all_chunks = l1 ++ c :: l2 /\ In p (Spec.pagesOf c)
                     /\ forall x, In x l2 -> ~ In p (Spec.pagesOf x)
     | None => forall x, In x all_chunks -> ~ In p (Spec.pagesOf x)
     end.
Proof.
  split.
  - induction all_chunks as [|c l IH]; cbn.
    + intros x [].
    + destruct (PageUtils.contains_page p c) eqn:E.
      * exists [], l. split; [reflexivity|]. split; [now apply contains_page_In|].
        intros x [].
      * apply contains_page_not_In in E.
        destruct (PageUtils.find_first_chunk_containing_page l p) as [c0|].
        -- destruct IH as (l1 & l2 & -> & Hp & Hl1). exists (c :: l1), l2.
           split; [reflexivity|]. split; [exact Hp|].
           intros x [<-|Hx]; [exact E|now apply Hl1].
        -- intros x [<-|Hx]; [exact E|now apply IH].
  - unfold PageUtils.find_last_chunk_containing_page.
    induction all_chunks as [|c l IH] using rev_ind; cbn.
    + intros x [].
    + rewrite fold_left_app. cbn [fold_left].
      destruct (PageUtils.contains_page p c) eqn:E.
      * exists l, []. split; [reflexivity|]. split; [now apply contains_page_In|].
        intros x [].
      * apply contains_page_not_In in E.
        destruct (fold_left _ l None) as [c0|].
        -- destruct IH as (l1 & l2 & -> & Hp & Hl2). exists l1, (l2 ++ [c]).
           split; [now rewrite <- app_assoc|]. split; [exact Hp|].
           intros x Hx. apply in_app_or in Hx as [Hx|[<-|[]]];
             [now apply Hl2|exact E].
        -- intros x Hx. apply in_app_or in Hx as [Hx|[<-|[]]];
             [now apply IH|exact E].
Qed.

Example find_chunk_containing_page_sample :
  PageUtils.find_first_chunk_containing_page Sample.document 12 = Some Sample.c3
  /\ PageUtils.find_last_chunk_containing_page Sample.document 12 = Some Sample.c4
  /\ PageUtils.find_first_chunk_containing_page Sample.document 5 = None.
Proof. repeat split. Qed.

(** ** Page labels *)

Lemma split_no_sep sep s part :
  In part (Py.split sep s) -> ~ In sep part.
Proof.
  revert part. induction s as [|c s IH]; cbn; intros part.
  - intros [<-|[]] [].
  - destruct (N.eqb_spec c sep) as [->|Hne].
    + intros [<-|H]; [intros []|now apply IH].
    + destruct (Py.split sep s) as [|p0 ps] eqn:E.
      * intros [<-|[]] [->|[]]. congruence.
      * intros [<-|H].
        -- intros [->|H']; [congruence|]. apply (IH p0); [now left|exact H'].
        -- apply IH. now right.
Qed.

Lemma lstrip_In x s : In x (Py.lstrip s) -> In x s.
Proof.
  induction s as [|c s IH]; cbn; [auto|].
  destruct (Py.isspace c); [intros H; right; auto|auto].
Qed.

Lemma strip_In x s : In x (Py.strip s) -> In x s.
Proof.
  unfold Py.strip, Py.rstrip. intros H.
  apply in_rev, lstrip_In, in_rev in H. now apply lstrip_In.
Qed.

Lemma int_without_minus s z :
  ~ In Py.MINUS s -> Py.int s = Some z -> 0 <= z.
Proof.
  intros Hno. unfold Py.int. destruct s as [|c s]; [discriminate|].
  destruct (c =? Py.PLUS)%N.
  - destruct (Py.int_digits s 0 false); [|discriminate]. intros [= <-]. lia.
  - destruct (N.eqb_spec c Py.MINUS) as [->|_].
    + exfalso. apply Hno. now left.
    + destruct (Py.int_digits (c :: s) 0 false); [|discriminate].
      intros [= <-]. lia.
Qed.

(** X8: a page label never yields a negative page number: the minus sign
    is the separator, so no part that reaches [int] carries one. *)
Theorem extract_page_numbers_nonnegative label p :
  In p (PageUtils.extract_page_numbers_from_string label) -> 0 <= p.
Proof.
  unfold PageUtils.extract_page_numbers_from_string.
  destruct (Py.falsy label); [intros []|].
  intros H. apply list_elem_of_In, list_elem_of_omap in H as (part & Hpart & Hint).
  apply list_elem_of_In in Hpart.
  apply (int_without_minus (Py.strip part)); [|exact Hint].
  intros Hm. apply strip_In in Hm. exact (split_no_sep _ _ _ Hpart Hm).
Qed.

Lemma extract_page_numbers_nonnegative_witness : 0 <= 5.
Proof.
  apply (extract_page_numbers_nonnegative (Py.utf8 "-5")). now left.
Defined.

(** ** Merging and expansion *)

(** X9: for chunks with pairwise distinct chunk_ids the merged text does
    not depend on the order in which the chunks are passed. *)
Theorem merge_chunks_text_order_independent (l l' : list SearchResult) :
  NoDup (chunk_id <$> l) -> l ≡ₚ l' ->
  ChunkUtils.merge_chunks_text l = ChunkUtils.merge_chunks_text l'.
Proof.
  intros Hnd Hperm. unfold ChunkUtils.merge_chunks_text.
  destruct l as [|c l]; [apply Permutation_nil in Hperm; now subst|].
  destruct l' as [|c' l'];
    [symmetry in Hperm; apply Permutation_nil in Hperm; discriminate|].
  f_equal. f_equal.
  apply (StronglySorted_unique_strong (Py.before ChunkUtils.chunk_id_lt)).
  - intros x1 x2 H1 H2 R1 R2.
    apply list_elem_of_In, sorted_In, list_elem_of_In in H1, H2.
    rewrite <- Hperm in H2.
    apply (HybridFacts.NoDup_fmap_eq chunk_id (c :: l)); try assumption.
    unfold Py.before, ChunkUtils.chunk_id_lt in R1, R2.
    rewrite Z.ltb_ge in R1, R2. lia.
  - apply sorted_sorted; [apply chunk_id_lt_asym|apply chunk_id_before_trans].
  - apply sorted_sorted; [apply chunk_id_lt_asym|apply chunk_id_before_trans].
  - now rewrite !sorted_perm.
Qed.

Lemma merge_chunks_text_order_independent_witness :
  ChunkUtils.merge_chunks_text [Sample.c4; Sample.c1; Sample.c3]
  = ChunkUtils.merge_chunks_text [Sample.c1; Sample.c3; Sample.c4].
Proof.
  apply merge_chunks_text_order_independent.
  - apply (bool_decide_unpack _). vm_compute. exact I.
  - apply (Permutation_cons_append [Sample.c1; Sample.c3] Sample.c4).
Defined.

Lemma in_window_of_targets targets t :
  In t targets ->
  match List.map chunk_id targets with
  | [] => False
  | i :: ids => Py.min i ids <= chunk_id t <= Py.max i ids
  end.
Proof.
  intros Hin.
  assert (Hid : In (chunk_id t) (List.map chunk_id targets))
    by now apply in_map.
  destruct (List.map chunk_id targets) as [|i ids]; [destruct Hid|].
  split; [apply (min_least i ids)|apply (max_greatest i ids)]; exact Hid.
Qed.

(** X10: with margins that are not negative, every target that belongs to
    the document is part of the expansion. *)
Theorem expand_chunks_keeps_targets targets all_chunks before_ after_ t :
  0 <= before_ -> 0 <= after_ -> In t targets -> In t all_chunks ->
  In t (ChunkUtils.expand_chunks targets all_chunks before_ after_).
Proof.
  intros Hb Ha Ht Hall. pose proof (in_window_of_targets targets t Ht) as Hw.
  unfold ChunkUtils.expand_chunks.
  destruct (List.map chunk_id targets) as [|i ids]; [destruct Hw|].
  destruct ((before_ =? 0) && (after_ =? 0)); [exact Ht|].
  apply sorted_In, List.filter_In. split; [exact Hall|].
  apply andb_true_iff. rewrite !Z.leb_le. lia.
Qed.

Lemma expand_chunks_keeps_targets_witness :
  In Sample.c3 (ChunkUtils.expand_chunks [Sample.c4; Sample.c3]
                                         Sample.document 0 2).
Proof.
  apply expand_chunks_keeps_targets; [lia|lia| |].
  - right. now left.
  - right. right. now left.
Defined.

(** X11: expansion grows with the margins: with margins that are not
    negative and not both zero, what a window returns is returned by every
    window with larger margins. *)
Theorem expand_chunks_monotone targets all_chunks b a b' a' c :
  0 <= b <= b' -> 0 <= a <= a' -> ~ (b = 0 /\ a = 0) ->
  In c (ChunkUtils.expand_chunks targets all_chunks b a) ->
  In c (ChunkUtils.expand_chunks targets all_chunks b' a').
Proof.
  intros Hb Ha Hnz. unfold ChunkUtils.expand_chunks.
  destruct (List.map chunk_id targets) as [|i ids]; [auto|].
  destruct ((b =? 0) && (a =? 0)) eqn:E.
  { apply andb_true_iff in E. rewrite !Z.eqb_eq in E. tauto. }
  destruct ((b' =? 0) && (a' =? 0)) eqn:E'.
  { apply andb_true_iff in E'. rewrite !Z.eqb_eq in E'. lia. }
  rewrite !sorted_In, !List.filter_In, !andb_true_iff, !Z.leb_le.
  intros [H1 H2]. split; [exact H1|lia].
Qed.

Lemma expand_chunks_monotone_witness :
  In Sample.c2 (ChunkUtils.expand_chunks [Sample.c3] Sample.document 2 3).
Proof.
  apply (expand_chunks_monotone [Sample.c3] Sample.document 1 0 2 3);
    [lia|lia|lia|].
  vm_compute. now left.
Defined.

(** ** The merge engine, continued *)

(** X12: the merge returns one entry for every global id of either input
    list and for no other; every entry is an input result with nothing
    but its tags replaced; the output is no longer than the two inputs
    together; and without keyword results every entry is tagged
    ["vector"] alone. *)
Theorem merge_preserves_results (vector_results keyword_results : list SearchResult) :
  let out := HybridSearcher._merge_and_deduplicate vector_results keyword_results in
  (forall g, g ∈ global_id <$> out
             <-> g ∈ global_id <$> vector_results
                 \/ g ∈ global_id <$> keyword_results)
  /\ (forall e, e ∈ out ->
        exists r, (r ∈ vector_results \/ r ∈ keyword_results)
                  /\ e = set_from_methods r (from_methods e))
  /\ (length out <= length vector_results + length keyword_results)%nat
  /\ (keyword_results = [] ->
      List.Forall (fun e => from_methods e = [HybridSearcher.VECTOR]) out).
Proof.
  intros out.
  pose proof (HybridFacts.merge_perm vector_results keyword_results) as Hperm.
  fold out in Hperm.
  destruct (HybridFacts.merged_invariant vector_results keyword_results)
    as [_ Hnd Hall Hv Hk].
  assert (Hsrc : forall e, e ∈ out ->
            exists r, (r ∈ vector_results \/ r ∈ keyword_results)
                      /\ e = set_from_methods r (from_methods e)).
  { intros e He. rewrite Hperm in He.
    destruct (decide (global_id e ∈ MergeInvariant.ids vector_results))
      as [Hg|Hg].
    - destruct (Hv e He Hg) as (r & (l1 & l2 & -> & _) & _ & Heq).
      exists r. split.
      + left. apply elem_of_app. right. apply elem_of_cons. now left.
      + pose proof (f_equal from_methods Heq) as Hm. cbn in Hm.
        rewrite Hm. exact Heq.
    - destruct (Hk e He Hg) as (r & Hr & Heq).
      exists r. split; [now right|].
      pose proof (f_equal from_methods Heq) as Hm. cbn in Hm.
      rewrite Hm. exact Heq. }
  assert (Hids : forall g, g ∈ global_id <$> out
             <-> g ∈ global_id <$> vector_results
                 \/ g ∈ global_id <$> keyword_results).
  { intros g. split.
    - intros Hg. apply list_elem_of_fmap in Hg as (e & -> & He).
      destruct (Hsrc e He) as (r & Hr & Heq).
      assert (E : global_id e = global_id r) by now rewrite Heq.
      rewrite E. destruct Hr as [Hr|Hr]; [left|right];
        apply list_elem_of_fmap; eauto.
    - intros Hg. rewrite Hperm. now apply Hall. }
  split; [exact Hids|]. split; [exact Hsrc|]. split.
  - rewrite <- (length_fmap global_id out),
      <- (length_fmap global_id vector_results),
      <- (length_fmap global_id keyword_results), <- length_app.
    apply submseteq_length, NoDup_submseteq.
    + unfold MergeInvariant.ids in Hnd. now rewrite Hperm.
    + intros g Hg. apply elem_of_app. now apply Hids.
  - intros ->. apply List.Forall_forall. intros e He.
    apply list_elem_of_In in He. rewrite Hperm in He.
    destruct (decide (global_id e ∈ MergeInvariant.ids vector_results))
      as [Hg|Hg].
    + destruct (Hv e He Hg) as (r & _ & _ & ->). cbn.
      unfold MergeInvariant.vector_tags.
      destruct (decide _) as [H|]; [inversion H|reflexivity].
    + destruct (Hk e He Hg) as (r & Hr & _). inversion Hr.
Qed.

(** ** The selector, continued *)

Lemma select_best_chunk_cases json_loads chat search_info candidates
    all_chunks expand_context intent self :
  let run :=
    ChunkSelector.select_best_chunk json_loads chat search_info candidates
      all_chunks expand_context intent self in
  (fst run = None \/ exists c, c ∈ candidates /\ fst run = Some c)
  /\ (fst run = None ->
      candidates = []
      \/ (intent = ChunkSelector.TITLE
          /\ ChunkSelector._last_selection_note (snd run)
             = Some ChunkSelector.NO_MATCH))
  /\ (ChunkSelector.llm_requests (snd run) = ChunkSelector.llm_requests self
      \/ exists prompt,
           ChunkSelector.llm_requests (snd run)
           = ChunkSelector.llm_requests self ++ [prompt]).
Proof.
  intros run. subst run.
  destruct candidates as [|first [|second rest]].
  - cbn. repeat split; auto.
  - cbn. split; [right; exists first; split; [apply elem_of_cons; now left|done]|].
    split; [discriminate|now left].
  - destruct (decide (intent = ChunkSelector.TITLE)) as [->|Hne].
    + rewrite SelectorFacts.select_title_run.
      destruct (ChunkSelector._parse_selection_result _ _ _) as [[i|] [|]];
        cbn [fst snd ChunkSelector.llm_requests ChunkSelector._last_selection_note].
      * split; [now left|]. split; [right; now split|right; eauto].
      * destruct ((first :: second :: rest) !! Z.to_nat i) as [c|] eqn:Hc;
          cbn [fst snd ChunkSelector.llm_requests].
        -- split; [right; exists c; split;
                   [eapply list_elem_of_lookup_2; eauto|done]|].
           split; [discriminate|right; eauto].
        -- split; [right; exists first; split; [apply elem_of_cons; now left|done]|].
           split; [discriminate|right; eauto].
      * split; [now left|]. split; [right; now split|right; eauto].
      * split; [right; exists first; split; [apply elem_of_cons; now left|done]|].
        split; [discriminate|right; eauto].
    + unfold ChunkSelector.select_best_chunk.
      destruct (decide (intent <> ChunkSelector.TITLE)); [|done]. cbn.
      split; [right; exists first; split; [apply elem_of_cons; now left|done]|].
      split; [discriminate|now left].
Qed.

(** X13: whatever the model replies, the selector returns [None] or one
    of the candidates it was given; it returns [None] only for an empty
    candidate list or, under title intent, with the no-match note set; and
    it sends at most one prompt. *)
Theorem select_best_chunk_returns_candidate
    (json_loads : Py.str -> Json.decoded) (chat : Py.str -> option Py.str)
    (search_info : Py.str) (candidates all_chunks : list SearchResult)
    (expand_context : bool) (intent : Py.str) (self : ChunkSelector.selector) :
  let run :=
    ChunkSelector.select_best_chunk json_loads chat search_info candidates
      all_chunks expand_context intent self in
  (fst run = None \/ exists c, c ∈ candidates /\ fst run = Some c)
  /\ (fst run = None ->
      candidates = []
      \/ (intent = ChunkSelector.TITLE
          /\ ChunkSelector._last_selection_note (snd run)
             = Some ChunkSelector.NO_MATCH))
  /\ (ChunkSelector.llm_requests (snd run) = ChunkSelector.llm_requests self
      \/ exists prompt,
           ChunkSelector.llm_requests (snd run)
           = ChunkSelector.llm_requests self ++ [prompt]).
Proof. apply select_best_chunk_cases. Qed.

(** X14: batch selection returns one result per candidate group, in
    order, each [None] or a member of its own group, and sends at most
    one prompt per group. *)
Theorem select_best_chunks_batch_spec
    (json_loads : Py.str -> Json.decoded) (chat : Py.str -> option Py.str)
    (search_info : Py.str) (candidate_groups : list (list SearchResult))
    (all_chunks : list SearchResult) (intent : Py.str)
    (self : ChunkSelector.selector) :
  let run :=
    ChunkSelectorBatch.select_best_chunks_batch json_loads chat search_info
      candidate_groups all_chunks intent self in
  List.Forall2
    (fun candidates result =>
       result = None \/ exists c, c ∈ candidates /\ result = Some c)
    candidate_groups (fst run)
  /\ exists prompts,
       ChunkSelector.llm_requests (snd run)
       = ChunkSelector.llm_requests self ++ prompts
       /\ (length prompts <= length candidate_groups)%nat.
Proof.
  revert self. induction candidate_groups as [|candidates groups IH];
    intros self.
  - cbn. split; [constructor|]. exists []. now rewrite app_nil_r.
  - cbv zeta. cbn [ChunkSelectorBatch.select_best_chunks_batch].
    cbv beta iota delta [ChunkSelector.bind ChunkSelector.ret].
    pose proof (select_best_chunk_cases json_loads chat search_info candidates
                  all_chunks true intent self) as (Hres & _ & Hreq).
    destruct (ChunkSelector.select_best_chunk _ _ _ _ _ _ _ self)
      as [best self1].
    cbn [fst snd] in Hres, Hreq.
    specialize (IH self1). cbv zeta in IH.
    destruct (ChunkSelectorBatch.select_best_chunks_batch _ _ _ _ _ _ self1)
      as [results self2].
    cbn [fst snd] in IH |- *. destruct IH as (Hall & prompts & Hp & Hlen).
    split; [now constructor|].
    destruct Hreq as [Hreq|[prompt Hreq]]; rewrite Hreq in Hp.
    + exists prompts. split; [exact Hp|cbn; lia].
    + exists (prompt :: prompts). split; [now rewrite Hp, <- app_assoc|cbn; lia].
Qed.

(** ** Stripping *)

Lemma lstrip_nonspace c t : Py.isspace c = false -> Py.lstrip (c :: t) = c :: t.
Proof. intros H. cbn. now rewrite H. Qed.

Lemma lstrip_head s c t : Py.lstrip s = c :: t -> Py.isspace c = false.
Proof.
  induction s as [|x s IH]; cbn; [discriminate|].
  destruct (Py.isspace x) eqn:E; [exact IH|]. intros [= <- <-]. exact E.
Qed.

Lemma lstrip_idem s : Py.lstrip (Py.lstrip s) = Py.lstrip s.
Proof.
  destruct (Py.lstrip s) as [|c t] eqn:E; [reflexivity|].
  apply lstrip_nonspace. exact (lstrip_head _ _ _ E).
Qed.

Lemma lstrip_snoc_nonspace l c :
  Py.isspace c = false -> exists u, Py.lstrip (l ++ [c]) = u ++ [c].
Proof.
  intros H. induction l as [|x l [u IH]]; cbn.
  - rewrite H. now exists [].
  - destruct (Py.isspace x); [now exists u|]. now exists (x :: l).
Qed.

Lemma strip_idem s : Py.strip (Py.strip s) = Py.strip s.
Proof.
  unfold Py.strip, Py.rstrip.
  assert (H : Py.lstrip (rev (Py.lstrip (rev (Py.lstrip s))))
              = rev (Py.lstrip (rev (Py.lstrip s)))).
  { destruct (Py.lstrip s) as [|c t] eqn:E; [reflexivity|].
    pose proof (lstrip_head _ _ _ E) as Hc. cbn [rev].
    destruct (lstrip_snoc_nonspace (rev t) c Hc) as [u ->].
    rewrite rev_app_distr. cbn [rev app]. now apply lstrip_nonspace. }
  rewrite H, rev_involutive, lstrip_idem. reflexivity.
Qed.

Lemma strip_nil_of_falsy s : Py.falsy s = true -> Py.strip s = [].
Proof. destruct s; [reflexivity|discriminate]. Qed.

(** ** Intent and validation in the orchestrator *)

Lemma prefix_map_eq :
  ProspectusSearchTool.prefix_map
  = [ (ProspectusSearchTool.TITLE,
       [Py.utf8 "章节标题检索："; Py.utf8 "章节标题检索:"]);
      (ProspectusSearchTool.CONTENT,
       [Py.utf8 "内容检索："; Py.utf8 "内容检索:"]) ].
Proof. reflexivity. Qed.

(** The test for the title prefixes on the stripped text. *)
Lemma parse_search_intent_cases s :
  let raw := Py.strip s in
  let titled :=
    Py.startswith raw (Py.utf8 "章节标题检索：")
    || Py.startswith raw (Py.utf8 "章节标题检索:") in
  fst (ProspectusSearchTool._parse_search_intent s)
  = (if negb (Py.falsy raw) && titled then ProspectusSearchTool.TITLE
     else ProspectusSearchTool.CONTENT)
  /\ Py.strip (snd (ProspectusSearchTool._parse_search_intent s))
     = snd (ProspectusSearchTool._parse_search_intent s).
Proof.
  intros raw titled. subst titled.
  unfold ProspectusSearchTool._parse_search_intent. fold raw.
  rewrite prefix_map_eq.
  generalize (Py.utf8 "章节标题检索：") (Py.utf8 "章节标题检索:")
             (Py.utf8 "内容检索：") (Py.utf8 "内容检索:").
  intros p1 p2 p3 p4.
  destruct (Py.falsy raw) eqn:Ef; [split; reflexivity|].
  cbn [negb andb ProspectusSearchTool.match_intents
       ProspectusSearchTool.match_prefixes].
  destruct (Py.startswith raw p1); cbn [orb fst snd];
    [split; [reflexivity|apply strip_idem]|].
  destruct (Py.startswith raw p2); cbn [orb fst snd];
    [split; [reflexivity|apply strip_idem]|].
  destruct (Py.startswith raw p3); cbn [orb fst snd];
    [split; [reflexivity|apply strip_idem]|].
  destruct (Py.startswith raw p4); cbn [orb fst snd];
    [split; [reflexivity|apply strip_idem]|].
  split; [reflexivity|apply strip_idem].
Qed.

(** X15: [_parse_search_intent] classifies every text as title or content,
    as title exactly when the stripped text starts with one of the two
    title prefixes, and the query it returns carries no white space at
    either end. *)
Theorem parse_search_intent_spec (search_info : Py.str) :
  let raw := Py.strip search_info in
  let parsed := ProspectusSearchTool._parse_search_intent search_info in
  (fst parsed = ProspectusSearchTool.TITLE
   \/ fst parsed = ProspectusSearchTool.CONTENT)
  /\ (fst parsed = ProspectusSearchTool.TITLE
      <-> Py.startswith raw (Py.utf8 "章节标题检索：") = true
          \/ Py.startswith raw (Py.utf8 "章节标题检索:") = true)
  /\ Py.strip (snd parsed) = snd parsed.
Proof.
  intros raw parsed. subst parsed.
  destruct (parse_search_intent_cases search_info) as [Hi Hq].
  cbv zeta in Hi. fold raw in Hi.
  split; [|split; [|exact Hq]]; rewrite Hi.
  - destruct (negb _ && _); auto.
  - destruct (Py.falsy raw) eqn:Ef.
    + cbn [negb andb]. destruct raw; [|discriminate].
      split; [discriminate|].
      intros [H|H]; vm_compute in H; discriminate.
    + cbn [negb andb]. rewrite <- orb_true_iff.
      destruct (_ || _); split; try reflexivity; discriminate.
Qed.

Lemma validate_parameters_cases fund_code search_info sp ep sc ec :
  ProspectusSearchTool._validate_parameters fund_code search_info sp ep sc ec
  = None
  <-> Py.strip fund_code <> [] /\ Spec.ordered sp ep /\ Spec.ordered sc ec.
Proof.
  unfold ProspectusSearchTool._validate_parameters, Spec.ordered.
  destruct (Py.falsy fund_code) eqn:Ef.
  { cbn [orb]. rewrite (strip_nil_of_falsy _ Ef).
    split; [discriminate|]. intros [H _]. congruence. }
  cbn [orb]. destruct (Py.strip fund_code) as [|c t] eqn:Es; cbn [Py.falsy].
  { split; [discriminate|]. intros [H _]. congruence. }
  destruct sp as [l|], ep as [h|], sc as [l'|], ec as [h'|];
    rewrite ?Z.gtb_ltb;
    repeat match goal with
           | |- context [?a <? ?b] => destruct (Z.ltb_spec a b)
           end;
    (split;
     [ first
         [ discriminate
         | intros _; split; [discriminate|];
           split; intros ? ? E1 E2;
           first [discriminate|injection E1 as <-; injection E2 as <-; lia] ]
     | first
         [ reflexivity
         | intros (_ & H1 & H2);
           try specialize (H1 _ _ eq_refl eq_refl);
           try specialize (H2 _ _ eq_refl eq_refl); lia ] ]).
Qed.

(** X16: the parameters are accepted exactly when the fund code is not
    blank and each pair of bounds that is given in full is ordered; when
    they are rejected, [search_prospectus] answers with an error without
    consulting the document locator, the directory searcher or the
    retrieval pipeline (its answer is the same for all of them). *)
Theorem search_prospectus_validates_first
    (determine determine' : Py.str -> bool -> option Py.str)
    (directory directory' : Py.str -> Py.str -> ProspectusSearchTool.response)
    (general general' :
       Py.str -> Py.str -> Py.str -> option Z -> option Z -> option Z
       -> option Z -> Z -> Z -> ProspectusSearchTool.response)
    (fund_code search_info : Py.str) (is_expansion : bool)
    (sp ep sc ec : option Z) (expand_before expand_after : Z) :
  (ProspectusSearchTool._validate_parameters fund_code search_info sp ep sc ec
   = None
   <-> Py.strip fund_code <> [] /\ Spec.ordered sp ep /\ Spec.ordered sc ec)
  /\ (~ (Py.strip fund_code <> [] /\ Spec.ordered sp ep /\ Spec.ordered sc ec) ->
      ProspectusSearchTool.search_prospectus determine directory general
        fund_code search_info is_expansion sp ep sc ec expand_before expand_after
      = ProspectusSearchTool.search_prospectus determine' directory' general'
          fund_code search_info is_expansion sp ep sc ec expand_before expand_after
      /\ exists msg,
           ProspectusSearchTool.search_prospectus determine directory general
             fund_code search_info is_expansion sp ep sc ec
             expand_before expand_after
           = ProspectusSearchTool._create_error_result msg
               (ProspectusSearchTool._infer_intent_for_error search_info)).
Proof.
  split; [apply validate_parameters_cases|].
  intros Hbad.
  rewrite <- (validate_parameters_cases fund_code search_info) in Hbad.
  unfold ProspectusSearchTool.search_prospectus.
  destruct (ProspectusSearchTool._validate_parameters _ _ _ _ _ _) as [msg|];
    [|congruence].
  split; [reflexivity|now exists msg].
Qed.

Lemma search_prospectus_validates_first_witness :
  exists msg,
    ProspectusSearchTool.search_prospectus (fun _ _ => None)
      (fun _ _ => ProspectusSearchTool.Listed true None None 0 None [])
      (fun _ _ _ _ _ _ _ _ _ => ProspectusSearchTool.Listed true None None 0 None [])
      (Py.utf8 "  ") (Py.utf8 "基金管理费") false None None None None 0 0
    = ProspectusSearchTool._create_error_result msg
        (ProspectusSearchTool._infer_intent_for_error (Py.utf8 "基金管理费")).
Proof.
  apply (proj2 (search_prospectus_validates_first
                  (fun _ _ => None) (fun _ _ => None)
                  (fun _ _ => ProspectusSearchTool.Listed true None None 0 None [])
                  (fun _ _ => ProspectusSearchTool.Listed true None None 0 None [])
                  (fun _ _ _ _ _ _ _ _ _ =>
                     ProspectusSearchTool.Listed true None None 0 None [])
                  (fun _ _ _ _ _ _ _ _ _ =>
                     ProspectusSearchTool.Listed true None None 0 None [])
                  (Py.utf8 "  ") (Py.utf8 "基金管理费") false
                  None None None None 0 0)).
  intros [H _]. apply H. reflexivity.
Defined.

(** X17: the wrapper of [tool_entry] and the orchestrator agree on the
    intent of a request, and so on the shape of its error, exactly when
    the stripped text is not the catalog marker; for the catalog marker
    the wrapper builds the flat error and the orchestrator the list
    one. *)
Theorem wrapper_and_orchestrator_error_shapes (search_info message : Py.str) :
  (Py.strip search_info <> ProspectusSearchTool.CATALOG ->
   ProspectusSearchTool._guess_intent search_info
   = ProspectusSearchTool._infer_intent_for_error search_info
   /\ ProspectusSearchTool._build_wrapper_error
        (ProspectusSearchTool._guess_intent search_info) message
      = ProspectusSearchTool._create_error_result message
          (ProspectusSearchTool._infer_intent_for_error search_info))
  /\ (Py.strip search_info = ProspectusSearchTool.CATALOG ->
      ProspectusSearchTool._build_wrapper_error
        (ProspectusSearchTool._guess_intent search_info) message
      = ProspectusSearchTool.Flat false None None None None None None
          (Some message)
      /\ ProspectusSearchTool._create_error_result message
           (ProspectusSearchTool._infer_intent_for_error search_info)
         = ProspectusSearchTool.Listed false None (Some message) 0 None []).
Proof.
  pose proof (parse_search_intent_cases search_info) as [Hi _].
  cbv zeta in Hi.
  unfold ProspectusSearchTool._guess_intent,
    ProspectusSearchTool._infer_intent_for_error.
  split.
  - intros Hne.
    assert (Hraw : search_info <> ProspectusSearchTool.CATALOG).
    { intros ->. apply Hne. reflexivity. }
    rewrite (bool_decide_eq_false_2 _ Hraw), orb_false_r.
    destruct (decide (Py.strip search_info = ProspectusSearchTool.CATALOG));
      [done|].
    rewrite Hi.
    destruct (Py.falsy search_info) eqn:Ef.
    { rewrite (strip_nil_of_falsy _ Ef). cbn [Py.falsy]. split; reflexivity. }
    destruct (Py.falsy (Py.strip search_info)); cbn [negb andb];
      [split; reflexivity|].
    destruct (_ || _); split; reflexivity.
  - intros He. rewrite He.
    destruct (decide (ProspectusSearchTool.CATALOG = ProspectusSearchTool.CATALOG));
      [|done].
    split; [reflexivity|].
    destruct (Py.falsy search_info || bool_decide _) eqn:E; [reflexivity|].
    rewrite Hi, He. reflexivity.
Qed.

Lemma wrapper_and_orchestrator_error_shapes_witness :
  ProspectusSearchTool._build_wrapper_error
    (ProspectusSearchTool._guess_intent (Py.utf8 " 目录 ")) (Py.utf8 "E")
  = ProspectusSearchTool.Flat false None None None None None None
      (Some (Py.utf8 "E"))
  /\ ProspectusSearchTool._create_error_result (Py.utf8 "E")
       (ProspectusSearchTool._infer_intent_for_error (Py.utf8 " 目录 "))
     = ProspectusSearchTool.Listed false None (Some (Py.utf8 "E")) 0 None [].
Proof.
  apply (proj2 (wrapper_and_orchestrator_error_shapes
                  (Py.utf8 " 目录 ") (Py.utf8 "E"))).
  vm_compute. reflexivity.
Defined.

(** ** The driver, continued *)

Module DriverMore.
Import Driver.

Section Facts.
Variable json_loads_object : Py.str -> attempt jdict.
Variable chat_create : list message -> attempt (Py.str * Py.str).
Variable run_tool : jdict -> attempt Py.str.

Local Abbreviation parse := (_parse_reasoner_output json_loads_object).
Local Abbreviation round := (Driver.round json_loads_object chat_create run_tool).
Local Abbreviation rounds := (Driver.rounds json_loads_object chat_create run_tool).

Lemma is_missing_present call key :
  is_missing call key = false <-> Spec.present call key.
Proof.
  unfold is_missing, Spec.present. destruct (Json.get call key) as [v|].
  - destruct v; split; try discriminate; try reflexivity;
      try (intros _; eexists; split; [reflexivity|discriminate]).
    intros (v & [= <-] & H). congruence.
  - split; [discriminate|]. intros (v & H & _). discriminate.
Qed.

(** What the parser guarantees about each disposition. *)
Lemma parse_dispositions reply reasoning :
  match p_type (parse reply reasoning) with
  | tool_call call =>
    Spec.present call FUND_CODE /\ Spec.present call SEARCH_INFO
    /\ p_errors (parse reply reasoning) = []
    /\ exists group, search_tool_call reply = Some group
                      /\ json_loads_object group = Returned call
  | final_answer answer =>
    answer <> [] /\ Py.strip answer = answer
    /\ p_errors (parse reply reasoning) = []
    /\ search_tool_call reply = None
  | format_error =>
    p_errors (parse reply reasoning) = [MSG_NO_FORMAT]
    /\ search_tool_call reply = None /\ search_final_answer reply = None
  | error => exists msg, p_errors (parse reply reasoning) = [msg]
  end.
Proof.
  unfold _parse_reasoner_output.
  destruct (search_tool_call reply) as [group|] eqn:Et.
  - destruct (json_loads_object group) as [call|e] eqn:Ej.
    + unfold required_params. cbn [List.filter].
      destruct (is_missing call FUND_CODE) eqn:E1,
        (is_missing call SEARCH_INFO) eqn:E2; cbn [p_type p_errors];
        try (eexists; reflexivity).
      apply is_missing_present in E1, E2.
      repeat split; try assumption. exists group. now split.
    + cbn [p_type p_errors]. eexists; reflexivity.
  - destruct (search_final_answer reply) as [group|].
    + destruct (Py.falsy (Py.strip group)) eqn:Ef; cbn [p_type p_errors].
      * eexists; reflexivity.
      * repeat split; [|apply strip_idem].
        intros E. rewrite E in Ef. discriminate.
    + cbn [p_type p_errors]. repeat split.
Qed.
End Facts.

End DriverMore.

(** X18: what the reply parser guarantees: an action it accepts carries
    both required parameters with values other than null and comes from
    the first action block; a final answer it accepts is not empty, has no
    white space at either end and is only read when the reply has no
    action block; accepted replies have no error message and rejected ones
    exactly one. *)
Theorem parse_reasoner_output_dispositions
    (json_loads_object : Py.str -> Driver.attempt Driver.jdict)
    (reply reasoning : Py.str) :
  let parsed := Driver._parse_reasoner_output json_loads_object reply reasoning in
  match Driver.p_type parsed with
  | Driver.tool_call call =>
    Spec.present call Driver.FUND_CODE /\ Spec.present call Driver.SEARCH_INFO
    /\ Driver.p_errors parsed = []
    /\ exists group, Driver.search_tool_call reply = Some group
                      /\ json_loads_object group = Driver.Returned call
  | Driver.final_answer answer =>
    answer <> [] /\ Py.strip answer = answer
    /\ Driver.p_errors parsed = []
    /\ Driver.search_tool_call reply = None
  | Driver.format_error =>
    Driver.p_errors parsed = [Driver.MSG_NO_FORMAT]
    /\ Driver.search_tool_call reply = None
    /\ Driver.search_final_answer reply = None
  | Driver.error => exists msg, Driver.p_errors parsed = [msg]
  end.
Proof. apply DriverMore.parse_dispositions. Qed.

Module DriverLoop.
Import Driver LoopInvariant.

Section Facts.
Variable json_loads_object : Py.str -> attempt jdict.
Variable chat_create : list message -> attempt (Py.str * Py.str).
Variable run_tool : jdict -> attempt Py.str.

Local Abbreviation parse := (_parse_reasoner_output json_loads_object).
Local Abbreviation round := (Driver.round json_loads_object chat_create run_tool).
Local Abbreviation rounds := (Driver.rounds json_loads_object chat_create run_tool).

Lemma set_last_tool_result_snoc result ok l rd :
  set_last_tool_result result ok (l ++ [rd])
  = l ++ [mkRound (round_number rd) (reasoning_content rd) (response_content rd)
                  (parsed_analysis rd) (round_parsed_type rd) (round_errors rd)
                  (Some result) (Some ok)].
Proof.
  unfold set_last_tool_result. rewrite rev_app_distr. cbn [rev app].
  now rewrite rev_involutive.
Qed.

Lemma startswith_app (pre rest : Py.str) :
  Py.startswith (pre ++ rest) pre = true.
Proof.
  induction pre as [|c pre IH]; [now destruct rest|].
  cbn [app Py.startswith]. now rewrite N.eqb_refl.
Qed.

Lemma startswith_app2 (a b rest : Py.str) :
  Py.startswith (a ++ b ++ rest) (a ++ b) = true.
Proof. rewrite app_assoc. apply startswith_app. Qed.

(** What one turn of the loop does, case by case. *)
Lemma round_cases i st :
  let st' := snd (round i st) in
  model_requests st' = model_requests st ++ [messages st]
  /\ ((exists e,
         chat_create (messages st) = Raised e
         /\ fst (round i st)
            = Some (mkOutcome false (Some (Py.utf8 "模型调用失败: " ++ e))
                              Py.empty (conversation_rounds st)
                              (all_reasoning st) (tool_calls_made st) (i - 1)
                              None)
         /\ messages st' = messages st
         /\ conversation_rounds st' = conversation_rounds st
         /\ tool_calls_made st' = tool_calls_made st)
      \/ (exists reasoning reply rd,
            chat_create (messages st) = Returned (reasoning, reply)
            /\ response_content rd = reply /\ round_number rd = i
            /\ round_parsed_type rd = p_type (parse reply reasoning)
            /\ round_errors rd = p_errors (parse reply reasoning)
            /\ conversation_rounds st' = conversation_rounds st ++ [rd]
            /\ match p_type (parse reply reasoning) with
               | final_answer answer =>
                 messages st' = messages st ++ [mkMessage ASSISTANT reply]
                 /\ tool_calls_made st' = tool_calls_made st
                 /\ tool_success rd = None
                 /\ fst (round i st)
                    = Some (mkOutcome true None answer (conversation_rounds st')
                                      (all_reasoning st') (tool_calls_made st) i
                                      (Some (Py.join (NL ++ NL)
                                                     (all_reasoning st'))))
               | tool_call call =>
                 exists feedback record,
                   messages st'
                   = messages st ++ [mkMessage ASSISTANT reply;
                                     mkMessage USER feedback]
                   /\ tool_calls_made st' = tool_calls_made st ++ [record]
                   /\ match run_tool call with
                      | Returned response =>
                        record = mkToolCall i call (Some response) true None
                        /\ tool_success rd = Some true
                        /\ tool_execution_result rd = Some response
                      | Raised e =>
                        record = mkToolCall i call None false (Some e)
                        /\ tool_success rd = Some false
                        /\ tool_execution_result rd
                           = Some (Py.utf8 "工具调用失败: " ++ e)
                        /\ Py.startswith feedback
                                         (Py.utf8 "工具调用失败: " ++ e)
                           = true
                      end
                   /\ fst (round i st) = None
               | _ =>
                 messages st'
                 = messages st
                   ++ [mkMessage ASSISTANT reply;
                       mkMessage USER
                         (corrective_feedback (p_errors (parse reply reasoning)))]
                 /\ tool_calls_made st' = tool_calls_made st
                 /\ tool_success rd = None
                 /\ fst (round i st) = None
               end)).
Proof.
  cbv zeta. unfold Driver.round.
  cbn [messages conversation_rounds all_reasoning tool_calls_made
       model_requests].
  destruct (chat_create (messages st)) as [[reasoning reply]|e].
  2:{ split; [reflexivity|]. left. exists e.
      cbn [fst snd messages conversation_rounds tool_calls_made].
      repeat split. }
  destruct (p_type (parse reply reasoning)) as [call|answer| |] eqn:Et.
  - destruct (run_tool call) as [response|e] eqn:Er;
      (split; [reflexivity|]); right; exists reasoning, reply;
      rewrite Et, set_last_tool_result_snoc;
      cbn [fst snd round_number reasoning_content response_content
           parsed_analysis round_parsed_type round_errors
           conversation_rounds model_requests messages tool_calls_made].
    + exists (mkRound i reasoning reply (p_analysis (parse reply reasoning))
                      (tool_call call) (p_errors (parse reply reasoning))
                      (Some response) (Some true)).
      cbn [response_content round_number round_parsed_type round_errors
           tool_success tool_execution_result].
      repeat (split; [reflexivity|]).
      eexists; eexists. rewrite Er, <- ?app_assoc. cbn [app].
      repeat (split; [reflexivity|]).
      split; [|reflexivity]. repeat split.
    + exists (mkRound i reasoning reply (p_analysis (parse reply reasoning))
                      (tool_call call) (p_errors (parse reply reasoning))
                      (Some (Py.utf8 "工具调用失败: " ++ e)) (Some false)).
      cbn [response_content round_number round_parsed_type round_errors
           tool_success tool_execution_result].
      repeat (split; [reflexivity|]).
      eexists; eexists. rewrite Er, <- ?app_assoc. cbn [app].
      repeat (split; [reflexivity|]).
      split; [|reflexivity].
      repeat (split; [reflexivity|]).
      apply startswith_app2.
  - split; [reflexivity|]. right. exists reasoning, reply. rewrite Et.
    cbn [fst snd conversation_rounds model_requests messages tool_calls_made
         all_reasoning].
    exists (mkRound i reasoning reply (p_analysis (parse reply reasoning))
                    (final_answer answer) (p_errors (parse reply reasoning))
                    None None).
    cbn [response_content round_number round_parsed_type round_errors
         tool_success].
    repeat (split; [reflexivity|]). reflexivity.
  - split; [reflexivity|]. right. exists reasoning, reply. rewrite Et.
    cbn [fst snd conversation_rounds model_requests messages tool_calls_made].
    exists (mkRound i reasoning reply (p_analysis (parse reply reasoning))
                    format_error (p_errors (parse reply reasoning)) None None).
    cbn [response_content round_number round_parsed_type round_errors
         tool_success].
    rewrite <- ?app_assoc. cbn [app].
    repeat (split; [reflexivity|]). reflexivity.
  - split; [reflexivity|]. right. exists reasoning, reply. rewrite Et.
    cbn [fst snd conversation_rounds model_requests messages tool_calls_made].
    exists (mkRound i reasoning reply (p_analysis (parse reply reasoning))
                    error (p_errors (parse reply reasoning)) None None).
    cbn [response_content round_number round_parsed_type round_errors
         tool_success].
    rewrite <- ?app_assoc. cbn [app].
    repeat (split; [reflexivity|]). reflexivity.
Qed.
Lemma assistant_turns_app h1 h2 :
  Spec.assistant_turns (h1 ++ h2)
  = Spec.assistant_turns h1 ++ Spec.assistant_turns h2.
Proof.
  unfold Spec.assistant_turns. now rewrite List.filter_app, List.map_app.
Qed.

Lemma lengths_snoc (requests : list (list message)) history :
  List.map (@length message) requests
  = List.map (fun k => 2 + 2 * k)%nat (seq 0 (length requests)) ->
  length history = (2 + 2 * length requests)%nat ->
  List.map (@length message) (requests ++ [history])
  = List.map (fun k => 2 + 2 * k)%nat
             (seq 0 (length (requests ++ [history]))).
Proof.
  intros IH Hlen. rewrite length_app, seq_app, !List.map_app, <- IH.
  cbn [length seq List.map Nat.add]. now rewrite Hlen.
Qed.

(** The invariant survives a round that recorded [rd]. *)
Lemma invariant_step st st' rd tail :
  invariant run_tool st ->
  length (messages st) = (2 + 2 * length (model_requests st))%nat ->
  model_requests st' = model_requests st ++ [messages st] ->
  conversation_rounds st' = conversation_rounds st ++ [rd] ->
  messages st'
  = messages st ++ mkMessage ASSISTANT (response_content rd) :: tail ->
  (tail = [] \/ exists feedback, tail = [mkMessage USER feedback]) ->
  (tool_calls_made st' = tool_calls_made st
   /\ Spec.is_action rd = false /\ tool_success rd = None
   \/ exists record,
        tool_calls_made st' = tool_calls_made st ++ [record]
        /\ round_parsed_type rd = tool_call (tc_params record)
        /\ tc_round record = round_number rd
        /\ tool_success rd = Some (tc_success record)
        /\ has_tool_outcome rd = true
        /\ Forall (Spec.present (tc_params record)) required_params
        /\ faithful_record run_tool record) ->
  invariant run_tool st'.
Proof.
  intros Hinv Hlen Hq Hr Hm Htail Hcalls.
  assert (Hturns : Spec.assistant_turns (messages st')
                   = List.map response_content (conversation_rounds st')).
  { rewrite Hm, Hr, assistant_turns_app, List.map_app, (inv_turns _ _ Hinv).
    f_equal. destruct Htail as [-> | [feedback ->]]; reflexivity. }
  assert (Hprefix : Forall (fun history => history `prefix_of` messages st')
                           (model_requests st')).
  { rewrite Hq, Hm. apply Forall_app. split.
    - eapply Forall_impl; [apply (inv_prefix _ _ Hinv)|].
      intros history H. now apply prefix_app_r.
    - constructor; [|constructor]. now apply prefix_app_r. }
  assert (Hlens : List.map (@length message) (model_requests st')
                  = List.map (fun k => 2 + 2 * k)%nat
                             (seq 0 (length (model_requests st')))).
  { rewrite Hq. apply lengths_snoc; [apply (inv_lengths _ _ Hinv)|exact Hlen]. }
  destruct Hcalls as [(Ht & Hact & Hts)
                     | (record & Ht & Hty & Hnum & Hts & Hout & Hreq & Hfaith)].
  - constructor; try assumption;
      rewrite ?Ht, ?Hr, ?List.filter_app; cbn [List.filter];
      rewrite ?Hact, ?app_nil_r; try apply Hinv.
    apply Forall_app. split; [apply Hinv|].
    constructor; [|constructor].
    unfold has_tool_outcome. now rewrite Hts, Hact.
  - assert (Hact : Spec.is_action rd = true)
      by (unfold Spec.is_action; now rewrite Hty).
    constructor; try assumption;
      rewrite ?Ht, ?Hr, ?List.filter_app; cbn [List.filter];
      rewrite ?Hact, ?List.map_app; cbn [List.map].
    + now rewrite (inv_call_rounds _ _ Hinv), Hnum.
    + now rewrite (inv_call_params _ _ Hinv), Hty.
    + now rewrite (inv_call_success _ _ Hinv), Hts.
    + apply Forall_app. split; [apply Hinv|].
      constructor; [assumption|constructor].
    + apply Forall_app. split; [apply Hinv|].
      constructor; [assumption|constructor].
    + apply Forall_app. split; [apply Hinv|].
      constructor; [|constructor]. now rewrite Hout, Hact.
Qed.

(** A call of the model that raises leaves the invariant in place. *)
Lemma invariant_raised st st' :
  invariant run_tool st ->
  length (messages st) = (2 + 2 * length (model_requests st))%nat ->
  model_requests st' = model_requests st ++ [messages st] ->
  conversation_rounds st' = conversation_rounds st ->
  messages st' = messages st ->
  tool_calls_made st' = tool_calls_made st ->
  invariant run_tool st'.
Proof.
  intros Hinv Hlen Hq Hr Hm Ht.
  constructor; rewrite ?Ht, ?Hr, ?Hm; try apply Hinv.
  - rewrite Hq. apply Forall_app. split; [apply Hinv|].
    constructor; [reflexivity|constructor].
  - rewrite Hq. apply lengths_snoc; [apply (inv_lengths _ _ Hinv)|exact Hlen].
Qed.

(** One round: the invariant is kept; the loop either goes on, or
    returns the answer, or returns the failure of the model call. *)
Lemma round_inv i st :
  invariant run_tool st -> running i st ->
  invariant run_tool (snd (round i st))
  /\ match fst (round i st) with
     | None => running (i + 1) (snd (round i st))
     | Some out =>
       out_conversation_rounds out = conversation_rounds (snd (round i st))
       /\ tool_calls out = tool_calls_made (snd (round i st))
       /\ (answered out
           /\ length (model_requests (snd (round i st)))
              = length (out_conversation_rounds out)
           /\ Z.of_nat (length (out_conversation_rounds out)) = i
           \/ transport_failed out
              /\ length (model_requests (snd (round i st)))
                 = S (length (out_conversation_rounds out))
              /\ Z.of_nat (length (out_conversation_rounds out)) = i - 1)
     end.
Proof.
  intros Hinv [Hidx Hreqs Hmsgs Hnofinal].
  assert (Hlen : length (messages st)
                 = (2 + 2 * length (model_requests st))%nat) by lia.
  pose proof (round_cases i st) as Hcases. cbv zeta in Hcases.
  set (st' := snd (round i st)) in *.
  destruct Hcases as
    [Hq [(e & Hc & Hfst & Hm & Hr & Ht)
        | (reasoning & reply & rd & Hc & Hrc & Hrn & Hty & Her & Hr & Hcase)]].
  - split; [now apply (invariant_raised st)|].
    rewrite Hfst.
    cbn [out_conversation_rounds tool_calls success out_error
         out_final_answer complete_reasoning_log].
    split; [now rewrite Hr|]. split; [now rewrite Ht|].
    right. split; [|split].
    + exists e. unfold transport_failed.
      cbn [out_conversation_rounds tool_calls success out_error
           out_final_answer complete_reasoning_log].
      repeat (split; [reflexivity|]). exact Hnofinal.
    + rewrite Hq, length_app. cbn [length]. lia.
    + exact Hidx.
  - pose proof (DriverMore.parse_dispositions json_loads_object reply reasoning)
      as Hd.
    destruct (p_type (parse reply reasoning)) as [call|answer| |] eqn:Et.
    + destruct Hcase as (feedback & record & Hm & Ht & Hrec & Hfst).
      destruct Hd as (Hp1 & Hp2 & _).
      assert (Hrecord : tc_params record = call /\ tc_round record = i
                        /\ tool_success rd = Some (tc_success record)
                        /\ has_tool_outcome rd = true
                        /\ faithful_record run_tool record).
      { unfold faithful_record, has_tool_outcome.
        destruct (run_tool call) as [response|e] eqn:Er.
        - destruct Hrec as (-> & Hs & Hx). cbn [tc_params tc_round tc_success
                                                 tc_result tc_error].
          rewrite Er, Hs, Hx. repeat split.
        - destruct Hrec as (-> & Hs & Hx & _).
          cbn [tc_params tc_round tc_success tc_result tc_error].
          rewrite Er, Hs, Hx. repeat split. }
      destruct Hrecord as (Hcall & Hround & Hs & Hout & Hfaith).
      split.
      * apply (invariant_step st st' rd [mkMessage USER feedback]);
          try assumption.
        -- now rewrite Hrc.
        -- right. now exists feedback.
        -- right. exists record. rewrite Hcall, Hround, Hrn.
           repeat (split; [assumption || reflexivity|]).
           split; [|exact Hfaith]. unfold required_params.
           constructor; [assumption|]. constructor; [assumption|constructor].
      * rewrite Hfst. constructor.
        -- rewrite Hr, length_app. cbn [length]. lia.
        -- rewrite Hq, Hr, !length_app. cbn [length]. lia.
        -- rewrite Hm, Hr, !length_app. cbn [length]. lia.
        -- rewrite Hr. apply Forall_app. split; [exact Hnofinal|].
           constructor; [|constructor]. unfold is_final. now rewrite Hty.
    + destruct Hcase as (Hm & Ht & Hts & Hfst).
      destruct Hd as (Hne & Hstrip & _).
      split.
      * apply (invariant_step st st' rd []); try assumption.
        -- now rewrite Hrc.
        -- now left.
        -- left. unfold Spec.is_action. now rewrite Hty.
      * rewrite Hfst.
        cbn [out_conversation_rounds tool_calls].
        split; [reflexivity|]. split; [now rewrite Ht|].
        left. split; [|split].
        -- unfold answered.
           cbn [out_conversation_rounds tool_calls success out_error
                out_final_answer complete_reasoning_log out_all_reasoning].
           repeat (split; [assumption || reflexivity|]).
           exists (conversation_rounds st), rd.
           split; [exact Hr|]. split; [exact Hty|exact Hnofinal].
        -- rewrite Hq, Hr, !length_app. cbn [length]. lia.
        -- rewrite Hr, length_app. cbn [length]. lia.
    + destruct Hcase as (Hm & Ht & Hts & Hfst).
      split.
      * apply (invariant_step st st' rd
                 [mkMessage USER
                    (corrective_feedback (p_errors (parse reply reasoning)))]);
          try assumption.
        -- now rewrite Hrc.
        -- right. now eexists.
        -- left. unfold Spec.is_action. now rewrite Hty.
      * rewrite Hfst. constructor.
        -- rewrite Hr, length_app. cbn [length]. lia.
        -- rewrite Hq, Hr, !length_app. cbn [length]. lia.
        -- rewrite Hm, Hr, !length_app. cbn [length]. lia.
        -- rewrite Hr. apply Forall_app. split; [exact Hnofinal|].
           constructor; [|constructor]. unfold is_final. now rewrite Hty.
    + destruct Hcase as (Hm & Ht & Hts & Hfst).
      split.
      * apply (invariant_step st st' rd
                 [mkMessage USER
                    (corrective_feedback (p_errors (parse reply reasoning)))]);
          try assumption.
        -- now rewrite Hrc.
        -- right. now eexists.
        -- left. unfold Spec.is_action. now rewrite Hty.
      * rewrite Hfst. constructor.
        -- rewrite Hr, length_app. cbn [length]. lia.
        -- rewrite Hq, Hr, !length_app. cbn [length]. lia.
        -- rewrite Hm, Hr, !length_app. cbn [length]. lia.
        -- rewrite Hr. apply Forall_app. split; [exact Hnofinal|].
           constructor; [|constructor]. unfold is_final. now rewrite Hty.
Qed.
(** The loop: the invariant holds of the state it ends in, and it ends
    in one of three ways. *)
Lemma rounds_inv n i st :
  invariant run_tool st -> running i st ->
  invariant run_tool (snd (rounds n i st))
  /\ match fst (rounds n i st) with
     | None => running (i + Z.of_nat n) (snd (rounds n i st))
     | Some out =>
       out_conversation_rounds out = conversation_rounds (snd (rounds n i st))
       /\ tool_calls out = tool_calls_made (snd (rounds n i st))
       /\ (answered out
           /\ length (model_requests (snd (rounds n i st)))
              = length (out_conversation_rounds out)
           /\ i <= Z.of_nat (length (out_conversation_rounds out))
              <= i - 1 + Z.of_nat n
           \/ transport_failed out
              /\ length (model_requests (snd (rounds n i st)))
                 = S (length (out_conversation_rounds out))
              /\ i - 1 <= Z.of_nat (length (out_conversation_rounds out))
                 < i - 1 + Z.of_nat n)
     end.
Proof.
  revert i st. induction n as [|n IH]; intros i st Hinv Hrun.
  - cbn [Driver.rounds fst snd]. split; [exact Hinv|].
    now replace (i + Z.of_nat 0) with i by lia.
  - cbn [Driver.rounds].
    pose proof (round_inv i st Hinv Hrun) as [Hinv' Hstep].
    destruct (round i st) as [[out|] st'] eqn:Eround; cbn [fst snd] in *.
    + split; [exact Hinv'|].
      destruct Hstep as (Hr & Ht & Hend).
      split; [exact Hr|]. split; [exact Ht|].
      destruct Hend as [(Ha & Hq & Hn) | (Hf & Hq & Hn)];
        [left | right]; (split; [assumption|]); (split; [assumption|]); lia.
    + specialize (IH (i + 1) st' Hinv' Hstep).
      destruct IH as [Hinv'' Hrest]. split; [exact Hinv''|].
      destruct (fst (rounds n (i + 1) st')) as [out|].
      * destruct Hrest as (Hr & Ht & Hend).
        split; [exact Hr|]. split; [exact Ht|].
        destruct Hend as [(Ha & Hq & Hn) | (Hf & Hq & Hn)];
          [left | right]; (split; [assumption|]); (split; [assumption|]); lia.
      * now replace (i + Z.of_nat (S n)) with (i + 1 + Z.of_nat n) by lia.
Qed.

(** A round only appends to the history. *)
Lemma round_extends i st : messages st `prefix_of` messages (snd (round i st)).
Proof.
  pose proof (round_cases i st) as Hcases. cbv zeta in Hcases.
  destruct Hcases as
    [_ [(e & _ & _ & Hm & _)
       | (reasoning & reply & rd & _ & _ & _ & _ & _ & _ & Hcase)]].
  - now rewrite Hm.
  - destruct (p_type (parse reply reasoning)).
    + destruct Hcase as (feedback & record & -> & _). now apply prefix_app_r.
    + destruct Hcase as (-> & _). now apply prefix_app_r.
    + destruct Hcase as (-> & _). now apply prefix_app_r.
    + destruct Hcase as (-> & _). now apply prefix_app_r.
Qed.

Lemma rounds_extends n i st :
  messages st `prefix_of` messages (snd (rounds n i st)).
Proof.
  revert i st. induction n as [|n IH]; intros i st; [reflexivity|].
  cbn [Driver.rounds]. pose proof (round_extends i st) as H.
  destruct (round i st) as [[out|] st']; cbn [fst snd] in *; [exact H|].
  etransitivity; [exact H|apply IH].
Qed.

(** The state the driver starts from. *)
Lemma initial_invariant enhanced_system_prompt user_question :
  let st := mkConversation
              [mkMessage SYSTEM enhanced_system_prompt;
               mkMessage USER user_question] [] [] [] [] in
  invariant run_tool st /\ running 1 st.
Proof.
  cbv zeta. split.
  - constructor; cbn [tool_calls_made conversation_rounds model_requests
                      messages List.map List.filter length seq];
      try reflexivity; constructor.
  - constructor; cbn [conversation_rounds model_requests messages length];
      try reflexivity; constructor.
Qed.

(** The whole run. *)
Lemma run_inv enhanced_system_prompt user_question max_rounds :
  let result := Driver.run json_loads_object chat_create run_tool
                           enhanced_system_prompt user_question max_rounds in
  let out := fst result in
  let st := snd result in
  invariant run_tool st
  /\ [mkMessage SYSTEM enhanced_system_prompt; mkMessage USER user_question]
     `prefix_of` messages st
  /\ out_conversation_rounds out = conversation_rounds st
  /\ tool_calls out = tool_calls_made st
  /\ (answered out
      /\ length (model_requests st) = length (out_conversation_rounds out)
      /\ (1 <= length (out_conversation_rounds out) <= Z.to_nat max_rounds)%nat
      \/ transport_failed out
         /\ length (model_requests st) = S (length (out_conversation_rounds out))
         /\ (length (out_conversation_rounds out) < Z.to_nat max_rounds)%nat
      \/ out_of_budget max_rounds out
         /\ length (model_requests st) = length (out_conversation_rounds out)).
Proof.
  cbv zeta. unfold Driver.run.
  pose proof (initial_invariant enhanced_system_prompt user_question)
    as [Hinv Hrun]. cbv zeta in Hinv, Hrun.
  pose proof (rounds_inv (Z.to_nat max_rounds) 1 _ Hinv Hrun) as [Hinv' Hend].
  pose proof (rounds_extends (Z.to_nat max_rounds) 1
                (mkConversation
                   [mkMessage SYSTEM enhanced_system_prompt;
                    mkMessage USER user_question] [] [] [] [])) as Hpre.
  cbn [messages] in Hpre.
  destruct (rounds (Z.to_nat max_rounds) 1 _) as [[out|] st] eqn:Erun;
    cbn [fst snd] in *.
  - split; [exact Hinv'|]. split; [exact Hpre|].
    destruct Hend as (Hr & Ht & Hend).
    split; [exact Hr|]. split; [exact Ht|].
    destruct Hend as [(Ha & Hq & Hn) | (Hf & Hq & Hn)].
    + left. split; [assumption|]. split; [assumption|]. lia.
    + right. left. split; [assumption|]. split; [assumption|]. lia.
  - split; [exact Hinv'|]. split; [exact Hpre|].
    split; [reflexivity|]. split; [reflexivity|].
    right. right. destruct Hend as [Hidx Hreqs Hmsgs Hnofinal].
    split; [|exact Hreqs]. unfold out_of_budget.
    cbn [success out_error out_final_answer complete_reasoning_log
         out_all_reasoning out_conversation_rounds].
    repeat (split; [reflexivity|]). split; [exact Hnofinal|]. lia.
Qed.
End Facts.

End DriverLoop.

(** ** The exits of the driver *)

Module ExitFacts.
Import Driver DriverExits ExitSpec LoopInvariant.

Lemma corrective_feedback_restates errors :
  restates_formats errors (corrective_feedback errors).
Proof.
  unfold restates_formats, corrective_feedback. cbv zeta.
  exists (NL ++ NL ++ Py.utf8 "请严格按照以下格式输出：" ++ NL
          ++ Py.utf8 "1. 如需调用工具，使用格式：" ++ NL),
         (NL ++ Py.utf8 "{ 仅填写本轮需要的参数 }" ++ NL ++ NL
          ++ Py.utf8 "2. 如给出最终答案，使用格式：" ++ NL),
         (NL ++ Py.utf8 "具体答案内容").
  replace (Py.utf8 "输出格式有误：") with FORMAT_WRONG
    by (vm_compute; reflexivity).
  replace (Py.utf8 "; ") with SEMICOLON by (vm_compute; reflexivity).
  replace (Py.utf8 "TOOL_CALL:") with TOOL_CALL_MARK
    by (vm_compute; reflexivity).
  replace (Py.utf8 "FINAL_ANSWER:") with FINAL_ANSWER_MARK
    by (vm_compute; reflexivity).
  now rewrite <- !app_assoc.
Qed.

Section Facts.
Variable json_loads_object : Py.str -> guarded jdict.
Variable chat_create : list message -> guarded (Py.str * Py.str).
Variable run_tool : jdict -> guarded Py.str.

Local Abbreviation parse := (DriverExits._parse_reasoner_output json_loads_object).
Local Abbreviation round :=
  (DriverExits.round json_loads_object chat_create run_tool).
Local Abbreviation rounds :=
  (DriverExits.rounds json_loads_object chat_create run_tool).
Local Abbreviation raises :=
  (raises_in_round json_loads_object chat_create run_tool).
Local Abbreviation json_loads_object' := (fun text => catching (json_loads_object text)).
Local Abbreviation chat_create' := (fun history => catching (chat_create history)).
Local Abbreviation run_tool' := (fun call => catching (run_tool call)).
Local Abbreviation parse' := (Driver._parse_reasoner_output json_loads_object').
Local Abbreviation round' :=
  (Driver.round json_loads_object' chat_create' run_tool').
Local Abbreviation rounds' :=
  (Driver.rounds json_loads_object' chat_create' run_tool').

(** The parser raises exactly when the decoder lets an exception
    through on the first action block; otherwise it returns what the
    parser of [Driver] returns. *)
Lemma parse_sim reply reasoning :
  match parse reply reasoning with
  | Returned p => parse' reply reasoning = p
  | Raised exc =>
    exists group, search_tool_call reply = Some group
                  /\ json_loads_object group = Uncaught exc
  end.
Proof.
  unfold DriverExits._parse_reasoner_output, Driver._parse_reasoner_output.
  destruct (search_tool_call reply) as [group|].
  - destruct (json_loads_object group) as [call|e|exc] eqn:Ej;
      cbn [catching].
    + destruct (List.filter (is_missing call) required_params); reflexivity.
    + reflexivity.
    + now exists group.
  - destruct (search_final_answer reply) as [group|]; [|reflexivity].
    cbv zeta. destruct (Py.falsy (Py.strip group)); reflexivity.
Qed.

Lemma parse_raised reply reasoning group exc :
  search_tool_call reply = Some group ->
  json_loads_object group = Uncaught exc ->
  parse reply reasoning = Raised exc.
Proof.
  intros Hs Hj. unfold DriverExits._parse_reasoner_output.
  now rewrite Hs, Hj.
Qed.

(** A round either does what the round of [Driver] does, or lets an
    exception through. *)
Lemma round_sim i st :
  round i st = (option_map Returned (fst (round' i st)), snd (round' i st))
  \/ exists exc, fst (round i st) = Some (Raised exc) /\ raises exc st.
Proof.
  unfold DriverExits.round, Driver.round, raises_in_round.
  cbn [messages conversation_rounds all_reasoning tool_calls_made
       model_requests].
  destruct (chat_create (messages st)) as [[reasoning reply]|e|exc] eqn:Ec;
    cbn [catching].
  - pose proof (parse_sim reply reasoning) as Hp.
    destruct (parse reply reasoning) as [p|exc] eqn:Ep.
    + rewrite Hp.
      destruct (p_type p) as [call|answer| |] eqn:Et.
      * destruct (run_tool call) as [response|e|exc] eqn:Er; cbn [catching].
        -- left. reflexivity.
        -- left. reflexivity.
        -- right. exists exc. split; [reflexivity|].
           right. exists reasoning, reply. split; [reflexivity|].
           right. exists p, call. now split.
      * left. reflexivity.
      * left. reflexivity.
      * left. reflexivity.
    + right. exists exc. split; [reflexivity|].
      right. exists reasoning, reply. split; [reflexivity|]. now left.
  - left. reflexivity.
  - right. exists exc. split; [reflexivity|]. now left.
Qed.

(** What lets an exception through in a state makes the round raise. *)
Lemma round_raises i st exc :
  raises exc st -> fst (round i st) = Some (Raised exc).
Proof.
  unfold raises_in_round, DriverExits.round.
  cbn [messages conversation_rounds all_reasoning tool_calls_made
       model_requests].
  intros [Hc | (reasoning & reply & Hc & [(group & Hs & Hj)
                                         | (p & call & Hp & Ht & Hr)])];
    rewrite Hc.
  - reflexivity.
  - now rewrite (parse_raised reply reasoning group exc Hs Hj).
  - rewrite Hp, Ht, Hr. reflexivity.
Qed.

Lemma rounds_sim n i st :
  rounds n i st
  = (option_map Returned (fst (rounds' n i st)), snd (rounds' n i st))
  \/ exists exc k st_k,
       (k < n)%nat /\ rounds k i st = (None, st_k)
       /\ fst (rounds n i st) = Some (Raised exc) /\ raises exc st_k.
Proof.
  revert i st. induction n as [|n IH]; intros i st; [now left|].
  cbn [DriverExits.rounds Driver.rounds].
  destruct (round_sim i st) as [Hsim | (exc & Hexc & Hraise)].
  - rewrite Hsim.
    destruct (round' i st) as [[out|] st'] eqn:Eold; cbn [option_map fst snd].
    + now left.
    + destruct (IH (i + 1) st')
        as [Hrest | (exc & k & st_k & Hk & Hrun & Hexc & Hraise)].
      * now left.
      * right. exists exc, (S k), st_k.
        split; [lia|]. split; [|now split].
        cbn [DriverExits.rounds]. rewrite Hsim. exact Hrun.
  - right. exists exc, O, st. split; [lia|]. split; [reflexivity|].
    split; [|exact Hraise].
    destruct (round i st) as [[exit|] st']; cbn [fst] in *; congruence.
Qed.

(** Rounds that did not end the loop, followed by more. *)
Lemma rounds_app k m i st st_k :
  rounds k i st = (None, st_k) ->
  rounds (k + m) i st = rounds m (i + Z.of_nat k) st_k.
Proof.
  revert i st. induction k as [|k IH]; intros i st H.
  - cbn in H. injection H as <-. cbn [Nat.add].
    now replace (i + Z.of_nat 0) with i by lia.
  - cbn [Nat.add DriverExits.rounds] in *.
    destruct (round i st) as [[exit|] st']; [discriminate|].
    rewrite (IH (i + 1) st' H). f_equal. lia.
Qed.

Lemma run_sim enhanced_system_prompt user_question max_rounds :
  let result :=
    DriverExits.run json_loads_object chat_create run_tool
                    enhanced_system_prompt user_question max_rounds in
  let result' :=
    Driver.run json_loads_object' chat_create' run_tool'
               enhanced_system_prompt user_question max_rounds in
  result = (Returned (fst result'), snd result')
  \/ exists exc k st_k,
       (k < Z.to_nat max_rounds)%nat
       /\ rounds k 1 (opening enhanced_system_prompt user_question)
          = (None, st_k)
       /\ fst result = Raised exc /\ raises exc st_k.
Proof.
  cbv zeta. unfold DriverExits.run, Driver.run.
  change (mkConversation [mkMessage SYSTEM enhanced_system_prompt;
                          mkMessage USER user_question] [] [] [] [])
    with (opening enhanced_system_prompt user_question).
  destruct (rounds_sim (Z.to_nat max_rounds) 1
              (opening enhanced_system_prompt user_question))
    as [Hsim | (exc & k & st_k & Hk & Hrun & Hexc & Hraise)].
  - left. rewrite Hsim.
    destruct (rounds' (Z.to_nat max_rounds) 1 _) as [[out|] st'];
      reflexivity.
  - right. exists exc, k, st_k. split; [exact Hk|]. split; [exact Hrun|].
    split; [|exact Hraise].
    destruct (rounds (Z.to_nat max_rounds) 1 _) as [[exit|] st'];
      cbn [fst] in *; congruence.
Qed.

(** An exception that a state lets through after [k] rounds within the
    budget leaves the driver. *)
Lemma run_raises enhanced_system_prompt user_question max_rounds exc k st_k :
  (k < Z.to_nat max_rounds)%nat ->
  rounds k 1 (opening enhanced_system_prompt user_question) = (None, st_k) ->
  raises exc st_k ->
  fst (DriverExits.run json_loads_object chat_create run_tool
         enhanced_system_prompt user_question max_rounds)
  = Raised exc.
Proof.
  intros Hk Hrun Hraise. unfold DriverExits.run.
  replace (Z.to_nat max_rounds) with (k + S (Z.to_nat max_rounds - S k))%nat
    by lia.
  rewrite (rounds_app _ _ _ _ _ Hrun). cbn [DriverExits.rounds].
  pose proof (round_raises (1 + Z.of_nat k) st_k exc Hraise) as H.
  destruct (round (1 + Z.of_nat k) st_k) as [[exit|] st']; cbn [fst] in *;
    congruence.
Qed.
End Facts.

Section Named.
Variable json_loads_object : Py.str -> attempt jdict.
Variable chat_create : list message -> attempt (Py.str * Py.str).
Variable run_tool : jdict -> attempt Py.str.

(** Every recorded round that is malformed carries one error message. *)
Local Abbreviation named :=
  (Forall (fun rd => Spec.malformed (round_parsed_type rd) ->
                     exists msg, round_errors rd = [msg])).

Lemma round_named i st :
  named (conversation_rounds st) ->
  named (conversation_rounds
           (snd (Driver.round json_loads_object chat_create run_tool i st))).
Proof.
  intros H.
  pose proof (DriverLoop.round_cases json_loads_object chat_create run_tool
                i st) as Hcases.
  cbv zeta in Hcases.
  destruct Hcases as
    [_ [(e & _ & _ & _ & -> & _)
       | (reasoning & reply & rd & _ & _ & _ & Hty & Her & -> & _)]];
    [exact H|].
  apply Forall_app. split; [exact H|]. constructor; [|constructor].
  rewrite Hty, Her.
  pose proof (DriverMore.parse_dispositions json_loads_object reply reasoning)
    as Hd.
  intros [Hm | Hm]; rewrite Hm in Hd.
  - destruct Hd as (-> & _). now eexists.
  - exact Hd.
Qed.

Lemma rounds_named n i st :
  named (conversation_rounds st) ->
  named (conversation_rounds
           (snd (Driver.rounds json_loads_object chat_create run_tool n i st))).
Proof.
  revert i st. induction n as [|n IH]; intros i st H; [exact H|].
  cbn [Driver.rounds]. pose proof (round_named i st H) as Hr.
  destruct (Driver.round json_loads_object chat_create run_tool i st)
    as [[out|] st']; cbn [snd] in *; [exact Hr|]. now apply IH.
Qed.

Lemma run_named enhanced_system_prompt user_question max_rounds :
  named (out_conversation_rounds
           (fst (Driver.run json_loads_object chat_create run_tool
                   enhanced_system_prompt user_question max_rounds))).
Proof.
  destruct (DriverLoop.run_inv json_loads_object chat_create run_tool
              enhanced_system_prompt user_question max_rounds)
    as (_ & _ & -> & _).
  unfold Driver.run.
  match goal with
  | |- context [Driver.rounds _ _ _ ?n ?i ?s] =>
    pose proof (rounds_named n i s ltac:(constructor)) as H;
    destruct (Driver.rounds json_loads_object chat_create run_tool n i s)
      as [[out|] st']
  end; exact H.
Qed.
End Named.

End ExitFacts.

(** The driver on two models: one that answers at once, and one that
    asks for the catalog in every round of a budget of two while the tool
    is unavailable. *)
Example driver_samples :
  let answered :=
    Driver.run Sample.no_json Sample.answering_model Sample.no_tool
               (Py.utf8 "S") (Py.utf8 "Q") 3 in
  let refused :=
    Driver.run Sample.catalog_json Sample.action_model Sample.no_tool
               (Py.utf8 "S") (Py.utf8 "Q") 2 in
  (Driver.success (fst answered), Driver.total_rounds (fst answered),
   Driver.out_final_answer (fst answered),
   length (Driver.messages (snd answered)))
  = (true, 1, Py.utf8 "没有外部借款", 3%nat)
  /\ (Driver.success (fst refused), Driver.total_rounds (fst refused),
      List.map Driver.tc_success (Driver.tool_calls (fst refused)),
      List.map Driver.tc_round (Driver.tool_calls (fst refused)),
      List.map (@length Driver.message) (Driver.model_requests (snd refused)))
     = (false, 2, [false; false], [1; 2], [2%nat; 4%nat]).
Proof. split; vm_compute; reflexivity. Qed.

(** X19: whatever the model and the tool do, the list of tool calls the
    driver returns has one record per round that asked for an action, in
    the same order, with the number, the parameters and the success flag
    of that round; every recorded call carried both required parameters
    and says what the tool did with them; and a round has a tool outcome
    exactly when it asked for an action. *)
Theorem tool_records_match_action_rounds
    (json_loads_object : Py.str -> Driver.attempt Driver.jdict)
    (chat_create : list Driver.message -> Driver.attempt (Py.str * Py.str))
    (run_tool : Driver.jdict -> Driver.attempt Py.str)
    (enhanced_system_prompt user_question : Py.str) (max_rounds : Z) :
  let out :=
    Driver._chat_with_deepseek_reasoner json_loads_object chat_create run_tool
      enhanced_system_prompt user_question max_rounds in
  let action_rounds :=
    List.filter Spec.is_action (Driver.out_conversation_rounds out) in
  List.map Driver.tc_round (Driver.tool_calls out)
  = List.map Driver.round_number action_rounds
  /\ List.map (fun t => Driver.tool_call (Driver.tc_params t))
              (Driver.tool_calls out)
     = List.map Driver.round_parsed_type action_rounds
  /\ List.map (fun t => Some (Driver.tc_success t)) (Driver.tool_calls out)
     = List.map Driver.tool_success action_rounds
  /\ Forall (fun t => Forall (Spec.present (Driver.tc_params t))
                             Driver.required_params)
            (Driver.tool_calls out)
  /\ Forall (LoopInvariant.faithful_record run_tool) (Driver.tool_calls out)
  /\ Forall (fun rd => LoopInvariant.has_tool_outcome rd = Spec.is_action rd)
            (Driver.out_conversation_rounds out).
Proof.
  cbv zeta. unfold Driver._chat_with_deepseek_reasoner.
  pose proof (DriverLoop.run_inv json_loads_object chat_create run_tool
                enhanced_system_prompt user_question max_rounds) as H.
  cbv zeta in H. destruct H as (Hinv & _ & -> & -> & _).
  destruct Hinv. repeat (split; [assumption|]). assumption.
Qed.

(** X20: the driver ends in one of four ways. It returns an answer,
    which is not empty and has no white space at either end, in the round
    that gave it, the last of at most [max_rounds] and the only one with
    a final answer; or the call of the model raised an exception that is
    caught, and the result is a failure with an empty answer and no
    reasoning log, one request more than rounds and no final answer among
    them; or the rounds are used up, and the result is a failure with the
    sentinel answer; or an exception leaves the driver, in a round within
    the budget, because the model call or the reading of its result, the
    decoder on the first action block of the reply, or the tool raised
    one that the handler around it does not catch. Whenever a round within
    the budget is reached in which one of these lets an exception
    through, that exception leaves the driver. A tool whose exception is
    caught never ends the conversation. *)
Theorem driver_ends_in_one_of_four_ways
    (json_loads_object : Py.str -> DriverExits.guarded Driver.jdict)
    (chat_create :
       list Driver.message -> DriverExits.guarded (Py.str * Py.str))
    (run_tool : Driver.jdict -> DriverExits.guarded Py.str)
    (enhanced_system_prompt user_question : Py.str) (max_rounds : Z) :
  let result :=
    DriverExits.run json_loads_object chat_create run_tool
                    enhanced_system_prompt user_question max_rounds in
  let st := snd result in
  let reached := fun k st_k =>
    (k < Z.to_nat max_rounds)%nat
    /\ DriverExits.rounds json_loads_object chat_create run_tool k 1
         (DriverExits.opening enhanced_system_prompt user_question)
       = (None, st_k) in
  ((exists out,
      fst result = Driver.Returned out
      /\ let recorded := length (Driver.out_conversation_rounds out) in
         (LoopInvariant.answered out
          /\ length (Driver.model_requests st) = recorded
          /\ (1 <= recorded <= Z.to_nat max_rounds)%nat)
         \/ (LoopInvariant.transport_failed out
             /\ length (Driver.model_requests st) = S recorded
             /\ (recorded < Z.to_nat max_rounds)%nat)
         \/ (LoopInvariant.out_of_budget max_rounds out
             /\ length (Driver.model_requests st) = recorded))
   \/ (exists exc k st_k,
         fst result = Driver.Raised exc /\ reached k st_k
         /\ ExitSpec.raises_in_round json_loads_object chat_create run_tool
                                     exc st_k))
  /\ (forall exc k st_k,
        reached k st_k ->
        ExitSpec.raises_in_round json_loads_object chat_create run_tool
                                 exc st_k ->
        fst result = Driver.Raised exc).
Proof.
  cbv zeta. split.
  - destruct (ExitFacts.run_sim json_loads_object chat_create run_tool
                enhanced_system_prompt user_question max_rounds)
      as [Hsim | (exc & k & st_k & Hk & Hrun & Hexc & Hraise)].
    + left. rewrite Hsim. cbn [fst snd]. eexists. split; [reflexivity|].
      pose proof (DriverLoop.run_inv
                    (fun text => ExitSpec.catching (json_loads_object text))
                    (fun history => ExitSpec.catching (chat_create history))
                    (fun call => ExitSpec.catching (run_tool call))
                    enhanced_system_prompt user_question max_rounds) as H.
      cbv zeta in H. destruct H as (_ & _ & _ & _ & H). exact H.
    + right. exists exc, k, st_k. now repeat split.
  - intros exc k st_k [Hk Hrun] Hraise.
    now apply (ExitFacts.run_raises json_loads_object chat_create run_tool
                 enhanced_system_prompt user_question max_rounds exc k st_k).
Qed.




(** X21: the history only grows. It starts with the system prompt and
    the question; every history sent to the model is a prefix of the
    final one, the k-th of them (from 0) two messages longer than the
    one before, starting from two; and the assistant turns of the final
    history are the replies of the recorded rounds, in order: the
    reasoning text of the model is never put back into the history. *)
Theorem history_is_append_only
    (json_loads_object : Py.str -> Driver.attempt Driver.jdict)
    (chat_create : list Driver.message -> Driver.attempt (Py.str * Py.str))
    (run_tool : Driver.jdict -> Driver.attempt Py.str)
    (enhanced_system_prompt user_question : Py.str) (max_rounds : Z) :
  let result :=
    Driver.run json_loads_object chat_create run_tool
               enhanced_system_prompt user_question max_rounds in
  let out := fst result in
  let st := snd result in
  [Driver.mkMessage Driver.SYSTEM enhanced_system_prompt;
   Driver.mkMessage Driver.USER user_question]
  `prefix_of` Driver.messages st
  /\ Forall (fun history => history `prefix_of` Driver.messages st)
            (Driver.model_requests st)
  /\ List.map (@length Driver.message) (Driver.model_requests st)
     = List.map (fun k => 2 + 2 * k)%nat
                (seq 0 (length (Driver.model_requests st)))
  /\ Spec.assistant_turns (Driver.messages st)
     = List.map Driver.response_content (Driver.out_conversation_rounds out).
Proof.
  cbv zeta.
  pose proof (DriverLoop.run_inv json_loads_object chat_create run_tool
                enhanced_system_prompt user_question max_rounds) as H.
  cbv zeta in H. destruct H as (Hinv & Hpre & -> & _).
  destruct Hinv. repeat (split; [assumption|]). assumption.
Qed.

(** ** The retrieval pipeline *)

Module PipelineFacts.
Import ProspectusSearchTool ProspectusSearchPipeline PipelineSpec.

Lemma sorted_nonempty (l : list SearchResult) :
  l <> [] -> Py.sorted ChunkUtils.chunk_id_lt l <> [].
Proof.
  intros Hl E. apply Hl.
  pose proof (sorted_perm ChunkUtils.chunk_id_lt l) as P.
  rewrite E in P. now apply Permutation_nil in P.
Qed.

Lemma sorted_twice (l : list SearchResult) :
  Py.sorted ChunkUtils.chunk_id_lt (Py.sorted ChunkUtils.chunk_id_lt l)
  = Py.sorted ChunkUtils.chunk_id_lt l.
Proof.
  apply sorted_id, sorted_sorted;
    [apply chunk_id_lt_asym|apply chunk_id_before_trans].
Qed.

(** The entry of a list of chunks that is not empty. *)
Lemma build_entry_of chunks base order :
  chunks <> [] ->
  let entry := _build_expanded_entry chunks (Some base) order in
  entry_order entry = order
  /\ entry_of (Py.sorted ChunkUtils.chunk_id_lt chunks) base entry.
Proof.
  intros Hne. cbv zeta.
  pose proof (sorted_nonempty chunks Hne) as Hs.
  destruct chunks as [|x chunks]; [congruence|].
  unfold _build_expanded_entry. cbv beta iota zeta.
  set (S := Py.sorted ChunkUtils.chunk_id_lt (x :: chunks)) in *.
  destruct (PageUtils.get_page_range_from_chunks S) as [sp ep] eqn:Ep.
  unfold ChunkUtils.get_chunk_id_range_from_chunks.
  destruct (List.map chunk_id S) as [|i ids] eqn:Eids.
  { destruct S; [congruence|discriminate]. }
  cbv beta iota zeta. unfold entry_of.
  cbn [entry_order base_chunk_id base_page_num chunk_ids entry_text
       entry_start_page entry_end_page entry_start_chunk_id
       entry_end_chunk_id chunk_range option_map].
  split; [reflexivity|]. split; [reflexivity|]. split; [reflexivity|].
  split; [symmetry; exact Eids|]. split.
  - unfold ChunkUtils.merge_chunks_text. destruct S as [|y S'] eqn:ES.
    + congruence.
    + rewrite <- ES. subst S. now rewrite sorted_twice.
  - split; [symmetry; exact Ep|].
    exists (Py.min i ids), (Py.max i ids).
    split; [apply min_least|]. split; [apply max_greatest|].
    repeat split.
Qed.

(** The chunks an entry of [_prepare_expanded_results] is built from. *)
Lemma window_of_candidate all_chunks expand_before expand_after candidate :
  0 <= expand_before -> 0 <= expand_after ->
  let expanded_chunks :=
    ChunkUtils.expand_chunks [candidate] all_chunks expand_before expand_after in
  let expanded_chunks :=
    match expanded_chunks with
    | [] => [candidate]
    | _ => expanded_chunks
    end in
  expanded_chunks <> []
  /\ window_of all_chunks expand_before expand_after candidate
               (Py.sorted ChunkUtils.chunk_id_lt expanded_chunks).
Proof.
  intros Hb Ha. cbv zeta. unfold ChunkUtils.expand_chunks.
  cbn [List.map].
  assert (Hone : window_of all_chunks 0 0 candidate [candidate]
                 /\ forall b a, 0 <= b -> 0 <= a ->
                      (forall c, In c all_chunks ->
                         chunk_id candidate - b <= chunk_id c
                         <= chunk_id candidate + a -> False) ->
                      window_of all_chunks b a candidate [candidate]).
  { split.
    - split; [discriminate|]. split; [repeat constructor|].
      split; [|intros [H|H]; congruence].
      constructor; [|constructor]. split; [now left|lia].
    - intros b a Hb' Ha' Hnone.
      split; [discriminate|]. split; [repeat constructor|].
      split; [|intros _ c Hc Hw; destruct (Hnone c Hc Hw)].
      constructor; [|constructor]. split; [now left|lia]. }
  destruct Hone as [Hzero Hnone].
  destruct ((expand_before =? 0) && (expand_after =? 0)) eqn:E.
  - apply andb_true_iff in E. destruct E as [E1 E2].
    apply Z.eqb_eq in E1, E2. subst. split; [discriminate|exact Hzero].
  - unfold Py.min, Py.max. cbn [fold_left].
    set (inside := fun chunk : SearchResult =>
                     (chunk_id candidate - expand_before <=? chunk_id chunk)
                     && (chunk_id chunk <=? chunk_id candidate + expand_after)).
    assert (Hin : forall c, In c (List.filter inside all_chunks)
                            <-> In c all_chunks
                                /\ chunk_id candidate - expand_before
                                   <= chunk_id c
                                   <= chunk_id candidate + expand_after).
    { intros c. rewrite List.filter_In. unfold inside.
      rewrite andb_true_iff, !Z.leb_le. tauto. }
    destruct (Py.sorted ChunkUtils.chunk_id_lt (List.filter inside all_chunks))
      as [|y ys] eqn:Es.
    + split; [discriminate|]. apply Hnone; [assumption..|].
      intros c Hc Hw.
      assert (Hf : In c (List.filter inside all_chunks)) by now apply Hin.
      apply (sorted_In ChunkUtils.chunk_id_lt) in Hf. rewrite Es in Hf.
      destruct Hf.
    + split; [discriminate|]. rewrite <- Es, sorted_twice.
      split; [rewrite Es; discriminate|].
      split; [apply sorted_by_chunk_id|]. split.
      * apply List.Forall_forall. intros c Hc.
        apply (sorted_In ChunkUtils.chunk_id_lt), Hin in Hc.
        destruct Hc as [Hc Hw]. split; [now right|exact Hw].
      * intros _ c Hc Hw.
        apply (sorted_In ChunkUtils.chunk_id_lt), Hin. now split.
Qed.

Lemma prepare_from_spec order candidates all_chunks expand_before expand_after :
  0 <= expand_before -> 0 <= expand_after ->
  let entries :=
    prepare_from order candidates all_chunks expand_before expand_after in
  Forall2 (entry_around all_chunks expand_before expand_after)
          candidates entries
  /\ List.map entry_order entries
     = List.map (fun k => order + Z.of_nat k) (seq 0 (length candidates)).
Proof.
  intros Hb Ha. cbv zeta. revert order.
  induction candidates as [|candidate rest IH]; intros order.
  - split; [constructor|reflexivity].
  - cbn [prepare_from length seq List.map].
    destruct (IH (order + 1)) as [Hrest Horders].
    pose proof (window_of_candidate all_chunks expand_before expand_after
                  candidate Hb Ha) as [Hne Hwin].
    cbv zeta in Hne, Hwin.
    pose proof (build_entry_of _ candidate order Hne) as [Hord Hentry].
    cbv zeta in Hord, Hentry.
    split.
    + constructor; [|exact Hrest]. eexists. split; [exact Hwin|exact Hentry].
    + rewrite Hord, Horders, <- seq_shift, List.map_map.
      f_equal; [lia|]. apply List.map_ext. intros k. lia.
Qed.

End PipelineFacts.

(** X22: with margins that are not negative, [_prepare_expanded_results]
    returns one entry per candidate, numbered from 1 in the order of the
    candidates. The entry of a candidate names it as its base and
    describes a list of chunks that is not empty, is in ascending order
    of chunk_id, consists of the candidate or of chunks of the file, none
    further from the candidate than the margins, and, unless both margins
    are zero, has every chunk of the file that is that close: its text
    is their texts joined in that order, its chunk ids are theirs, its
    first and last chunk id are the smallest and the largest of them and
    its pages are their page range. *)
Theorem prepare_expanded_results_spec
    (candidate_results all_chunks : list SearchResult)
    (expand_before expand_after : Z) :
  0 <= expand_before -> 0 <= expand_after ->
  let entries :=
    ProspectusSearchPipeline._prepare_expanded_results
      candidate_results all_chunks expand_before expand_after in
  Forall2 (PipelineSpec.entry_around all_chunks expand_before expand_after)
          candidate_results entries
  /\ List.map ProspectusSearchPipeline.entry_order entries
     = List.map (fun k => 1 + Z.of_nat k) (seq 0 (length candidate_results)).
Proof.
  intros Hb Ha. apply PipelineFacts.prepare_from_spec; assumption.
Qed.

Lemma prepare_expanded_results_spec_witness :
  Forall2 (PipelineSpec.entry_around Sample.document 1 1)
          [Sample.c2; Sample.c5]
          (ProspectusSearchPipeline._prepare_expanded_results
             [Sample.c2; Sample.c5] Sample.document 1 1)
  /\ List.map ProspectusSearchPipeline.entry_order
              (ProspectusSearchPipeline._prepare_expanded_results
                 [Sample.c2; Sample.c5] Sample.document 1 1)
     = [1; 2].
Proof.
  apply (prepare_expanded_results_spec [Sample.c2; Sample.c5]
           Sample.document 1 1); lia.
Defined.

Module GeneralSearchFacts.
Import ProspectusSearchTool ProspectusSearchPipeline PipelineSpec.

Section Facts.
Variable intent_mode_map : list (Py.str * Py.str).
Variable _get_all_file_chunks : Py.str -> Py.str -> list SearchResult.
Variable keyword_search vector_search hybrid_search :
  Py.str -> Py.str -> Py.str -> option (option Z * option Z) -> Py.str
  -> option (list SearchResult).
Variable json_loads : Py.str -> Json.decoded.
Variable chat_completion : Py.str -> option Py.str.

Local Abbreviation search :=
  (_search_general_content intent_mode_map _get_all_file_chunks keyword_search
     vector_search hybrid_search json_loads chat_completion).
Local Abbreviation execute :=
  (_execute_search keyword_search vector_search hybrid_search).

Lemma prepare_nonempty candidates all_chunks expand_before expand_after :
  candidates <> [] ->
  _prepare_expanded_results candidates all_chunks expand_before expand_after
  <> [].
Proof.
  destruct candidates; [congruence|]. intros _.
  unfold _prepare_expanded_results. cbn [prepare_from]. discriminate.
Qed.

(** The paths through [_search_general_content]. *)
Lemma search_cases self fund_code source_file search_info
    start_page end_page start_chunk_id end_chunk_id
    expand_before expand_after :
  let intent := fst (_parse_search_intent search_info) in
  let normalized_query := snd (_parse_search_intent search_info) in
  let all_chunks := _get_all_file_chunks fund_code source_file in
  let range_chunks :=
    ChunkUtils.apply_range_limitations all_chunks start_page end_page
                                       start_chunk_id end_chunk_id in
  let range_given :=
    is_not_None start_page || is_not_None end_page
    || is_not_None start_chunk_id || is_not_None end_chunk_id in
  let found :=
    execute normalized_query fund_code source_file
            (_resolve_search_mode intent_mode_map intent)
            (if range_given
             then Some (ChunkUtils.get_chunk_id_range_from_chunks range_chunks)
             else None)
            intent in
  let candidates :=
    if truthy start_page || truthy end_page
       || truthy start_chunk_id || truthy end_chunk_id
    then ChunkUtils.apply_range_limitations found start_page end_page
                                            start_chunk_id end_chunk_id
    else found in
  let run :=
    search self fund_code source_file search_info start_page end_page
           start_chunk_id end_chunk_id expand_before expand_after in
  (all_chunks = []
   /\ run = (_create_error_result NO_FILE_CHUNKS intent, self))
  \/ (all_chunks <> [] /\ range_given = true /\ range_chunks = []
      /\ run = (_create_error_result NOTHING_IN_RANGE intent, self))
  \/ (all_chunks <> [] /\ (range_given = false \/ range_chunks <> [])
      /\ ((Py.falsy (Py.strip normalized_query) = true
           /\ run = (_get_range_content all_chunks start_page end_page
                       start_chunk_id end_chunk_id source_file, self))
          \/ (Py.falsy (Py.strip normalized_query) = false
              /\ ((found = []
                   /\ run = (_create_error_result NOTHING_FOUND intent, self))
                  \/ (found <> [] /\ candidates = []
                      /\ run = (_create_error_result NOTHING_LEFT intent, self))
                  \/ (candidates <> [] /\ intent <> TITLE
                      /\ run = (_create_content_success_result source_file
                                  (_prepare_expanded_results candidates
                                     all_chunks expand_before expand_after),
                                self))
                  \/ (candidates <> [] /\ intent = TITLE
                      /\ let selection :=
                           ChunkSelector.select_best_chunk json_loads
                             chat_completion search_info candidates all_chunks
                             true intent self in
                         snd run = snd selection
                         /\ match fst selection with
                            | Some best_chunk =>
                              fst run
                              = _create_title_success_result source_file
                                  (_prepare_expanded_results [best_chunk]
                                     all_chunks expand_before expand_after)
                            | None =>
                              fst run
                              = _create_error_result TITLE_NOT_FOUND intent
                            end))))).
Proof.
  cbv zeta. unfold _search_general_content.
  destruct (_parse_search_intent search_info) as [intent query].
  cbn [fst snd].
  destruct (_get_all_file_chunks fund_code source_file) as [|chunk0 chunks] eqn:Eall;
    [left; now split|].
  right.
  set (all_chunks := chunk0 :: chunks) in *.
  set (range_given := is_not_None start_page || is_not_None end_page
                      || is_not_None start_chunk_id || is_not_None end_chunk_id).
  set (range_chunks := ChunkUtils.apply_range_limitations all_chunks start_page
                         end_page start_chunk_id end_chunk_id).
  assert (Hall : all_chunks <> []) by discriminate.
  assert (Hpath :
    (range_given = true /\ range_chunks = [])
    \/ ((range_given = false \/ range_chunks <> [])
        /\ forall A (x y : A),
             match range_given, range_chunks with
             | true, [] => x
             | _, _ => y
             end = y)).
  { destruct range_given; destruct range_chunks; try (now left);
      right; (split; [|reflexivity]);
      try (now left); right; discriminate. }
  destruct Hpath as [[Hg Hr] | [Hok Hgo]].
  { left. rewrite Hg, Hr. repeat split; try assumption; reflexivity. }
  right. split; [exact Hall|]. split; [exact Hok|]. rewrite Hgo. clear Hgo.
  destruct (Py.falsy (Py.strip query)) eqn:Eblank; [left; now split|].
  right. split; [reflexivity|].
  set (found := execute query fund_code source_file _ _ intent).
  destruct found as [|f0 fs] eqn:Efound; [left; now split|].
  right. rewrite <- Efound.
  set (candidates := if truthy start_page || truthy end_page
                        || truthy start_chunk_id || truthy end_chunk_id
                     then _ else _).
  destruct candidates as [|c0 cs] eqn:Ecands.
  { left. split; [rewrite Efound; discriminate|]. now split. }
  right. rewrite <- Ecands.
  assert (Hc : candidates <> []) by (rewrite Ecands; discriminate).
  destruct (decide (intent = TITLE)) as [Htitle|Hother].
  - right. split; [exact Hc|]. split; [exact Htitle|].
    destruct (ChunkSelector.select_best_chunk json_loads chat_completion
                search_info candidates all_chunks true intent self)
      as [[best|] self'] eqn:Esel; cbn [fst snd].
    + pose proof (prepare_nonempty [best] all_chunks expand_before
                    expand_after ltac:(discriminate)) as Hne.
      destruct (_prepare_expanded_results [best] all_chunks expand_before
                  expand_after) eqn:Ep; [congruence|].
      now split.
    + split; [reflexivity|].
      pose proof (select_best_chunk_cases json_loads chat_completion
                    search_info candidates all_chunks true intent self)
        as (_ & Hnone & _).
      cbv zeta in Hnone. rewrite Esel in Hnone. cbn [fst snd] in Hnone.
      destruct (Hnone eq_refl) as [Hempty | [_ Hnote]]; [congruence|].
      rewrite Hnote. reflexivity.
  - left. split; [exact Hc|]. split; [exact Hother|].
    pose proof (prepare_nonempty candidates all_chunks expand_before
                  expand_after Hc) as Hne.
    destruct (_prepare_expanded_results candidates all_chunks expand_before
                expand_after) eqn:Ep; [congruence|].
    reflexivity.
Qed.
Lemma messages_distinct :
  NO_FILE_CHUNKS <> NOTHING_EXPANDED /\ NOTHING_IN_RANGE <> NOTHING_EXPANDED
  /\ NOTHING_FOUND <> NOTHING_EXPANDED /\ NOTHING_LEFT <> NOTHING_EXPANDED
  /\ TITLE_NOT_FOUND <> NOTHING_EXPANDED.
Proof. repeat split; discriminate. Qed.

Lemma error_result_facts message intent :
  succeeded (_create_error_result message intent) = false
  /\ error_of (_create_error_result message intent) = Some message
  /\ results_of (_create_error_result message intent) = []
  /\ (flat (_create_error_result message intent) = true <-> intent = TITLE).
Proof.
  unfold _create_error_result.
  destruct (decide (intent = TITLE)) as [H|H]; cbn; repeat split;
    try congruence; try discriminate.
Qed.

Lemma content_success_facts source_file entry entries :
  _create_content_success_result source_file (entry :: entries)
  = Listed true (Some source_file) None
           (Z.of_nat (length (entry :: entries)))
           (Some (Py.utf8 "共检索到 "
                  ++ Py.of_int (Z.of_nat (length (entry :: entries)))
                  ++ Py.utf8 " 个文本信息"))
           (List.map format_entry (entry :: entries)).
Proof.
  unfold _create_content_success_result. cbv zeta.
  rewrite length_map.
  destruct (Z.of_nat (length (entry :: entries)) =? 0) eqn:E; [|reflexivity].
  apply Z.eqb_eq in E. cbn [length] in E. lia.
Qed.

(** The first entry of a list of candidates that is not empty. *)
Lemma prepare_head candidate rest all_chunks expand_before expand_after :
  exists chunks entry entries,
    _prepare_expanded_results (candidate :: rest) all_chunks
                              expand_before expand_after
    = entry :: entries
    /\ length entries = length rest
    /\ entry_of chunks candidate entry.
Proof.
  unfold _prepare_expanded_results. cbn [prepare_from].
  set (expanded := ChunkUtils.expand_chunks [candidate] all_chunks
                     expand_before expand_after).
  set (chunks := match expanded with [] => [candidate] | _ => expanded end).
  assert (Hne : chunks <> []) by (subst chunks; now destruct expanded).
  destruct (PipelineFacts.build_entry_of chunks candidate 1 Hne) as [_ He].
  cbv zeta in He.
  eexists; eexists; eexists. split; [reflexivity|]. split; [|exact He].
  generalize (1 + 1). induction rest as [|c rest IH]; intros order;
    [reflexivity|].
  cbn [prepare_from length]. now rewrite IH.
Qed.

Lemma range_content_flat all_chunks start_page end_page start_chunk_id
    end_chunk_id source_file :
  flat (_get_range_content all_chunks start_page end_page start_chunk_id
                           end_chunk_id source_file) = false.
Proof.
  unfold _get_range_content.
  destruct (ChunkUtils.apply_range_limitations _ _ _ _ _); reflexivity.
Qed.
End Facts.

End GeneralSearchFacts.

(** X23: the shape of the response of [_search_general_content] follows
    the intent of the query, with one exception. A query that is not a
    title query is always answered with the list-shaped dictionary, a
    title query with a title to look for always with the flat one; but a
    title query that names no title is answered with the list-shaped
    dictionary as soon as the file has chunks and the range, if one is
    given, is not empty: the text of the range comes back as content. *)
Theorem general_search_shape
    (intent_mode_map : list (Py.str * Py.str))
    (_get_all_file_chunks : Py.str -> Py.str -> list SearchResult)
    (keyword_search vector_search hybrid_search :
       Py.str -> Py.str -> Py.str -> option (option Z * option Z) -> Py.str
       -> option (list SearchResult))
    (json_loads : Py.str -> Json.decoded)
    (chat_completion : Py.str -> option Py.str)
    (self : ChunkSelector.selector)
    (fund_code source_file search_info : Py.str)
    (start_page end_page start_chunk_id end_chunk_id : option Z)
    (expand_before expand_after : Z) :
  let intent := fst (ProspectusSearchTool._parse_search_intent search_info) in
  let query := snd (ProspectusSearchTool._parse_search_intent search_info) in
  let all_chunks := _get_all_file_chunks fund_code source_file in
  let range_given :=
    is_not_None start_page || is_not_None end_page
    || is_not_None start_chunk_id || is_not_None end_chunk_id in
  let r :=
    fst (ProspectusSearchPipeline._search_general_content intent_mode_map
           _get_all_file_chunks keyword_search vector_search hybrid_search
           json_loads chat_completion self fund_code source_file search_info
           start_page end_page start_chunk_id end_chunk_id
           expand_before expand_after) in
  (intent <> ProspectusSearchTool.TITLE -> PipelineSpec.flat r = false)
  /\ (intent = ProspectusSearchTool.TITLE ->
      Py.falsy (Py.strip query) = false -> PipelineSpec.flat r = true)
  /\ (intent = ProspectusSearchTool.TITLE ->
      Py.falsy (Py.strip query) = true ->
      all_chunks <> [] ->
      range_given = false
      \/ ChunkUtils.apply_range_limitations all_chunks start_page end_page
                                            start_chunk_id end_chunk_id <> [] ->
      PipelineSpec.flat r = false).
Proof.
  cbv zeta.
  pose proof (GeneralSearchFacts.search_cases intent_mode_map
                _get_all_file_chunks keyword_search vector_search hybrid_search
                json_loads chat_completion self fund_code source_file
                search_info start_page end_page start_chunk_id end_chunk_id
                expand_before expand_after) as H.
  cbv zeta in H.
  set (intent := fst (ProspectusSearchTool._parse_search_intent search_info)) in *.
  set (run := ProspectusSearchPipeline._search_general_content _ _ _ _ _ _ _ _
                _ _ _ _ _ _ _ _ _) in *.
  assert (Herr : forall message,
             (PipelineSpec.flat
                (ProspectusSearchTool._create_error_result message intent)
              = true <-> intent = ProspectusSearchTool.TITLE))
    by (intros message; apply GeneralSearchFacts.error_result_facts).
  assert (Hflat : forall message,
             intent = ProspectusSearchTool.TITLE ->
             PipelineSpec.flat
               (ProspectusSearchTool._create_error_result message intent)
             = true)
    by (intros message Ht; now apply Herr).
  assert (Hlist : forall message,
             intent <> ProspectusSearchTool.TITLE ->
             PipelineSpec.flat
               (ProspectusSearchTool._create_error_result message intent)
             = false).
  { intros message Hn.
    destruct (PipelineSpec.flat _) eqn:E; [|reflexivity].
    apply Herr in E. contradiction. }
  destruct H as [(Hall & ->)
    | [(Hall & Hg & Hr & ->)
    | (Hall & Hok & [(Hblank & ->)
    | (Hblank & [(Hfound & ->)
    | [(Hfound & Hcands & ->)
    | [(Hcands & Hintent & ->)
    | (Hcands & Hintent & Hsel & Hres)]]])])]]; cbn [fst].
  all: try rewrite GeneralSearchFacts.range_content_flat.
  1-5: repeat split; intros; auto; try congruence; try contradiction;
       match goal with
       | H : _ \/ _ |- _ => destruct H; congruence
       end.
  - destruct (ProspectusSearchPipeline._prepare_expanded_results _ _ _ _)
      eqn:Ep.
    + exfalso. revert Ep. now apply GeneralSearchFacts.prepare_nonempty.
    + rewrite GeneralSearchFacts.content_success_facts. cbn [PipelineSpec.flat].
      repeat split; intros; congruence.
  - cbv zeta in Hres.
    destruct (fst (ChunkSelector.select_best_chunk _ _ _ _ _ _ _ _))
      as [best|]; rewrite Hres.
    + destruct (GeneralSearchFacts.prepare_head best [] (_get_all_file_chunks
                  fund_code source_file) expand_before expand_after)
        as (chunks & entry & entries & -> & _).
      cbn [ProspectusSearchPipeline._create_title_success_result
           PipelineSpec.flat].
      repeat split; intros; congruence.
    + repeat split; intros; auto; congruence.
Qed.

Lemma general_search_shape_witness :
  let search_info := Sample.bare_title_query in
  fst (ProspectusSearchTool._parse_search_intent search_info)
  = ProspectusSearchTool.TITLE
  /\ PipelineSpec.flat
       (fst (ProspectusSearchPipeline._search_general_content
               ProspectusSearchPipeline.DEFAULT_INTENT_MODE_MAP
               Sample.file_chunks (Sample.searcher []) (Sample.searcher [])
               (Sample.searcher []) Sample.decode_choice (Sample.always None)
               (ChunkSelector.init) (Py.utf8 "180101.SZ")
               (Py.utf8 "prospectus.pdf") search_info None None None None 0 0))
     = false.
Proof.
  cbv zeta. split; [vm_compute; reflexivity|].
  apply (general_search_shape
           ProspectusSearchPipeline.DEFAULT_INTENT_MODE_MAP
           Sample.file_chunks (Sample.searcher []) (Sample.searcher [])
           (Sample.searcher []) Sample.decode_choice (Sample.always None)
           ChunkSelector.init (Py.utf8 "180101.SZ") (Py.utf8 "prospectus.pdf")
           Sample.bare_title_query None None None None 0 0).
  - vm_compute; reflexivity.
  - vm_compute; reflexivity.
  - vm_compute; discriminate.
  - left; reflexivity.
Defined.

(** X24: every failure of [_search_general_content] carries one of five
    messages, and the message for a title that was not found only comes
    with a title query; every success has content: the list-shaped one
    names the file, counts at least one result and as many as it lists,
    the flat one names the file and has a text and both chunk extents.
    The message for an empty expansion is never returned. *)
Theorem general_search_outcomes
    (intent_mode_map : list (Py.str * Py.str))
    (_get_all_file_chunks : Py.str -> Py.str -> list SearchResult)
    (keyword_search vector_search hybrid_search :
       Py.str -> Py.str -> Py.str -> option (option Z * option Z) -> Py.str
       -> option (list SearchResult))
    (json_loads : Py.str -> Json.decoded)
    (chat_completion : Py.str -> option Py.str)
    (self : ChunkSelector.selector)
    (fund_code source_file search_info : Py.str)
    (start_page end_page start_chunk_id end_chunk_id : option Z)
    (expand_before expand_after : Z) :
  let intent := fst (ProspectusSearchTool._parse_search_intent search_info) in
  let r :=
    fst (ProspectusSearchPipeline._search_general_content intent_mode_map
           _get_all_file_chunks keyword_search vector_search hybrid_search
           json_loads chat_completion self fund_code source_file search_info
           start_page end_page start_chunk_id end_chunk_id
           expand_before expand_after) in
  PipelineSpec.error_of r <> Some ProspectusSearchPipeline.NOTHING_EXPANDED
  /\ ((PipelineSpec.succeeded r = false
       /\ PipelineSpec.results_of r = []
       /\ (PipelineSpec.error_of r
           = Some ProspectusSearchPipeline.NO_FILE_CHUNKS
           \/ PipelineSpec.error_of r
              = Some ProspectusSearchPipeline.NOTHING_IN_RANGE
           \/ PipelineSpec.error_of r
              = Some ProspectusSearchPipeline.NOTHING_FOUND
           \/ PipelineSpec.error_of r
              = Some ProspectusSearchPipeline.NOTHING_LEFT
           \/ (PipelineSpec.error_of r
               = Some ProspectusSearchPipeline.TITLE_NOT_FOUND
               /\ intent = ProspectusSearchTool.TITLE)))
      \/ (PipelineSpec.succeeded r = true
          /\ PipelineSpec.error_of r = None
          /\ match r with
             | ProspectusSearchTool.Listed _ file _ count summary results =>
               file = Some source_file
               /\ count = Z.of_nat (length results) /\ 1 <= count
               /\ summary = Some (Py.utf8 "共检索到 " ++ Py.of_int count
                                  ++ Py.utf8 " 个文本信息")
             | ProspectusSearchTool.Flat _ file content _ _ lo hi _ =>
               file = Some source_file
               /\ content <> None /\ lo <> None /\ hi <> None
             end)).
Proof.
  cbv zeta.
  pose proof (GeneralSearchFacts.search_cases intent_mode_map
                _get_all_file_chunks keyword_search vector_search hybrid_search
                json_loads chat_completion self fund_code source_file
                search_info start_page end_page start_chunk_id end_chunk_id
                expand_before expand_after) as H.
  cbv zeta in H.
  set (intent := fst (ProspectusSearchTool._parse_search_intent search_info)) in *.
  set (run := ProspectusSearchPipeline._search_general_content _ _ _ _ _ _ _ _
                _ _ _ _ _ _ _ _ _) in *.
  assert (Herr : forall message intent',
             message <> ProspectusSearchPipeline.NOTHING_EXPANDED ->
             fst run = ProspectusSearchTool._create_error_result message intent' ->
             PipelineSpec.error_of (fst run)
             <> Some ProspectusSearchPipeline.NOTHING_EXPANDED
             /\ PipelineSpec.succeeded (fst run) = false
             /\ PipelineSpec.results_of (fst run) = []
             /\ PipelineSpec.error_of (fst run) = Some message).
  { intros message intent' Hm ->.
    destruct (GeneralSearchFacts.error_result_facts message intent')
      as (Hs & He & Hr & _).
    rewrite He. repeat split; try assumption. congruence. }
  assert (Hcontent : forall entries,
             entries <> [] ->
             fst run = ProspectusSearchPipeline._create_content_success_result
                         source_file entries ->
             PipelineSpec.error_of (fst run)
             <> Some ProspectusSearchPipeline.NOTHING_EXPANDED
             /\ PipelineSpec.succeeded (fst run) = true
             /\ PipelineSpec.error_of (fst run) = None
             /\ match fst run with
                | ProspectusSearchTool.Listed _ file _ count summary results =>
                  file = Some source_file
                  /\ count = Z.of_nat (length results) /\ 1 <= count
                  /\ summary = Some (Py.utf8 "共检索到 " ++ Py.of_int count
                                     ++ Py.utf8 " 个文本信息")
                | ProspectusSearchTool.Flat _ file content _ _ lo hi _ =>
                  file = Some source_file
                  /\ content <> None /\ lo <> None /\ hi <> None
                end).
  { intros [|entry entries] Hne ->; [congruence|].
    rewrite GeneralSearchFacts.content_success_facts.
    cbn [PipelineSpec.error_of PipelineSpec.succeeded].
    split; [discriminate|]. split; [reflexivity|]. split; [reflexivity|].
    split; [reflexivity|]. split; [now rewrite length_map|].
    split; [cbn [length]; lia|reflexivity]. }
  destruct GeneralSearchFacts.messages_distinct as (D1 & D2 & D3 & D4 & D5).
  destruct H as [(Hall & Hrun)
    | [(Hall & Hg & Hr & Hrun)
    | (Hall & Hok & [(Hblank & Hrun)
    | (Hblank & [(Hfound & Hrun)
    | [(Hfound & Hcands & Hrun)
    | [(Hcands & Hintent & Hrun)
    | (Hcands & Hintent & Hsel & Hres)]]])])]];
    try (apply (f_equal fst) in Hrun; cbn [fst] in Hrun).
  - destruct (Herr ProspectusSearchPipeline.NO_FILE_CHUNKS _
                  ltac:(assumption) Hrun) as (H1 & H2 & H3 & H4).
    split; [exact H1|]. left. tauto.
  - destruct (Herr ProspectusSearchPipeline.NOTHING_IN_RANGE _
                  ltac:(assumption) Hrun) as (H1 & H2 & H3 & H4).
    split; [exact H1|]. left. tauto.
  - unfold ProspectusSearchPipeline._get_range_content in Hrun.
    destruct (ChunkUtils.apply_range_limitations _ _ _ _ _) as [|first rest].
    + destruct (Herr ProspectusSearchPipeline.NOTHING_IN_RANGE _
                  ltac:(assumption) Hrun)
        as (H1 & H2 & H3 & H4).
      split; [exact H1|]. left. tauto.
    + pose proof (fun nonempty => Hcontent _ nonempty Hrun) as Hc.
      destruct (Hc ltac:(discriminate)) as (H1 & H2).
      split; [exact H1|]. right. exact H2.
  - destruct (Herr ProspectusSearchPipeline.NOTHING_FOUND _
                  ltac:(assumption) Hrun) as (H1 & H2 & H3 & H4).
    split; [exact H1|]. left. tauto.
  - destruct (Herr ProspectusSearchPipeline.NOTHING_LEFT _
                  ltac:(assumption) Hrun) as (H1 & H2 & H3 & H4).
    split; [exact H1|]. left. tauto.
  - destruct (Hcontent _ (GeneralSearchFacts.prepare_nonempty _ _ _ _ Hcands)
                Hrun) as (H1 & H2).
    split; [exact H1|]. right. exact H2.
  - cbv zeta in Hres.
    destruct (fst (ChunkSelector.select_best_chunk _ _ _ _ _ _ _ _))
      as [best|].
    + destruct (GeneralSearchFacts.prepare_head best [] (_get_all_file_chunks
                  fund_code source_file) expand_before expand_after)
        as (chunks & entry & entries & Hp & _ & Hentry).
      rewrite Hp in Hres. rewrite Hres.
      destruct Hentry as (_ & _ & _ & _ & _ & lo & hi & _ & _ & Hlo & Hhi & _).
      cbn [ProspectusSearchPipeline._create_title_success_result
           PipelineSpec.error_of PipelineSpec.succeeded].
      rewrite Hlo, Hhi.
      split; [discriminate|]. right. repeat split; discriminate.
    + destruct (Herr ProspectusSearchPipeline.TITLE_NOT_FOUND _
                  ltac:(assumption) Hres)
        as (H1 & H2 & H3 & H4).
      split; [exact H1|]. left. tauto.
Qed.

(** X25: what a successful content search returns. With margins that are
    not negative, for a query that is not a title query and is not blank,
    the results are the formatted entries, one per candidate and in their
    order, each built around its candidate from chunks no further away
    than the margins. The candidates are what the searcher of the
    resolved mode returned: all of it when no range bound is a number
    other than zero, otherwise those that pass the range filter, in the
    order of the searcher. *)
Theorem general_search_content_results
    (intent_mode_map : list (Py.str * Py.str))
    (_get_all_file_chunks : Py.str -> Py.str -> list SearchResult)
    (keyword_search vector_search hybrid_search :
       Py.str -> Py.str -> Py.str -> option (option Z * option Z) -> Py.str
       -> option (list SearchResult))
    (json_loads : Py.str -> Json.decoded)
    (chat_completion : Py.str -> option Py.str)
    (self : ChunkSelector.selector)
    (fund_code source_file search_info : Py.str)
    (start_page end_page start_chunk_id end_chunk_id : option Z)
    (expand_before expand_after : Z) :
  0 <= expand_before -> 0 <= expand_after ->
  let intent := fst (ProspectusSearchTool._parse_search_intent search_info) in
  let query := snd (ProspectusSearchTool._parse_search_intent search_info) in
  let all_chunks := _get_all_file_chunks fund_code source_file in
  let rechecked :=
    ProspectusSearchPipeline.truthy start_page
    || ProspectusSearchPipeline.truthy end_page
    || ProspectusSearchPipeline.truthy start_chunk_id
    || ProspectusSearchPipeline.truthy end_chunk_id in
  let r :=
    fst (ProspectusSearchPipeline._search_general_content intent_mode_map
           _get_all_file_chunks keyword_search vector_search hybrid_search
           json_loads chat_completion self fund_code source_file search_info
           start_page end_page start_chunk_id end_chunk_id
           expand_before expand_after) in
  intent <> ProspectusSearchTool.TITLE ->
  Py.falsy (Py.strip query) = false ->
  PipelineSpec.succeeded r = true ->
  exists limits candidates entries,
    let found :=
      ProspectusSearchPipeline._execute_search keyword_search vector_search
        hybrid_search query fund_code source_file
        (ProspectusSearchPipeline._resolve_search_mode intent_mode_map intent)
        limits intent in
    PipelineSpec.results_of r
    = List.map ProspectusSearchPipeline.format_entry entries
    /\ Forall2 (PipelineSpec.entry_around all_chunks expand_before expand_after)
               candidates entries
    /\ candidates <> []
    /\ sublist candidates found
    /\ (rechecked = false -> candidates = found)
    /\ (rechecked = true ->
        forall c, In c candidates
                  <-> In c found
                      /\ PipelineSpec.in_range start_page end_page
                                               start_chunk_id end_chunk_id c).
Proof.
  intros Hb Ha. cbv zeta. intros Hintent Hquery Hok.
  pose proof (GeneralSearchFacts.search_cases intent_mode_map
                _get_all_file_chunks keyword_search vector_search hybrid_search
                json_loads chat_completion self fund_code source_file
                search_info start_page end_page start_chunk_id end_chunk_id
                expand_before expand_after) as H.
  cbv zeta in H.
  set (intent := fst (ProspectusSearchTool._parse_search_intent search_info)) in *.
  set (run := ProspectusSearchPipeline._search_general_content _ _ _ _ _ _ _ _
                _ _ _ _ _ _ _ _ _) in *.
  assert (Herr : forall message,
             run = (ProspectusSearchTool._create_error_result message intent,
                    self) -> False).
  { intros message E. rewrite E in Hok. cbn [fst] in Hok.
    destruct (GeneralSearchFacts.error_result_facts message intent) as (Hs & _).
    congruence. }
  destruct H as [(Hall & Hrun)
    | [(Hall & Hg & Hr & Hrun)
    | (Hall & Hok' & [(Hblank & Hrun)
    | (Hblank & [(Hfound & Hrun)
    | [(Hfound & Hcands & Hrun)
    | [(Hcands & _ & Hrun)
    | (Hcands & Htitle & _)]]])])]];
    try (now destruct (Herr _ Hrun)); try congruence.
  rewrite Hrun. cbn [fst].
  match type of Hcands with
  | (if ?b then _ else _) <> [] => destruct b eqn:Erecheck
  end.
  - eexists; eexists; eexists. cbv zeta.
    split; [|split; [|split; [exact Hcands|split; [|split]]]].
    + pose proof (GeneralSearchFacts.prepare_nonempty _
                    (_get_all_file_chunks fund_code source_file)
                    expand_before expand_after Hcands) as Hne.
      destruct (ProspectusSearchPipeline._prepare_expanded_results _ _ _ _)
        as [|entry entries] eqn:Ep; [congruence|].
      rewrite GeneralSearchFacts.content_success_facts.
      cbn [PipelineSpec.results_of]. rewrite <- Ep. reflexivity.
    + apply PipelineFacts.prepare_from_spec; assumption.
    + rewrite apply_range_limitations_passes.
      etransitivity; apply filter_sublist.
    + discriminate.
    + intros _ c. unfold PipelineSpec.in_range.
      apply apply_range_limitations_In.
  - eexists; eexists; eexists. cbv zeta.
    split; [|split; [|split; [exact Hcands|split; [|split]]]].
    + pose proof (GeneralSearchFacts.prepare_nonempty _
                    (_get_all_file_chunks fund_code source_file)
                    expand_before expand_after Hcands) as Hne.
      destruct (ProspectusSearchPipeline._prepare_expanded_results _ _ _ _)
        as [|entry entries] eqn:Ep; [congruence|].
      rewrite GeneralSearchFacts.content_success_facts.
      cbn [PipelineSpec.results_of]. rewrite <- Ep. reflexivity.
    + apply PipelineFacts.prepare_from_spec; assumption.
    + reflexivity.
    + reflexivity.
    + discriminate.
Qed.

Lemma general_search_content_results_witness :
  let r :=
    fst (ProspectusSearchPipeline._search_general_content
           ProspectusSearchPipeline.DEFAULT_INTENT_MODE_MAP
           Sample.file_chunks (Sample.searcher []) (Sample.searcher [])
           (Sample.searcher [Sample.c4; Sample.c0]) Sample.decode_choice
           (Sample.always None) ChunkSelector.init (Py.utf8 "180101.SZ")
           (Py.utf8 "prospectus.pdf") Sample.content_query
           None None None (Some 0) 0 0) in
  exists entries,
    PipelineSpec.results_of r
    = List.map ProspectusSearchPipeline.format_entry entries
    /\ Forall2 (PipelineSpec.entry_around
                  (Sample.file_chunks (Py.utf8 "180101.SZ")
                                      (Py.utf8 "prospectus.pdf")) 0 0)
               [Sample.c4; Sample.c0] entries.
Proof.
  cbv zeta.
  destruct (general_search_content_results
              ProspectusSearchPipeline.DEFAULT_INTENT_MODE_MAP
              Sample.file_chunks (Sample.searcher []) (Sample.searcher [])
              (Sample.searcher [Sample.c4; Sample.c0]) Sample.decode_choice
              (Sample.always None) ChunkSelector.init (Py.utf8 "180101.SZ")
              (Py.utf8 "prospectus.pdf") Sample.content_query
              None None None (Some 0) 0 0)
    as (limits & candidates & entries & Hres & Haround & _ & _ & Hall & _);
    [lia | lia | vm_compute; discriminate | vm_compute; reflexivity
     | vm_compute; reflexivity |].
  exists entries. split; [exact Hres|].
  rewrite (Hall eq_refl) in Haround. exact Haround.
Defined.

(** X26: [_get_range_content] fails, with the list-shaped error, exactly
    when no chunk of the file passes the range filter. Otherwise it
    returns one result that describes all the chunks that pass, in
    ascending order of chunk_id, with the first of them in file order as
    base: its text is their texts joined, its chunk extents are the
    smallest and the largest of their ids, and every one of these ids is
    within the id bounds that were given. *)
Theorem get_range_content_spec (all_chunks : list SearchResult)
    (start_page end_page start_chunk_id end_chunk_id : option Z)
    (source_file : Py.str) :
  let range_chunks :=
    ChunkUtils.apply_range_limitations all_chunks start_page end_page
                                       start_chunk_id end_chunk_id in
  let r :=
    ProspectusSearchPipeline._get_range_content all_chunks start_page end_page
      start_chunk_id end_chunk_id source_file in
  match range_chunks with
  | [] =>
    r = ProspectusSearchTool.Listed false None
          (Some ProspectusSearchPipeline.NOTHING_IN_RANGE) 0 None []
  | first :: _ =>
    exists entry,
      r = ProspectusSearchTool.Listed true (Some source_file) None 1
            (Some (Py.utf8 "共检索到 1 个文本信息"))
            [ProspectusSearchPipeline.format_entry entry]
      /\ PipelineSpec.entry_of (Py.sorted ChunkUtils.chunk_id_lt range_chunks)
                               first entry
      /\ StronglySorted Z.le (ProspectusSearchPipeline.chunk_ids entry)
      /\ Forall (Spec.within start_chunk_id end_chunk_id)
                (ProspectusSearchPipeline.chunk_ids entry)
  end.
Proof.
  cbv zeta. unfold ProspectusSearchPipeline._get_range_content.
  destruct (ChunkUtils.apply_range_limitations all_chunks start_page end_page
              start_chunk_id end_chunk_id) as [|first rest] eqn:Er;
    [reflexivity|].
  destruct (PipelineFacts.build_entry_of (first :: rest) first 1
              ltac:(discriminate)) as [_ Hentry].
  cbv zeta in Hentry.
  eexists. split; [|split; [exact Hentry|]].
  - rewrite GeneralSearchFacts.content_success_facts. reflexivity.
  - destruct Hentry as (_ & _ & -> & _). split.
    + pose proof (sorted_by_chunk_id (first :: rest)) as Hs.
      induction Hs as [|c l Hs IH Hall]; [constructor|].
      cbn [List.map]. constructor; [exact IH|].
      apply List.Forall_forall. intros z Hz.
      apply List.in_map_iff in Hz. destruct Hz as (c' & <- & Hc').
      rewrite List.Forall_forall in Hall. now apply Hall.
    + apply List.Forall_forall. intros z Hz.
      apply List.in_map_iff in Hz. destruct Hz as (c & <- & Hc).
      apply (proj1 (sorted_In ChunkUtils.chunk_id_lt _ _)) in Hc.
      rewrite <- Er in Hc.
      apply (proj1 (apply_range_limitations_In _ _ _ _ _ _)) in Hc. apply Hc.
Qed.

(** X27: what a successful title search returns. With margins that are
    not negative, for a title query that names a title, the response is
    the flat dictionary filled from one entry, built around one of the
    candidates from chunks no further away than the margins; the
    candidate is one the keyword-mode searcher returned and, when a range
    bound is a number other than zero, one that passes the range filter.
    The selector sent at most one prompt to the model. *)
Theorem general_search_title_result
    (intent_mode_map : list (Py.str * Py.str))
    (_get_all_file_chunks : Py.str -> Py.str -> list SearchResult)
    (keyword_search vector_search hybrid_search :
       Py.str -> Py.str -> Py.str -> option (option Z * option Z) -> Py.str
       -> option (list SearchResult))
    (json_loads : Py.str -> Json.decoded)
    (chat_completion : Py.str -> option Py.str)
    (self : ChunkSelector.selector)
    (fund_code source_file search_info : Py.str)
    (start_page end_page start_chunk_id end_chunk_id : option Z)
    (expand_before expand_after : Z) :
  0 <= expand_before -> 0 <= expand_after ->
  let intent := fst (ProspectusSearchTool._parse_search_intent search_info) in
  let query := snd (ProspectusSearchTool._parse_search_intent search_info) in
  let all_chunks := _get_all_file_chunks fund_code source_file in
  let rechecked :=
    ProspectusSearchPipeline.truthy start_page
    || ProspectusSearchPipeline.truthy end_page
    || ProspectusSearchPipeline.truthy start_chunk_id
    || ProspectusSearchPipeline.truthy end_chunk_id in
  let run :=
    ProspectusSearchPipeline._search_general_content intent_mode_map
      _get_all_file_chunks keyword_search vector_search hybrid_search
      json_loads chat_completion self fund_code source_file search_info
      start_page end_page start_chunk_id end_chunk_id
      expand_before expand_after in
  intent = ProspectusSearchTool.TITLE ->
  Py.falsy (Py.strip query) = false ->
  PipelineSpec.succeeded (fst run) = true ->
  (exists limits best entry,
     let found :=
       ProspectusSearchPipeline._execute_search keyword_search vector_search
         hybrid_search query fund_code source_file
         (ProspectusSearchPipeline._resolve_search_mode intent_mode_map intent)
         limits intent in
     fst run
     = ProspectusSearchTool.Flat true (Some source_file)
         (Some (ProspectusSearchPipeline.entry_text entry))
         (ProspectusSearchPipeline.entry_start_page entry)
         (ProspectusSearchPipeline.entry_end_page entry)
         (ProspectusSearchPipeline.entry_start_chunk_id entry)
         (ProspectusSearchPipeline.entry_end_chunk_id entry) None
     /\ PipelineSpec.entry_around all_chunks expand_before expand_after
                                  best entry
     /\ In best found
     /\ (rechecked = true ->
         PipelineSpec.in_range start_page end_page start_chunk_id
                               end_chunk_id best))
  /\ (ChunkSelector.llm_requests (snd run) = ChunkSelector.llm_requests self
      \/ exists prompt,
           ChunkSelector.llm_requests (snd run)
           = ChunkSelector.llm_requests self ++ [prompt]).
Proof.
  intros Hb Ha. cbv zeta. intros Hintent Hquery Hok.
  pose proof (GeneralSearchFacts.search_cases intent_mode_map
                _get_all_file_chunks keyword_search vector_search hybrid_search
                json_loads chat_completion self fund_code source_file
                search_info start_page end_page start_chunk_id end_chunk_id
                expand_before expand_after) as H.
  cbv zeta in H.
  set (intent := fst (ProspectusSearchTool._parse_search_intent search_info)) in *.
  set (run := ProspectusSearchPipeline._search_general_content _ _ _ _ _ _ _ _
                _ _ _ _ _ _ _ _ _) in *.
  assert (Herr : forall message,
             fst run = ProspectusSearchTool._create_error_result message intent
             -> False).
  { intros message E. rewrite E in Hok.
    destruct (GeneralSearchFacts.error_result_facts message intent) as (Hs & _).
    congruence. }
  destruct H as [(Hall & Hrun)
    | [(Hall & Hg & Hr & Hrun)
    | (Hall & Hok' & [(Hblank & Hrun)
    | (Hblank & [(Hfound & Hrun)
    | [(Hfound & Hcands & Hrun)
    | [(Hcands & Hother & _)
    | (Hcands & _ & Hstate & Hres)]]])])]];
    try (apply (f_equal fst) in Hrun; cbn [fst] in Hrun;
         now destruct (Herr _ Hrun));
    try congruence.
  match type of Hstate with
  | _ = snd ?s => set (selection := s) in *
  end.
  match type of Hcands with
  | ?candidates <> [] =>
    pose proof (select_best_chunk_cases json_loads chat_completion search_info
                  candidates (_get_all_file_chunks fund_code source_file) true
                  intent self) as Hsel
  end.
  cbv zeta in Hsel. fold selection in Hsel.
  destruct Hsel as (Hbest & _ & Hrequests).
  destruct (fst selection) as [best|] eqn:Ebest;
    [|now destruct (Herr _ Hres)].
  destruct Hbest as [Hnone | (c & Hc & Hsome)]; [discriminate|].
  injection Hsome as <-. apply list_elem_of_In in Hc.
  split; [|now rewrite Hstate].
  pose proof (PipelineFacts.prepare_from_spec 1 [best]
                (_get_all_file_chunks fund_code source_file)
                expand_before expand_after Hb Ha) as [Haround _].
  cbv zeta in Haround. fold (ProspectusSearchPipeline._prepare_expanded_results
    [best] (_get_all_file_chunks fund_code source_file) expand_before
    expand_after) in Haround.
  destruct (ProspectusSearchPipeline._prepare_expanded_results [best] _ _ _)
    as [|entry entries]; inversion Haround as [|? ? ? ? Hentry _]; subst.
  cbn [ProspectusSearchPipeline._create_title_success_result] in Hres.
  match type of Hcands with
  | (if ?b then _ else _) <> [] => destruct b eqn:Erecheck
  end.
  - eexists; exists best, entry. cbv zeta.
    split; [exact Hres|]. split; [exact Hentry|].
    apply apply_range_limitations_In in Hc. destruct Hc as (Hin & Hrange).
    split; [exact Hin|]. intros _. exact Hrange.
  - eexists; exists best, entry. cbv zeta.
    split; [exact Hres|]. split; [exact Hentry|].
    split; [exact Hc|]. discriminate.
Qed.

Lemma general_search_title_result_witness :
  let run :=
    ProspectusSearchPipeline._search_general_content
      ProspectusSearchPipeline.DEFAULT_INTENT_MODE_MAP
      Sample.file_chunks (Sample.searcher [Sample.c3; Sample.c4; Sample.c5])
      (Sample.searcher []) (Sample.searcher []) Sample.decode_choice
      (Sample.always (Some (Sample.choice_reply (Py.utf8 "选项2"))))
      ChunkSelector.init (Py.utf8 "180101.SZ") (Py.utf8 "prospectus.pdf")
      Sample.title_query None None None None 1 0 in
  exists best entry,
    fst run
    = ProspectusSearchTool.Flat true (Some (Py.utf8 "prospectus.pdf"))
        (Some (ProspectusSearchPipeline.entry_text entry))
        (ProspectusSearchPipeline.entry_start_page entry)
        (ProspectusSearchPipeline.entry_end_page entry)
        (ProspectusSearchPipeline.entry_start_chunk_id entry)
        (ProspectusSearchPipeline.entry_end_chunk_id entry) None
    /\ PipelineSpec.entry_around
         (Sample.file_chunks (Py.utf8 "180101.SZ") (Py.utf8 "prospectus.pdf"))
         1 0 best entry
    /\ In best [Sample.c3; Sample.c4; Sample.c5].
Proof.
  cbv zeta.
  destruct (general_search_title_result
              ProspectusSearchPipeline.DEFAULT_INTENT_MODE_MAP
              Sample.file_chunks
              (Sample.searcher [Sample.c3; Sample.c4; Sample.c5])
              (Sample.searcher []) (Sample.searcher []) Sample.decode_choice
              (Sample.always (Some (Sample.choice_reply (Py.utf8 "选项2"))))
              ChunkSelector.init (Py.utf8 "180101.SZ")
              (Py.utf8 "prospectus.pdf") Sample.title_query
              None None None None 1 0)
    as [(limits & best & entry & Hres & Haround & Hin & _) _];
    [lia | lia | vm_compute; reflexivity | vm_compute; reflexivity
     | vm_compute; reflexivity |].
  exists best, entry. split; [exact Hres|]. split; [exact Haround|].
  exact Hin.
Defined.

(** ** The catalog lookup *)

Module DirectoryFacts.
Import ProspectusSearchTool DirectorySearcher.

Lemma find_directory_chunk_spec oracle id2text candidates :
  match find_directory_chunk oracle id2text candidates with
  | None =>
    Forall (fun c => oracle (combined_text id2text c) = false) candidates
  | Some directory_chunk =>
    exists rejected rest,
      candidates = rejected ++ directory_chunk :: rest
      /\ Forall (fun c => oracle (combined_text id2text c) = false) rejected
      /\ oracle (combined_text id2text directory_chunk) = true
  end.
Proof.
  induction candidates as [|c candidates IH]; cbn [find_directory_chunk].
  - constructor.
  - destruct (oracle (combined_text id2text c)) eqn:E.
    + exists [], candidates. repeat split; [constructor|exact E].
    + destruct (find_directory_chunk oracle id2text candidates) as [d|].
      * destruct IH as (rejected & rest & -> & Hrej & Hd).
        exists (c :: rejected), rest. repeat split; [now constructor|exact Hd].
      * now constructor.
Qed.

Lemma filter_sorted {A} (R : A -> A -> Prop) (f : A -> bool) l :
  StronglySorted R l -> StronglySorted R (List.filter f l).
Proof.
  induction 1 as [|x l Hs IH Hall]; cbn [List.filter]; [constructor|].
  destruct (f x); [|exact IH]. constructor; [exact IH|].
  apply List.Forall_forall. intros y Hy. apply List.filter_In in Hy.
  rewrite List.Forall_forall in Hall. now apply Hall.
Qed.

Lemma sorted_last_greatest (x : SearchResult) l :
  StronglySorted (fun a b => chunk_id a <= chunk_id b) (x :: l) ->
  In (List.last (x :: l) x) (x :: l)
  /\ forall c, In c (x :: l) -> chunk_id c <= chunk_id (List.last (x :: l) x).
Proof.
  revert x. induction l as [|y l IH]; intros x Hs.
  - cbn. split; [now left|]. intros c [<-|[]]. lia.
  - inversion Hs as [|? ? Hs' Hall]; subst.
    destruct (IH y Hs') as [Hin Hmax].
    assert (Hlast : List.last (x :: y :: l) x = List.last (y :: l) y).
    { cbn [List.last]. destruct l; [reflexivity|].
      clear. revert s. induction l as [|z l IHl]; intros s; [reflexivity|].
      cbn [List.last] in *. apply IHl. }
    rewrite Hlast. split; [now right|].
    intros c [<-|Hc]; [|now apply Hmax].
    rewrite List.Forall_forall in Hall.
    etransitivity; [apply (Hall y); now left|]. apply Hmax. now left.
Qed.
End DirectoryFacts.

(** X28: the catalog lookup always answers with the flat dictionary. It
    fails with one of three messages: the file has no hits, no hit has
    both characters of the word for catalog, or the model rejected every
    such hit; the message for a failed expansion is never returned.
    Otherwise the catalog chunk is the first candidate, in ascending
    order of chunk_id, that the model accepted, every candidate before it
    having been rejected; the content is the text of the hits from
    that chunk to seven chunk ids further, joined in ascending order, the
    first chunk id returned is that of the catalog chunk and the last is
    the largest id in that window. *)
Theorem get_directory_content_spec
    (_get_file_chunks_from_es : Py.str -> Py.str -> list SearchResult)
    (_is_directory_chunk_by_llm : Py.str -> bool)
    (fund_code source_file : Py.str) :
  let hits :=
    Py.sorted ChunkUtils.chunk_id_lt
              (_get_file_chunks_from_es fund_code source_file) in
  let candidates := List.filter DirectorySearcher.is_candidate hits in
  let accepted := fun chunk =>
    _is_directory_chunk_by_llm
      (DirectorySearcher.combined_text (DirectorySearcher.id2text_of hits)
                                       chunk) in
  let r :=
    DirectorySearcher.get_directory_content _get_file_chunks_from_es
      _is_directory_chunk_by_llm fund_code source_file in
  PipelineSpec.flat r = true
  /\ ((PipelineSpec.succeeded r = false
       /\ ((hits = []
            /\ PipelineSpec.error_of r = Some DirectorySearcher.NO_HITS)
           \/ (hits <> [] /\ candidates = []
               /\ PipelineSpec.error_of r = Some DirectorySearcher.NO_KEYWORD)
           \/ (candidates <> []
               /\ Forall (fun c => accepted c = false) candidates
               /\ PipelineSpec.error_of r
                  = Some DirectorySearcher.NOT_RECOGNISED)))
      \/ exists rejected directory_chunk rest window last_chunk_id,
           candidates = rejected ++ directory_chunk :: rest
           /\ Forall (fun c => accepted c = false) rejected
           /\ accepted directory_chunk = true
           /\ window
              = List.filter
                  (fun h => (chunk_id directory_chunk <=? chunk_id h)
                            && (chunk_id h <=? chunk_id directory_chunk + 7))
                  hits
           /\ r = ProspectusSearchTool.Flat true (Some source_file)
                    (Some (Py.join Py.empty (List.map text window)))
                    (fst (PageUtils.calculate_page_range window))
                    (snd (PageUtils.calculate_page_range window))
                    (Some (chunk_id directory_chunk)) (Some last_chunk_id)
                    None
           /\ Spec.greatest last_chunk_id (List.map chunk_id window)
           /\ last_chunk_id <= chunk_id directory_chunk + 7).
Proof.
  cbv zeta. unfold DirectorySearcher.get_directory_content.
  destruct (_get_file_chunks_from_es fund_code source_file) as [|h0 hs] eqn:Ees.
  { split; [reflexivity|]. left. split; [reflexivity|]. left. now split. }
  set (hits := Py.sorted ChunkUtils.chunk_id_lt (h0 :: hs)).
  assert (Hhits : hits <> [])
    by (apply PipelineFacts.sorted_nonempty; discriminate).
  destruct (List.filter DirectorySearcher.is_candidate hits)
    as [|c0 cs] eqn:Ecands.
  { split; [reflexivity|]. left. split; [reflexivity|]. right. left.
    now repeat split. }
  rewrite <- Ecands.
  pose proof (DirectoryFacts.find_directory_chunk_spec
                _is_directory_chunk_by_llm (DirectorySearcher.id2text_of hits)
                (List.filter DirectorySearcher.is_candidate hits)) as Hfind.
  destruct (DirectorySearcher.find_directory_chunk _ _ _) as [d|].
  2:{ split; [reflexivity|]. left. split; [reflexivity|]. right. right.
      split; [rewrite Ecands; discriminate|]. now split. }
  destruct Hfind as (rejected & rest & Hsplit & Hrej & Hd).
  assert (Hdin : In d hits).
  { assert (H : In d (List.filter DirectorySearcher.is_candidate hits))
      by (rewrite Hsplit; apply List.in_or_app; right; now left).
    now apply List.filter_In in H. }
  set (window := List.filter (DirectorySearcher.in_catalog_window (chunk_id d))
                             hits).
  assert (Hwin : forall h, In h window
                           <-> In h hits
                               /\ chunk_id d <= chunk_id h <= chunk_id d + 7).
  { intros h. unfold window. rewrite List.filter_In.
    unfold DirectorySearcher.in_catalog_window,
      DirectorySearcher.chunks_before, DirectorySearcher.chunks_after.
    rewrite andb_true_iff, !Z.leb_le. split; intros [H1 H2]; (split; [exact H1|lia]). }
  assert (Hdw : In d window) by (apply Hwin; split; [exact Hdin|lia]).
  assert (Hsorted : StronglySorted (fun a b => chunk_id a <= chunk_id b) window)
    by apply DirectoryFacts.filter_sorted, sorted_by_chunk_id.
  destruct window as [|first others] eqn:Ew; [destruct Hdw|].
  rewrite <- Ew in *.
  destruct (PageUtils.calculate_page_range window) as [sp ep] eqn:Ep.
  split; [reflexivity|]. right.
  exists rejected, d, rest, window, (chunk_id (List.last window first)).
  split; [exact Hsplit|]. split; [exact Hrej|]. split; [exact Hd|].
  assert (Hfirst : chunk_id first = chunk_id d).
  { assert (H1 : chunk_id d <= chunk_id first)
      by (apply Hwin; rewrite Ew; now left).
    assert (H2 : chunk_id first <= chunk_id d).
    { rewrite Ew in Hsorted, Hdw.
      inversion Hsorted as [|? ? _ Hall]; subst.
      destruct Hdw as [<-|Hdw]; [lia|].
      rewrite List.Forall_forall in Hall. now apply Hall. }
    lia. }
  pose proof Hsorted as Hlast. rewrite Ew in Hlast.
  apply DirectoryFacts.sorted_last_greatest in Hlast.
  rewrite <- Ew in Hlast. destruct Hlast as [Hlin Hlmax].
  split.
  { unfold window, DirectorySearcher.in_catalog_window,
      DirectorySearcher.chunks_before, DirectorySearcher.chunks_after.
    apply List.filter_ext. intros h. now rewrite Z.sub_0_r. }
  split.
  { unfold DirectorySearcher._create_success_result.
    now rewrite Hfirst, Ep. }
  split.
  - split; [now apply List.in_map|].
    intros z Hz. apply List.in_map_iff in Hz. destruct Hz as (c & <- & Hc).
    now apply Hlmax.
  - apply Hwin in Hlin. lia.
Qed.

(** ** The entry point for tool calls *)

Module ToolEntryFacts.
Import ProspectusSearchTool ToolEntry.

Section Facts.
Variable repr : Json.value -> Py.str.
Variable lower : Py.str -> Py.str.

Lemma and_then_returned {A B} (m : Driver.attempt A)
    (k : A -> Driver.attempt B) y :
  and_then m k = Driver.Returned y ->
  exists x, m = Driver.Returned x /\ k x = Driver.Returned y.
Proof. destruct m as [x|msg]; [|discriminate]. intros H. now exists x. Qed.

Lemma parse_non_negative_int_spec value label default n :
  _parse_non_negative_int repr value label default = Driver.Returned n ->
  0 <= default -> 0 <= n.
Proof.
  unfold _parse_non_negative_int. intros H Hd.
  destruct value as [v|]; [|now injection H as <-].
  destruct (int v) as [parsed|] eqn:Ei.
  - destruct (parsed <? 0) eqn:E.
    + destruct v; discriminate.
    + apply Z.ltb_ge in E. destruct v; injection H as <-; lia.
  - destruct v; try discriminate. now injection H as <-.
Qed.

Lemma parse_optional_int_absent value label result :
  _parse_optional_int repr value label = Driver.Returned result ->
  value = None \/ value = Some Json.Null ->
  result = None.
Proof. intros H [-> | ->]; now injection H as <-. Qed.

Lemma normalize_arguments_spec arguments p :
  _normalize_arguments repr lower arguments = Driver.Returned p ->
  0 <= p_expand_before p /\ 0 <= p_expand_after p
  /\ Py.strip (p_fund_code p) = p_fund_code p
  /\ (exists fund_code, Json.get arguments Driver.FUND_CODE = Some fund_code
                        /\ p_fund_code p = Py.strip (str repr fund_code))
  /\ (exists search_info,
        Json.get arguments Driver.SEARCH_INFO = Some search_info
        /\ (forall s, search_info = Json.Str s -> p_search_info p = s)
        /\ (search_info = Json.Null -> p_search_info p = Py.empty))
  /\ (Driver.is_missing arguments START_PAGE = true -> p_start_page p = None)
  /\ (Driver.is_missing arguments END_PAGE = true -> p_end_page p = None)
  /\ (Driver.is_missing arguments START_CHUNK_ID = true ->
      p_start_chunk_id p = None)
  /\ (Driver.is_missing arguments END_CHUNK_ID = true ->
      p_end_chunk_id p = None).
Proof.
  unfold _normalize_arguments. intros H.
  destruct (Json.get arguments Driver.FUND_CODE) as [fund_code|];
    [|discriminate].
  destruct (Json.get arguments Driver.SEARCH_INFO) as [search_info|];
    [|discriminate].
  apply and_then_returned in H. destruct H as (is_expansion & _ & H).
  apply and_then_returned in H. destruct H as (start_page & H1 & H).
  apply and_then_returned in H. destruct H as (end_page & H2 & H).
  apply and_then_returned in H. destruct H as (start_chunk_id & H3 & H).
  apply and_then_returned in H. destruct H as (end_chunk_id & H4 & H).
  apply and_then_returned in H. destruct H as (expand_before & H5 & H).
  apply and_then_returned in H. destruct H as (expand_after & H6 & H).
  injection H as <-.
  cbn [p_expand_before p_expand_after p_fund_code p_search_info p_start_page
       p_end_page p_start_chunk_id p_end_chunk_id].
  assert (Hmissing : forall key result,
             _parse_optional_int repr (Json.get arguments key) key
             = Driver.Returned result ->
             Driver.is_missing arguments key = true -> result = None).
  { intros key result Hp Hm. apply (parse_optional_int_absent _ _ _ Hp).
    unfold Driver.is_missing in Hm.
    destruct (Json.get arguments key) as [[]|]; try discriminate; auto. }
  split; [apply (parse_non_negative_int_spec _ _ _ _ H5); lia|].
  split; [apply (parse_non_negative_int_spec _ _ _ _ H6); lia|].
  split; [apply strip_idem|].
  split; [now exists fund_code|].
  split.
  { exists search_info. split; [reflexivity|].
    split; [now intros s ->|now intros ->]. }
  repeat split; eauto.
Qed.
End Facts.

End ToolEntryFacts.

(** X29: the entry point either hands the orchestrator arguments it has
    normalised or answers with the wrapper error of the guessed intent.
    Normalised arguments have margins that are not negative, a fund code
    without white space at either end, the search text as it was given,
    and no range bound where the caller gave none or gave null. Arguments
    that lack a required key, or give a negative number as a margin, are
    never handed over. *)
Theorem call_prospectus_search_spec
    (repr : Json.value -> Py.str) (lower : Py.str -> Py.str)
    (search_prospectus :
       ToolEntry.params -> Driver.attempt ProspectusSearchTool.response)
    (arguments : Driver.jdict) :
  let r :=
    ToolEntry.call_prospectus_search repr lower search_prospectus arguments in
  let normalized := ToolEntry._normalize_arguments repr lower arguments in
  let intent := ToolEntry.guessed_intent arguments in
  ((exists p,
      normalized = Driver.Returned p
      /\ 0 <= ToolEntry.p_expand_before p /\ 0 <= ToolEntry.p_expand_after p
      /\ Py.strip (ToolEntry.p_fund_code p) = ToolEntry.p_fund_code p
      /\ (forall s, Json.get arguments Driver.SEARCH_INFO = Some (Json.Str s) ->
                    ToolEntry.p_search_info p = s)
      /\ (Driver.is_missing arguments ToolEntry.START_PAGE = true ->
          ToolEntry.p_start_page p = None)
      /\ (Driver.is_missing arguments ToolEntry.END_PAGE = true ->
          ToolEntry.p_end_page p = None)
      /\ (Driver.is_missing arguments ToolEntry.START_CHUNK_ID = true ->
          ToolEntry.p_start_chunk_id p = None)
      /\ (Driver.is_missing arguments ToolEntry.END_CHUNK_ID = true ->
          ToolEntry.p_end_chunk_id p = None)
      /\ match search_prospectus p with
         | Driver.Returned result => r = result
         | Driver.Raised exc =>
           r = ProspectusSearchTool._build_wrapper_error intent
                 (Py.utf8 "tool_execution_error: " ++ exc)
         end)
   \/ (exists exc,
         normalized = Driver.Raised exc
         /\ r = ProspectusSearchTool._build_wrapper_error intent
                  (Py.utf8 "invalid_arguments: " ++ exc)))
  /\ (Json.get arguments Driver.FUND_CODE = None
      \/ Json.get arguments Driver.SEARCH_INFO = None
      \/ (exists n, n < 0
                    /\ (Json.get arguments ToolEntry.EXPAND_BEFORE
                        = Some (Json.Int n)
                        \/ Json.get arguments ToolEntry.EXPAND_AFTER
                           = Some (Json.Int n))) ->
      exists exc, normalized = Driver.Raised exc).
Proof.
  cbv zeta. split.
  - unfold ToolEntry.call_prospectus_search.
    destruct (ToolEntry._normalize_arguments repr lower arguments)
      as [p|exc] eqn:En.
    + left. exists p.
      destruct (ToolEntryFacts.normalize_arguments_spec repr lower arguments p
                  En)
        as (Hb & Ha & Hf & _ & (search_info & Hs & Hstr & _) & H1 & H2 & H3 & H4).
      split; [reflexivity|]. split; [exact Hb|]. split; [exact Ha|].
      split; [exact Hf|].
      split; [intros s E; rewrite Hs in E; injection E as ->; now apply Hstr|].
      repeat (split; [assumption|]).
      destruct (search_prospectus p); reflexivity.
    + right. exists exc. now split.
  - intros Hbad.
    destruct (ToolEntry._normalize_arguments repr lower arguments)
      as [p|exc] eqn:En; [|now exists exc].
    exfalso. unfold ToolEntry._normalize_arguments in En.
    destruct (Json.get arguments Driver.FUND_CODE) as [fund_code|] eqn:Ef;
      [|discriminate].
    destruct (Json.get arguments Driver.SEARCH_INFO) as [search_info|] eqn:Es;
      [|discriminate].
    destruct Hbad as [Hbad | [Hbad | (n & Hn & Hbad)]]; try discriminate.
    apply ToolEntryFacts.and_then_returned in En.
    destruct En as (is_expansion & _ & En).
    apply ToolEntryFacts.and_then_returned in En.
    destruct En as (start_page & _ & En).
    apply ToolEntryFacts.and_then_returned in En.
    destruct En as (end_page & _ & En).
    apply ToolEntryFacts.and_then_returned in En.
    destruct En as (start_chunk_id & _ & En).
    apply ToolEntryFacts.and_then_returned in En.
    destruct En as (end_chunk_id & _ & En).
    apply ToolEntryFacts.and_then_returned in En.
    destruct En as (expand_before & H5 & En).
    apply ToolEntryFacts.and_then_returned in En.
    destruct En as (expand_after & H6 & _).
    assert (Hneg : forall key result,
               Json.get arguments key = Some (Json.Int n) ->
               ToolEntry._parse_non_negative_int repr (Json.get arguments key)
                                                 key 0
               = Driver.Returned result -> False).
    { intros key result Hk Hp. rewrite Hk in Hp.
      unfold ToolEntry._parse_non_negative_int in Hp. cbn [ToolEntry.int] in Hp.
      apply Z.ltb_lt in Hn. rewrite Hn in Hp. discriminate. }
    destruct Hbad as [Hk|Hk].
    + exact (Hneg ToolEntry.EXPAND_BEFORE expand_before Hk H5).
    + exact (Hneg ToolEntry.EXPAND_AFTER expand_after Hk H6).
Qed.

(** ** The index parser *)

(** [parse_chunk_selection_response] on replies of three options. *)
Example parse_chunk_selection_response_samples :
  List.map (fun raw => LLMUtilsSelection.parse_chunk_selection_response
                         Sample.decode_choice raw 3)
    [ Sample.choice_reply (Py.utf8 "选项1");
      Sample.choice_reply (Py.utf8 "选项3");
      Sample.choice_reply (Py.utf8 "选项0");
      Sample.choice_reply (Py.utf8 "选项4");
      Sample.choice_reply ChunkSelector.NO_MATCH;
      Py.utf8 "I cannot decide." ]
  = [0; 2; 0; 0; 0; 0].
Proof. vm_compute. reflexivity. Qed.

(** X30: the index [parse_chunk_selection_response] returns is never
    negative and, when there is at least one option, is the index of one
    of them; whatever goes wrong, it answers 0, the first option. An
    index other than 0 is only returned when the reply decodes to an
    object whose selection is a string in which the first option number
    is that index plus one. *)
Theorem parse_chunk_selection_response_in_range
    (json_loads : Py.str -> Json.decoded) (raw_response : Py.str)
    (total_options : Z) :
  let index :=
    LLMUtilsSelection.parse_chunk_selection_response json_loads raw_response
      total_options in
  0 <= index
  /\ (0 < total_options -> index < total_options)
  /\ (index <> 0 ->
      exists data selection digits,
        LLMUtils.parse_llm_json_response json_loads raw_response
        = Json.Dict data
        /\ Json.get data ChunkSelector.BEST_CHOICE = Some (Json.Str selection)
        /\ ChunkSelector.search_option selection = Some digits
        /\ Py.int digits = Some (index + 1)).
Proof.
  cbv zeta. unfold LLMUtilsSelection.parse_chunk_selection_response.
  destruct (LLMUtils.parse_llm_json_response json_loads raw_response)
    as [| | | | |l|data] eqn:Ep; try (repeat split; [lia|lia|congruence]).
  destruct (Json.get data ChunkSelector.BEST_CHOICE) as [[| | | |s| |]|] eqn:Eg;
    try (repeat split; [lia|lia|congruence]).
  - destruct (ChunkSelector.search_option s) as [digits|] eqn:Es;
      [|repeat split; [lia|lia|congruence]].
    destruct (Py.int digits) as [option_num|] eqn:Ei;
      [|repeat split; [lia|lia|congruence]].
    cbv zeta.
    destruct ((0 <=? option_num - 1) && (option_num - 1 <? total_options))
      eqn:E; [|repeat split; [lia|lia|congruence]].
    apply andb_true_iff in E. destruct E as [E1 E2].
    apply Z.leb_le in E1. apply Z.ltb_lt in E2.
    split; [exact E1|]. split; [intros _; exact E2|].
    intros _. exists data, s, digits.
    split; [reflexivity|]. split; [exact Eg|]. split; [exact Es|].
    rewrite Ei. f_equal. lia.
  - assert (E : ChunkSelector.search_option Py.empty = None) by reflexivity.
    rewrite E. repeat split; [lia|lia|congruence].
Qed.
